(** * pypeflow.task : staleness oracle, execution wrapper, task construction

    A shallow embedding of [src/pypeflow/task.py].  Python dictionaries are
    finite maps ([gmap]); a loop over [d.iteritems()] / [d.items()] /
    [d.values()] is a recursion over [map_to_list d], whose order is fixed
    but arbitrary, as the order of a Python 2 dictionary is.  Dictionaries
    are objects: a task attribute holds the address of a dictionary, and the
    dictionaries themselves live in a heap, so that two names for one
    dictionary see each other's updates.  Exceptions are the [Raised]
    outcome of a computation. *)

From Stdlib Require Import ZArith String Ascii List Bool Lia.
From Stdlib Require Import Decimal DecimalNat DecimalString.
From stdpp Require Import base gmap sets list strings pretty.

Local Open Scope Z_scope.
Local Open Scope string_scope.

(** ** Outcomes of a Python computation *)

Inductive Exn : Type :=
| PypeError
| TaskFunctionError
| AssertionError
| TypeError
| AttributeError
| IndexError
| ValueError
| KeyError
| OtherError (msg : string).

Inductive Outcome (A : Type) : Type :=
| Returned (a : A)
| Raised (e : Exn).
Arguments Returned {A} a.
Arguments Raised {A} e.

Definition is_Returned {A : Type} (o : Outcome A) : bool :=
  match o with
  | Returned _ => true
  | Raised _ => false
  end.

#[global] Instance Exn_eq_dec : EqDecision Exn.
Proof. solve_decision. Defined.

(** ** The data-object collaborator *)

Module Data.

(** A task attached to a data object is referred to by its URL, the
    task's globally unique identifier. *)
Definition TaskRef : Type := string.

(** Modelled from the spec: the DataObject collaborator of [data.py], which
    is not part of the sources.  A data object has an identity URL, a local
    path and a read-only flag. *)
Record FileAttrs : Type := mkFile {
  URL : string;
  localFileName : string;
  readOnly : bool
}.

(** Modelled from the spec: the splittable variant of [data.py]
    additionally exposes a chunk count ([nChunk]), its per-chunk
    sub-objects ([getSplittedFiles()]) and the optional scatter and gather
    tasks ([getScatterTask()], [getGatherTask()], [None] when absent). *)
Record Chunks : Type := mkChunks {
  nChunk : Z;
  getSplittedFiles : list FileAttrs;
  getScatterTask : option TaskRef;
  getGatherTask : option TaskRef
}.

(** [chunks o = None] is an object without the attribute [nChunk]
    ([hasattr(o, "nChunk")] is false) and without [getSplittedFiles]. *)
Record DataObject : Type := mkObj {
  attrs : FileAttrs;
  chunks : option Chunks
}.

Definition plain (f : FileAttrs) : DataObject :=
  {| attrs := f; chunks := None |}.

#[global] Instance FileAttrs_eq_dec : EqDecision FileAttrs.
Proof. solve_decision. Defined.
#[global] Instance Chunks_eq_dec : EqDecision Chunks.
Proof. solve_decision. Defined.
#[global] Instance DataObject_eq_dec : EqDecision DataObject.
Proof. solve_decision. Defined.

(** Modelled from the spec: what [data.py] reads from the file system when
    a property of a data object is asked for.  [exists_ w o] is [o.exists],
    [timeStamp w o] is [o.timeStamp] (the modification time, on an integer
    clock), and [obj_lt w] is the order in which Python 2 compares two
    distinct objects that define no comparison of their own. *)
Record World : Type := mkWorld {
  exists_ : DataObject -> bool;
  timeStamp : DataObject -> Z;
  obj_lt : DataObject -> DataObject -> bool
}.

End Data.

Abbreviation DataObject := Data.DataObject.
Abbreviation World := Data.World.

(** Values of the [parameters] dictionary. *)
Inductive PyVal : Type :=
| PyNone
| PyBool (b : bool)
| PyInt (z : Z)
| PyStr (s : string).

#[global] Instance PyVal_eq_dec : EqDecision PyVal.
Proof. solve_decision. Defined.

(** ** [timeStampCompare] *)

(** The triples [(f.timeStamp, tag, f)] that the comparator sorts. *)
Definition Stamp : Type := Z * ascii * DataObject.

Definition stamp_ts (x : Stamp) : Z := fst (fst x).
Definition stamp_tag (x : Stamp) : ascii := snd (fst x).
Definition stamp_obj (x : Stamp) : DataObject := snd x.

(** Python compares tuples at the first position where they are not equal;
    tuples equal at every position are not less than one another. *)
Definition stamp_lt (w : World) (x y : Stamp) : bool :=
  if negb (Z.eqb (stamp_ts x) (stamp_ts y)) then Z.ltb (stamp_ts x) (stamp_ts y)
  else if negb (Ascii.eqb (stamp_tag x) (stamp_tag y))
       then Ascii.ltb (stamp_tag x) (stamp_tag y)
  else if bool_decide (stamp_obj x = stamp_obj y) then false
  else Data.obj_lt w (stamp_obj x) (stamp_obj y).

(** [min(l)]: the running best is replaced by an item that is less than it;
    [None] stands for the [ValueError] of an empty sequence. *)
Definition py_min (lt : Stamp -> Stamp -> bool) (l : list Stamp) : option Stamp :=
  match l with
  | [] => None
  | x :: rest =>
      Some (fold_left (fun best item => if lt item best then item else best) rest x)
  end.

(** [max(l)]: the running best is replaced by an item that is greater. *)
Definition py_max (lt : Stamp -> Stamp -> bool) (l : list Stamp) : option Stamp :=
  match l with
  | [] => None
  | x :: rest =>
      Some (fold_left (fun best item => if lt best item then item else best) rest x)
  end.

Definition inputStamps (w : World) (d : gmap string DataObject) : list Stamp :=
  (fun kf : string * DataObject =>
     (Data.timeStamp w (snd kf), "A"%char, snd kf)) <$> map_to_list d.

Definition outputStamp (w : World) (f : DataObject) : Stamp :=
  (Data.timeStamp w f, "B"%char, f).

Definition outputStamps (w : World) (d : gmap string DataObject) : list Stamp :=
  (fun kf : string * DataObject => outputStamp w (snd kf)) <$> map_to_list d.

(** The loop over the outputs: it stops at the first output that does not
    exist, with the run flag set. *)
Fixpoint scan_outputs (w : World) (items : list (string * DataObject))
    (outputDataObjsTS : list Stamp) : bool * list Stamp :=
  match items with
  | [] => (false, outputDataObjsTS)
  | (_, f) :: rest =>
      if negb (Data.exists_ w f) then (true, outputDataObjsTS)
      else scan_outputs w rest (outputDataObjsTS ++ [outputStamp w f])
  end.

Definition timeStampCompare (w : World)
    (inputDataObjs outputDataObjs : gmap string DataObject)
    (parameters : gmap string PyVal) : Outcome bool :=
  let inputDataObjsTS := inputStamps w inputDataObjs in
  let '(runFlag, outputDataObjsTS) :=
    scan_outputs w (map_to_list outputDataObjs) [] in
  let runFlag := if bool_decide (outputDataObjs = ∅) then true else runFlag in
  if negb runFlag && negb (bool_decide (inputDataObjs = ∅)) then
    match py_min (stamp_lt w) outputDataObjsTS with
    | None => Raised ValueError
    | Some minOut =>
        match py_max (stamp_lt w) inputDataObjsTS with
        | None => Raised ValueError
        | Some maxIn =>
            if stamp_lt w minOut maxIn then Returned true else Returned runFlag
        end
    end
  else Returned runFlag.

(** ** The heap of dictionaries *)

Definition loc : Type := positive.

(** Dictionaries of data objects and dictionaries of parameter values, by
    address; [next_loc] is the address the next new dictionary gets. *)
Record Heap : Type := mkHeap {
  dataDicts : gmap loc (gmap string DataObject);
  paramDicts : gmap loc (gmap string PyVal);
  next_loc : loc
}.

Definition dataAt (h : Heap) (l : loc) : gmap string DataObject :=
  default ∅ (dataDicts h !! l).

Definition paramAt (h : Heap) (l : loc) : gmap string PyVal :=
  default ∅ (paramDicts h !! l).

(** Computations that read and update the heap and may raise. *)
Definition M (A : Type) : Type := Heap -> Outcome A * Heap.

Definition ret {A : Type} (a : A) : M A := fun h => (Returned a, h).

Definition raise {A : Type} (e : Exn) : M A := fun h => (Raised e, h).

Definition bind {A B : Type} (m : M A) (k : A -> M B) : M B :=
  fun h =>
    match m h with
    | (Returned a, h') => k a h'
    | (Raised e, h') => (Raised e, h')
    end.

Notation "'let!' x ':=' m 'in' k" := (bind m (fun x => k))
  (at level 10, x name, m at level 100, k at level 200).

Definition lift {A : Type} (o : Outcome A) : M A := fun h => (o, h).

(** [{...}]: a new dictionary object. *)
Definition new_data_dict (d : gmap string DataObject) : M loc :=
  fun h =>
    (Returned (next_loc h),
     {| dataDicts := <[next_loc h := d]> (dataDicts h);
        paramDicts := paramDicts h;
        next_loc := Pos.succ (next_loc h) |}).

Definition new_param_dict (d : gmap string PyVal) : M loc :=
  fun h =>
    (Returned (next_loc h),
     {| dataDicts := dataDicts h;
        paramDicts := <[next_loc h := d]> (paramDicts h);
        next_loc := Pos.succ (next_loc h) |}).

(** [d.update(other)], in place: the entries of [other] win. *)
Definition data_dict_update (l other : loc) : M unit :=
  fun h =>
    (Returned tt,
     {| dataDicts := <[l := dataAt h other ∪ dataAt h l]> (dataDicts h);
        paramDicts := paramDicts h;
        next_loc := next_loc h |}).

(** [d[k] = v], in place. *)
Definition param_dict_setitem (l : loc) (k : string) (v : PyVal) (h : Heap) : Heap :=
  {| dataDicts := dataDicts h;
     paramDicts := <[l := <[k := v]> (paramAt h l)]> (paramDicts h);
     next_loc := next_loc h |}.

Definition get_data (l : loc) : M (gmap string DataObject) :=
  fun h => (Returned (dataAt h l), h).

(** ** [PypeTaskBase] *)

Inductive Status : Type :=
| TaskInitialized
| TaskDone
| TaskFail.

#[global] Instance Status_eq_dec : EqDecision Status.
Proof. solve_decision. Defined.

(** A compare function [f(inputDataObjs, outputDataObjs, parameters)]; it
    reads the file system it is called in and may raise. *)
Definition CompareFn : Type :=
  World -> gmap string DataObject -> gmap string DataObject ->
  gmap string PyVal -> Outcome bool.

(** The attributes of a task.  The four dictionaries are held by address.
    [_taskFun] is the name of the wrapped function; the function itself is
    an argument of [run]. *)
Record PypeTaskBase : Type := mkTask {
  URL : string;
  _taskFun : string;
  _referenceMD5 : option string;
  _status : Status;
  inputDataObjs : loc;
  outputDataObjs : loc;
  parameters : loc;
  mutableDataObjs : loc;
  chunk_id : option Z;
  _codeMD5digest : string;
  _paramMD5digest : string;
  _compareFunctions : list CompareFn;
  distributed : bool
}.

(** The keyword arguments that the constructor looks at.  Every constructor
    function of the module sets [kwargv["_taskFun"]] before it instantiates
    a task, so that entry is not optional here. *)
Record Kwargs : Type := mkKwargs {
  kw_taskFun : string;
  kw_inputDataObjs : option loc;
  kw_outputDataObjs : option loc;
  kw_parameters : option loc;
  kw_mutableDataObjs : option loc;
  kw_inputs : option loc;
  kw_outputs : option loc;
  kw_mutables : option loc;
  kw_chunk_id : option Z;
  kw_codeMD5digest : option string;
  kw_paramMD5digest : option string;
  kw_compareFunctions : option (list CompareFn)
}.

(** Modelled from the spec: [PypeObject.__init__] of [common.py], which is
    not part of the sources, stores the URL and every keyword argument as an
    attribute of the new object.  So after it an attribute such as
    [inputDataObjs] is the very dictionary the caller passed, and the
    constructor makes a new empty one only when none was passed. *)
Definition default_data_attr (a : option loc) : M loc :=
  match a with
  | Some l => ret l
  | None => new_data_dict ∅
  end.

Definition default_param_attr (a : option loc) : M loc :=
  match a with
  | Some l => ret l
  | None => new_param_dict ∅
  end.

(** [if "inputs" in kwargv: self.inputDataObjs.update(kwargv["inputs"])] *)
Definition merge_alias (l : loc) (alias : option loc) : M unit :=
  match alias with
  | Some other => data_dict_update l other
  | None => ret tt
  end.

Definition is_readOnly (o : DataObject) : bool := Data.readOnly (Data.attrs o).

(** The attributes that the constructor assigns itself: lines 79 to 105, and
    lines 111 to 116, which no entry of a dictionary can replace as they
    come after the loop of lines 108 and 109. *)
Definition bind_attributes (URL : string) (kw : Kwargs) : M PypeTaskBase :=
  let! inputDataObjs := default_data_attr (kw_inputDataObjs kw) in
  let! outputDataObjs := default_data_attr (kw_outputDataObjs kw) in
  let! parameters := default_param_attr (kw_parameters kw) in
  let! mutableDataObjs := default_data_attr (kw_mutableDataObjs kw) in
  let! _ := merge_alias inputDataObjs (kw_inputs kw) in
  let! _ := merge_alias outputDataObjs (kw_outputs kw) in
  let! _ := merge_alias mutableDataObjs (kw_mutables kw) in
  ret {| URL := URL;
         _taskFun := kw_taskFun kw;
         _referenceMD5 := None;
         _status := TaskInitialized;
         inputDataObjs := inputDataObjs;
         outputDataObjs := outputDataObjs;
         parameters := parameters;
         mutableDataObjs := mutableDataObjs;
         chunk_id := kw_chunk_id kw;
         _codeMD5digest := default "" (kw_codeMD5digest kw);
         _paramMD5digest := default "" (kw_paramMD5digest kw);
         _compareFunctions := default [timeStampCompare] (kw_compareFunctions kw);
         distributed := false |}.

(** *** The attributes copied from the dictionaries *)

(** What [vars(self).update] stores under a key of a dictionary: a data
    object of the inputs, the outputs or the mutables, or a value of the
    parameters. *)
Inductive AttrValue : Type :=
| AttrData (o : DataObject)
| AttrParam (v : PyVal).

#[global] Instance AttrValue_eq_dec : EqDecision AttrValue.
Proof. solve_decision. Defined.

(** A task object as its constructor leaves it.  [assigned] holds the
    attributes that the constructor assigns itself.  [written] holds the
    entries that the loop of lines 108 and 109 copied from the four
    dictionaries and that no later assignment replaced.  The attribute
    [name] of the object is [written !! name] where that is defined, also
    when the constructor assigned [name] before the loop, as it does for
    [URL], [_status], [_referenceMD5], [_taskFun] and the four dictionaries;
    it is the field of [assigned] otherwise.  A key named like a method
    hides the method in the same way.  The methods below are those of a task
    none of whose attributes was replaced. *)
Record TaskObject : Type := mkTaskObject {
  assigned :> PypeTaskBase;
  written : gmap string AttrValue
}.

(** Modelled from the spec: a data object of [data.py] is no mapping and
    cannot be iterated, so [dict.update] raises [TypeError] when it is
    given one.  This is one round of the loop of lines 108 and 109 for the
    dictionary [d] of data objects that the constructor bound to the
    attribute [name]; [w] holds the entries written so far.  When [w] has
    an entry [name], [self.__dict__[name]] is that data object and no
    longer [d]. *)
Definition update_from (name : string) (d w : gmap string DataObject)
    : Outcome (gmap string DataObject) :=
  match w !! name with
  | Some _ => Raised TypeError
  | None => Returned (d ∪ w)
  end.

(** [for defaultAttr in ["inputDataObjs", "outputDataObjs",
    "mutableDataObjs", "parameters"]:
    vars(self).update(self.__dict__[defaultAttr])]: the entries of a later
    dictionary replace those of an earlier one. *)
Definition vars_update (self : PypeTaskBase) : M (gmap string AttrValue) :=
  let! ins := get_data (inputDataObjs self) in
  let! w := lift (update_from "inputDataObjs" ins ∅) in
  let! outs := get_data (outputDataObjs self) in
  let! w := lift (update_from "outputDataObjs" outs w) in
  let! muts := get_data (mutableDataObjs self) in
  let! w := lift (update_from "mutableDataObjs" muts w) in
  match w !! "parameters" with
  | Some _ => raise TypeError
  | None =>
      fun h =>
        (Returned ((AttrParam <$> paramAt h (parameters self)) ∪ (AttrData <$> w)),
         h)
  end.

(** All the entries of the four dictionaries of a task, those of a later
    dictionary of the loop over those of an earlier one. *)
Definition dictionary_entries (h : Heap) (self : PypeTaskBase)
    : gmap string AttrValue :=
  (AttrParam <$> paramAt h (parameters self))
  ∪ (AttrData <$> (dataAt h (mutableDataObjs self)
                   ∪ (dataAt h (outputDataObjs self)
                      ∪ (dataAt h (inputDataObjs self) ∪ ∅)))).

(** The names that lines 111 to 116 assign after the loop; [chunk_id] is
    [kwargv.get("chunk_id")]. *)
Definition assigned_after (chunk_id : option Z) : list string :=
  (match chunk_id with Some _ => ["chunk_id"] | None => [] end)
  ++ ["_codeMD5digest"; "_paramMD5digest"; "_compareFunctions"].

(** Modelled from the spec: a data object of [data.py] has no attribute
    [values]; nor has a string, a number, a truth value or [None].  This is
    [self.outputDataObjs.values()] of line 118, where [w] holds the entries
    written over the attributes and [outs] is the dictionary that the
    constructor bound to [outputDataObjs]. *)
Definition outputDataObjs_values (w : gmap string AttrValue)
    (outs : gmap string DataObject) : Outcome (list DataObject) :=
  match w !! "outputDataObjs" with
  | Some _ => Raised AttributeError
  | None => Returned (snd <$> map_to_list outs)
  end.

(** [PypeTaskBase.__init__]: after the assignments and the loop of lines 108
    and 109, the last loop raises [PypeError] at the first output whose
    [readOnly] is [True]. *)
Definition PypeTaskBase__init__ (URL : string) (kw : Kwargs) : M TaskObject :=
  let! self := bind_attributes URL kw in
  let! w := vars_update self in
  let w := foldr delete w (assigned_after (kw_chunk_id kw)) in
  let! outs := get_data (outputDataObjs self) in
  let! values := lift (outputDataObjs_values w outs) in
  if existsb is_readOnly values
  then raise PypeError
  else ret {| assigned := self; written := w |}.

Definition set_distributed (b : bool) (t : PypeTaskBase) : PypeTaskBase :=
  {| URL := URL t; _taskFun := _taskFun t; _referenceMD5 := _referenceMD5 t;
     _status := _status t; inputDataObjs := inputDataObjs t;
     outputDataObjs := outputDataObjs t; parameters := parameters t;
     mutableDataObjs := mutableDataObjs t; chunk_id := chunk_id t;
     _codeMD5digest := _codeMD5digest t; _paramMD5digest := _paramMD5digest t;
     _compareFunctions := _compareFunctions t; distributed := b |}.

(** [PypeDistributiableTaskBase.__init__]: [self.distributed = True] comes
    after the constructor of the base class. *)
Definition PypeDistributiableTaskBase__init__ (URL : string) (kw : Kwargs)
    : M TaskObject :=
  let! self := PypeTaskBase__init__ URL kw in
  ret {| assigned := set_distributed true self;
         written := delete "distributed" (written self) |}.

(** The classes a constructor function can be asked to instantiate. *)
Inductive TaskType : Type :=
| PypeTaskBaseT
| PypeThreadTaskBaseT
| PypeDistributiableTaskBaseT.

Definition instantiate (T : TaskType) (URL : string) (kw : Kwargs) : M TaskObject :=
  match T with
  | PypeTaskBaseT | PypeThreadTaskBaseT => PypeTaskBase__init__ URL kw
  | PypeDistributiableTaskBaseT => PypeDistributiableTaskBase__init__ URL kw
  end.

(** The names that a constructor of the class [T] assigns after the loop. *)
Definition assigned_last (T : TaskType) (chunk_id : option Z) : list string :=
  match T with
  | PypeDistributiableTaskBaseT => ["distributed"]
  | _ => []
  end ++ assigned_after chunk_id.

Definition setReferenceMD5 (self : PypeTaskBase) (md5Str : option string) : PypeTaskBase :=
  {| URL := URL self; _taskFun := _taskFun self; _referenceMD5 := md5Str;
     _status := _status self; inputDataObjs := inputDataObjs self;
     outputDataObjs := outputDataObjs self; parameters := parameters self;
     mutableDataObjs := mutableDataObjs self; chunk_id := chunk_id self;
     _codeMD5digest := _codeMD5digest self;
     _paramMD5digest := _paramMD5digest self;
     _compareFunctions := _compareFunctions self;
     distributed := distributed self |}.

Definition setStatus (self : PypeTaskBase) (status : Status) : PypeTaskBase :=
  {| URL := URL self; _taskFun := _taskFun self;
     _referenceMD5 := _referenceMD5 self;
     _status := status; inputDataObjs := inputDataObjs self;
     outputDataObjs := outputDataObjs self; parameters := parameters self;
     mutableDataObjs := mutableDataObjs self; chunk_id := chunk_id self;
     _codeMD5digest := _codeMD5digest self;
     _paramMD5digest := _paramMD5digest self;
     _compareFunctions := _compareFunctions self;
     distributed := distributed self |}.

Definition getStatus (self : PypeTaskBase) : Status := _status self.

(** [[f(ins, outs, params) for f in fs]]: every function is called, in
    order; the first exception ends the comprehension. *)
Fixpoint call_compareFunctions (w : World)
    (ins outs : gmap string DataObject) (params : gmap string PyVal)
    (fs : list CompareFn) : Outcome (list bool) :=
  match fs with
  | [] => Returned []
  | f :: rest =>
      match f w ins outs params with
      | Raised e => Raised e
      | Returned b =>
          match call_compareFunctions w ins outs params rest with
          | Raised e => Raised e
          | Returned bs => Returned (b :: bs)
          end
      end
  end.

Definition py_any (bs : list bool) : bool := existsb id bs.

(** [self._referenceMD5 is not None and self._referenceMD5 != self._codeMD5digest] *)
Definition code_changed (self : PypeTaskBase) : bool :=
  match _referenceMD5 self with
  | Some r => negb (String.eqb r (_codeMD5digest self))
  | None => false
  end.

(** [any([f(self.inputDataObjs, self.outputDataObjs, self.parameters)
          for f in self._compareFunctions])] *)
Definition any_compareFunctions (w : World) (h : Heap) (self : PypeTaskBase)
    : Outcome bool :=
  match call_compareFunctions w (dataAt h (inputDataObjs self))
          (dataAt h (outputDataObjs self)) (paramAt h (parameters self))
          (_compareFunctions self) with
  | Returned bs => Returned (py_any bs)
  | Raised e => Raised e
  end.

(** [_getRunFlag]: the flag returned and the task after the call. *)
Definition _getRunFlag (w : World) (h : Heap) (self : PypeTaskBase)
    : Outcome bool * PypeTaskBase :=
  if code_changed self
  then (Returned true, setReferenceMD5 self (Some (_codeMD5digest self)))
  else (any_compareFunctions w h self, self).

Definition isSatisfied (w : World) (h : Heap) (self : PypeTaskBase)
    : Outcome bool * PypeTaskBase :=
  match _getRunFlag w h self with
  | (Returned b, self') => (Returned (negb b), self')
  | (Raised e, self') => (Raised e, self')
  end.

(** ** The execution wrapper *)

(** What a running task can see and change: the file system, the heap and
    its own attributes. *)
Record State : Type := mkState {
  world : World;
  heap : Heap;
  self : PypeTaskBase
}.

(** [self._runTask(self, *argv, **kwargv)]: the call of the wrapped
    function, which returns some value or raises. *)
Definition TaskFun : Type := State -> Outcome PyVal * State.

Definition with_status (st : State) (status : Status) : State :=
  {| world := world st; heap := heap st; self := setStatus (self st) status |}.

(** [[(k,o) for (k,o) in outputDataObjs.iteritems() if not o.exists]] *)
Definition missing_outputs (w : World) (outputDataObjs : gmap string DataObject)
    : list (string * DataObject) :=
  filter (fun ko : string * DataObject => negb (Data.exists_ w (snd ko)) = true)
         (map_to_list outputDataObjs).

(** [PypeTaskBase.run].  The locals [inputDataObjs] and [parameters] hold the
    addresses of the dictionaries bound to the attributes on entry; after
    the call they are compared, as dictionaries, with the dictionaries bound
    to the attributes then.  [syncDirectories] only lists directories and
    swallows the errors of that, so it changes nothing here. *)
Definition run (taskFun : TaskFun) (st : State) : Outcome bool * State :=
  let inputDataObjs_ := inputDataObjs (self st) in
  let parameters_ := parameters (self st) in
  match taskFun st with
  | (Raised e, st1) => (Raised e, st1)
  | (Returned rtn, st1) =>
      if negb (bool_decide (dataAt (heap st1) (inputDataObjs (self st1))
                            = dataAt (heap st1) inputDataObjs_))
         || negb (bool_decide (paramAt (heap st1) (parameters (self st1))
                               = paramAt (heap st1) parameters_))
      then (Raised TaskFunctionError, st1)
      else
        let missing :=
          missing_outputs (world st1)
            (dataAt (heap st1) (outputDataObjs (self st1))) in
        match missing with
        | _ :: _ => (Returned true, with_status st1 TaskFail)
        | [] => (Returned true, with_status st1 TaskDone)
        end
  end.

(** [PypeTaskBase.__call__]: any exception sets the status to fail and is
    raised again. *)
Definition PypeTaskBase__call__ (taskFun : TaskFun) (st : State)
    : Outcome bool * State :=
  match run taskFun st with
  | (Raised e, st1) => (Raised e, with_status st1 TaskFail)
  | (Returned b, st1) => (Returned b, st1)
  end.

(** ** String formatting *)

(** [Nat.iter k D0 d]: [k] zeros in front of the digits [d]. *)
Definition zero_pad (k : nat) (d : Decimal.uint) : Decimal.uint :=
  Nat.iter k Decimal.D0 d.

(** ['%0<width>d' % n] for a natural number [n]. *)
Definition fmt_0d (width n : nat) : string :=
  let d := Nat.to_uint n in
  DecimalString.NilEmpty.string_of_uint
    (zero_pad (width - Decimal.nb_digits d) d).

(** [s.replace(old, new)] for a non-empty [old]: occurrences are replaced
    from the left and do not overlap. *)
Fixpoint str_replace_from (old new s : string) (skip : nat) : string :=
  match s with
  | EmptyString => EmptyString
  | String c rest =>
      match skip with
      | S k => str_replace_from old new rest k
      | O =>
          if String.prefix old s
          then new ++ str_replace_from old new rest (String.length old - 1)
          else String c (str_replace_from old new rest O)
      end
  end.

Definition str_replace (old new s : string) : string :=
  str_replace_from old new s 0.

(** The characters [str.strip()] removes. *)
Definition is_space (c : ascii) : bool :=
  let n := nat_of_ascii c in
  (Nat.eqb n 32 || (Nat.leb 9 n && Nat.leb n 13))%bool.

Fixpoint lstrip (s : string) : string :=
  match s with
  | EmptyString => EmptyString
  | String c rest => if is_space c then lstrip rest else s
  end.

Definition strip (s : string) : string :=
  String.rev (lstrip (String.rev (lstrip s))).

(** ** [_unique_name] *)

(** ['%s.%02d' % (name, n)] *)
Definition try_name (name : string) (n : nat) : string :=
  name ++ "." ++ fmt_0d 2 n.

(** The [while True] loop, entered with the counter at [n]; [fuel] bounds
    the number of rounds, and [None] is a loop that has not ended within
    them. *)
Fixpoint find_free (fuel : nat) (_auto_names : gset string) (name : string)
    (n : nat) : option string :=
  match fuel with
  | O => None
  | S fuel' =>
      let n := S n in
      if bool_decide (try_name name n ∉ _auto_names)
      then Some (try_name name n)
      else find_free fuel' _auto_names name n
  end.

(** [_unique_name(name)]: the name returned and the registry after the
    call. *)
Definition _unique_name (fuel : nat) (_auto_names : gset string) (name : string)
    : option (string * gset string) :=
  if bool_decide (name ∈ _auto_names) then
    match find_free fuel _auto_names name 0 with
    | Some name' => Some (name', {[name']} ∪ _auto_names)
    | None => None
    end
  else Some (name, {[name]} ∪ _auto_names).

(** A sequence of calls, each on the registry the previous one left. *)
Fixpoint unique_names (fuel : nat) (_auto_names : gset string)
    (names : list string) : option (list string * gset string) :=
  match names with
  | [] => Some ([], _auto_names)
  | name :: rest =>
      match _unique_name fuel _auto_names name with
      | None => None
      | Some (r, reg) =>
          match unique_names fuel reg rest with
          | None => None
          | Some (rs, reg') => Some (r :: rs, reg')
          end
      end
  end.

(** ** [PypeTaskCollection] *)

Record PypeTaskCollection : Type := mkCollection {
  tasks_URL : string;
  _tasks : list TaskObject;
  _scatterGatherTasks : list Data.TaskRef
}.

Definition addTask (c : PypeTaskCollection) (task : TaskObject)
    : PypeTaskCollection :=
  {| tasks_URL := tasks_URL c;
     _tasks := _tasks c ++ [task];
     _scatterGatherTasks := _scatterGatherTasks c |}.

Definition addScatterGatherTask (c : PypeTaskCollection) (task : Data.TaskRef)
    : PypeTaskCollection :=
  {| tasks_URL := tasks_URL c;
     _tasks := _tasks c;
     _scatterGatherTasks := _scatterGatherTasks c ++ [task] |}.

Definition getTasks (c : PypeTaskCollection) : list TaskObject := _tasks c.

Definition getScatterGatherTasks (c : PypeTaskCollection) : list Data.TaskRef :=
  _scatterGatherTasks c.

(** ** The decomposing constructors *)

(** What [inspect] tells about the wrapped function; [getsource] is [None]
    when [inspect.getsource] raises [IOError]. *)
Record Function : Type := mkFunction {
  func_name : string;
  getfile : string;
  getsource : option string
}.

(** [copy.copy(kwargv)] with the entries a decomposer overwrites. *)
Definition newKwargv (kw : Kwargs) (taskFun : string) (ins outs : loc)
    (codeMD5 paramMD5 : string) (chunk : option Z) : Kwargs :=
  {| kw_taskFun := taskFun;
     kw_inputDataObjs := Some ins;
     kw_outputDataObjs := Some outs;
     kw_parameters := kw_parameters kw;
     kw_mutableDataObjs := kw_mutableDataObjs kw;
     kw_inputs := kw_inputs kw;
     kw_outputs := kw_outputs kw;
     kw_mutables := kw_mutables kw;
     kw_chunk_id := chunk;
     kw_codeMD5digest := Some codeMD5;
     kw_paramMD5digest := Some paramMD5;
     kw_compareFunctions := kw_compareFunctions kw |}.

(** The first loop of [PypeScatteredTasks], over the inputs. *)
Fixpoint collect_inputs (items : list (string * DataObject))
    (nChunk : option Z) (scatteredInput : list string)
    (tasks : PypeTaskCollection)
    : Outcome (option Z * list string * PypeTaskCollection) :=
  match items with
  | [] => Returned (nChunk, scatteredInput, tasks)
  | (inputKey, inputDO) :: rest =>
      match Data.chunks inputDO with
      | Some c =>
          match nChunk with
          | Some n =>
              if bool_decide (Data.nChunk c = n)
              then collect_inputs rest nChunk (scatteredInput ++ [inputKey]) tasks
              else Raised AssertionError
          | None =>
              collect_inputs rest (Some (Data.nChunk c))
                (scatteredInput ++ [inputKey])
                (match Data.getScatterTask c with
                 | Some t => addScatterGatherTask tasks t
                 | None => tasks
                 end)
          end
      | None => collect_inputs rest nChunk scatteredInput tasks
      end
  end.

(** The second loop, over the outputs. *)
Fixpoint collect_outputs (items : list (string * DataObject))
    (nChunk : option Z) (tasks : PypeTaskCollection)
    : Outcome (option Z * PypeTaskCollection) :=
  match items with
  | [] => Returned (nChunk, tasks)
  | (outputKey, outputDO) :: rest =>
      match Data.chunks outputDO with
      | Some c =>
          match nChunk with
          | Some n =>
              if bool_decide (Data.nChunk c = n)
              then collect_outputs rest nChunk
                     (match Data.getGatherTask c with
                      | Some t => addScatterGatherTask tasks t
                      | None => tasks
                      end)
              else Raised AssertionError
          | None => collect_outputs rest (Some (Data.nChunk c)) tasks
          end
      | None => collect_outputs rest nChunk tasks
      end
  end.

(** [o.getSplittedFiles()[i]] *)
Definition getSplittedFile (o : DataObject) (i : nat) : Outcome DataObject :=
  match Data.chunks o with
  | None => Raised AttributeError
  | Some c =>
      match Data.getSplittedFiles c !! i with
      | Some f => Returned (Data.plain f)
      | None => Raised IndexError
      end
  end.

(** The inputs of the sub-task of chunk [i]. *)
Fixpoint subTaskInput (items : list (string * DataObject))
    (scatteredInput : list string) (i : nat) (acc : gmap string DataObject)
    : Outcome (gmap string DataObject) :=
  match items with
  | [] => Returned acc
  | (inputKey, inputDO) :: rest =>
      if bool_decide (inputKey ∈ scatteredInput) then
        match getSplittedFile inputDO i with
        | Returned f => subTaskInput rest scatteredInput i (<[inputKey := f]> acc)
        | Raised e => Raised e
        end
      else subTaskInput rest scatteredInput i (<[inputKey := inputDO]> acc)
  end.

(** The outputs of the sub-task of chunk [i]. *)
Fixpoint subTaskOutput (items : list (string * DataObject)) (i : nat)
    (acc : gmap string DataObject) : Outcome (gmap string DataObject) :=
  match items with
  | [] => Returned acc
  | (outputKey, outputDO) :: rest =>
      match getSplittedFile outputDO i with
      | Returned f => subTaskOutput rest i (<[outputKey := f]> acc)
      | Raised e => Raised e
      end
  end.

(** The file name of a task of the file-of-file-names mapper is its
    attribute [in_f], which no constructor assigns: it is there when the
    loop of lines 108 and 109 wrote it, and then the last dictionary that has
    the name gave it.  A parameter value is not a data object: it has no
    [readOnly], which the constructor of the aggregating task asks for. *)
Definition getattr_data (t : TaskObject) (name : string) : Outcome DataObject :=
  match written t !! name with
  | Some (AttrData o) => Returned o
  | Some (AttrParam _) => Raised AttributeError
  | None => Raised AttributeError
  end.

(** [dict([("FOFNout%03d" % t[0], t[1].in_f) for t in enumerate(tasks)])] *)
Fixpoint allFOFNOutDataObjs (ts : list TaskObject) (idx : nat)
    (acc : gmap string DataObject) : Outcome (gmap string DataObject) :=
  match ts with
  | [] => Returned acc
  | t :: rest =>
      match getattr_data t "in_f" with
      | Returned o =>
          allFOFNOutDataObjs rest (S idx) (<["FOFNout" ++ fmt_0d 3 idx := o]> acc)
      | Raised e => Raised e
      end
  end.

(** [lambda inObjs, outObj, params: False] *)
Definition never_stale : CompareFn := fun _ _ _ _ => Returned false.

(** The keyword arguments of the aggregating task of the mapper. *)
Definition pseudoScatterTask_kwargv (ins outs : loc) : Kwargs :=
  {| kw_taskFun := "pseudoScatterTask";
     kw_inputDataObjs := Some ins;
     kw_outputDataObjs := Some outs;
     kw_parameters := None;
     kw_mutableDataObjs := None;
     kw_inputs := None;
     kw_outputs := None;
     kw_mutables := None;
     kw_chunk_id := None;
     kw_codeMD5digest := None;
     kw_paramMD5digest := None;
     kw_compareFunctions := Some [never_stale] |}.

Section Constructors.

(** [hashlib.md5(s).hexdigest()] and [repr(kwargv)], taken as given. *)
Variable md5_hexdigest : string -> string.
Variable repr_kwargv : string -> Kwargs -> string.

(** [makePypeLocalFile] of [data.py], taken as given. *)
Variable makePypeLocalFile : string -> DataObject.

Variable T : TaskType.
Variable taskFun : Function.

Definition codeMD5digest : string :=
  match getsource taskFun with
  | Some src => md5_hexdigest src
  | None => ""
  end.

Definition default_tasks_URL (URL : option string) : string :=
  match URL with
  | Some u => u
  | None => "tasks://" ++ getfile taskFun ++ "/" ++ func_name taskFun
  end.

(** One round of the loop [for i in range(nChunk)].  A dictionary enters the
    heap once it is filled. *)
Definition chunk_task (URL : string) (kw : Kwargs)
    (inputDataObjs outputDataObjs : gmap string DataObject)
    (scatteredInput : list string) (i : nat) : M TaskObject :=
  let! subIn := lift (subTaskInput (map_to_list inputDataObjs) scatteredInput i ∅) in
  let! subOut := lift (subTaskOutput (map_to_list outputDataObjs) i ∅) in
  let! ins := new_data_dict subIn in
  let! outs := new_data_dict subOut in
  instantiate T (str_replace "tasks" "task" URL ++ "/" ++ fmt_0d 3 i)
    (newKwargv kw (func_name taskFun) ins outs codeMD5digest
       (md5_hexdigest (repr_kwargv URL kw)) (Some (Z.of_nat i))).

Fixpoint chunk_tasks (URL : string) (kw : Kwargs)
    (inputDataObjs outputDataObjs : gmap string DataObject)
    (scatteredInput : list string) (range : list nat)
    (tasks : PypeTaskCollection) : M PypeTaskCollection :=
  match range with
  | [] => ret tasks
  | i :: rest =>
      let! t := chunk_task URL kw inputDataObjs outputDataObjs scatteredInput i in
      chunk_tasks URL kw inputDataObjs outputDataObjs scatteredInput rest
        (addTask tasks t)
  end.

(** [PypeScatteredTasks(...)(taskFun)].  [kwargv["inputDataObjs"]] and
    [kwargv["outputDataObjs"]] raise [KeyError] when absent, and
    [range(None)] raises [TypeError]. *)
Definition PypeScatteredTasks (URL : option string) (kw : Kwargs)
    : M PypeTaskCollection :=
  match kw_inputDataObjs kw, kw_outputDataObjs kw with
  | Some insl, Some outsl =>
      let! inputDataObjs := get_data insl in
      let! outputDataObjs := get_data outsl in
      let URL := default_tasks_URL URL in
      let tasks := {| tasks_URL := URL; _tasks := [];
                      _scatterGatherTasks := [] |} in
      let! r1 := lift (collect_inputs (map_to_list inputDataObjs) None [] tasks) in
      let '(nChunk, scatteredInput, tasks) := r1 in
      let! r2 := lift (collect_outputs (map_to_list outputDataObjs) nChunk tasks) in
      let '(nChunk, tasks) := r2 in
      match nChunk with
      | None => raise TypeError
      | Some n =>
          chunk_tasks URL kw inputDataObjs outputDataObjs scatteredInput
            (seq 0 (Z.to_nat n)) tasks
      end
  | _, _ => raise KeyError
  end.

(** The task of one non-blank line [fn] of the manifest. *)
Definition line_task (outTemplateFunc : string -> string) (URL : string)
    (kw : Kwargs) (fn : string) : M TaskObject :=
  let! ins := new_data_dict {["in_f" := makePypeLocalFile fn]} in
  let! outs :=
    new_data_dict {["out_f" := makePypeLocalFile (outTemplateFunc fn)]} in
  instantiate T (str_replace "tasks" "task" URL ++ "/" ++ md5_hexdigest fn)
    (newKwargv kw (func_name taskFun) ins outs codeMD5digest
       (md5_hexdigest (repr_kwargv URL kw)) (kw_chunk_id kw)).

(** The loop of [PypeFOFNMapTasks] over the lines of the manifest. *)
Fixpoint line_tasks (outTemplateFunc : string -> string) (URL : string)
    (kw : Kwargs) (FOFN : list string) (tasks : PypeTaskCollection)
    : M PypeTaskCollection :=
  match FOFN with
  | [] => ret tasks
  | fn :: rest =>
      let fn := strip fn in
      if Nat.eqb (String.length fn) 0
      then line_tasks outTemplateFunc URL kw rest tasks
      else
        let! t := line_task outTemplateFunc URL kw fn in
        line_tasks outTemplateFunc URL kw rest (addTask tasks t)
  end.

(** The aggregating task made after the loop. *)
Definition pseudoScatterTask (FOFNFileName : string)
    (tasks : PypeTaskCollection) : M TaskObject :=
  let! outObjs := lift (allFOFNOutDataObjs (_tasks tasks) 0 ∅) in
  let! ins := new_data_dict {["FOFNin" := makePypeLocalFile FOFNFileName]} in
  let! outs := new_data_dict outObjs in
  instantiate T ("task://pseudoScatterTask/" ++ FOFNFileName)
    (pseudoScatterTask_kwargv ins outs).

(** [PypeFOFNMapTasks(...)(taskFun)], on the lines [FOFN] of the file
    [FOFNFileName]. *)
Definition PypeFOFNMapTasks (FOFNFileName : string) (FOFN : list string)
    (outTemplateFunc : string -> string) (URL : option string) (kw : Kwargs)
    : M PypeTaskCollection :=
  let URL := default_tasks_URL URL in
  let tasks := {| tasks_URL := URL; _tasks := []; _scatterGatherTasks := [] |} in
  let! tasks := line_tasks outTemplateFunc URL kw FOFN tasks in
  let! t := pseudoScatterTask FOFNFileName tasks in
  ret (addTask tasks t).

End Constructors.

(** ** Concrete inputs *)

Definition testfile_in : DataObject :=
  Data.plain (Data.mkFile "file://localhost/tmp/pypetest/testfile_in"
                "/tmp/pypetest/testfile_in" false).

Definition testfile_out : DataObject :=
  Data.plain (Data.mkFile "file://localhost/tmp/pypetest/testfile_out"
                "/tmp/pypetest/testfile_out" false).

Definition test_inputs : gmap string DataObject := {["test_in" := testfile_in]}.
Definition test_outputs : gmap string DataObject := {["test_out" := testfile_out]}.

(** A file system in which every file exists, the input was written at
    [t_in] and everything else at [t_out]. *)
Definition world_at (t_in t_out : Z) : World :=
  {| Data.exists_ := fun _ => true;
     Data.timeStamp := fun o => if bool_decide (o = testfile_in) then t_in else t_out;
     Data.obj_lt := fun _ _ => false |}.

(** The dictionaries of the doctest of [PypeTask], at the addresses 1 to 4. *)
Definition test_heap : Heap :=
  {| dataDicts := <[1%positive := test_inputs]>
                    (<[2%positive := test_outputs]> (<[4%positive := ∅]> ∅));
     paramDicts := {[3%positive := {["a" := PyStr "I am a"]}]};
     next_loc := 5%positive |}.

Definition test_task : PypeTaskBase :=
  {| URL := "task://tmp/pypetest/test";
     _taskFun := "test";
     _referenceMD5 := None;
     _status := TaskInitialized;
     inputDataObjs := 1%positive;
     outputDataObjs := 2%positive;
     parameters := 3%positive;
     mutableDataObjs := 4%positive;
     chunk_id := None;
     _codeMD5digest := "0cc175b9c0f1b6a831c399e269772661";
     _paramMD5digest := "92eb5ffee6ae2fec3ad71c777531578f";
     _compareFunctions := [timeStampCompare];
     distributed := false |}.

Definition test_state (w : World) : State :=
  {| world := w; heap := test_heap; self := test_task |}.

(** The task object of the doctest, with the entries of its dictionaries as
    attributes. *)
Definition test_object : TaskObject :=
  {| assigned := test_task; written := dictionary_entries test_heap test_task |}.

Definition set_parameters (t : PypeTaskBase) (l : loc) : PypeTaskBase :=
  {| URL := URL t; _taskFun := _taskFun t; _referenceMD5 := _referenceMD5 t;
     _status := _status t; inputDataObjs := inputDataObjs t;
     outputDataObjs := outputDataObjs t; parameters := l;
     mutableDataObjs := mutableDataObjs t; chunk_id := chunk_id t;
     _codeMD5digest := _codeMD5digest t; _paramMD5digest := _paramMD5digest t;
     _compareFunctions := _compareFunctions t; distributed := distributed t |}.

(** A task function with the body [self.parameters["a"] = "changed"]. *)
Definition body_mutates_parameters : TaskFun :=
  fun st =>
    (Returned PyNone,
     {| world := world st;
        heap := param_dict_setitem (parameters (self st)) "a" (PyStr "changed") (heap st);
        self := self st |}).

(** A task function with the body [self.parameters = {"a": "changed"}]. *)
Definition body_rebinds_parameters : TaskFun :=
  fun st =>
    (Returned PyNone,
     {| world := world st;
        heap := snd (new_param_dict {["a" := PyStr "changed"]} (heap st));
        self := set_parameters (self st) (next_loc (heap st)) |}).

(** A compare function that raises. *)
Definition failing_compare : CompareFn := fun _ _ _ _ => Raised (OtherError "compare").



(** [PypeTask(inputs=..., outputs=...)] *)
Definition alias_kwargv : Kwargs :=
  {| kw_taskFun := "test";
     kw_inputDataObjs := None; kw_outputDataObjs := None;
     kw_parameters := None; kw_mutableDataObjs := None;
     kw_inputs := Some 1%positive; kw_outputs := Some 2%positive;
     kw_mutables := None; kw_chunk_id := None;
     kw_codeMD5digest := None; kw_paramMD5digest := None;
     kw_compareFunctions := None |}.

(** What the caller declares as outputs: the entries of [outputs] over those
    of [outputDataObjs]. *)
Definition declared_outputs (kw : Kwargs) (h : Heap) : gmap string DataObject :=
  match kw_outputs kw with Some l => dataAt h l | None => ∅ end
  ∪ match kw_outputDataObjs kw with Some l => dataAt h l | None => ∅ end.

(** Every dictionary passed to a constructor is one that was made before. *)
Definition allocated (h : Heap) (a : option loc) : Prop :=
  match a with
  | Some l => (l < next_loc h)%positive
  | None => True
  end.

(** The inputs, the mutables and the parameters that the caller declares,
    in the same way. *)
Definition declared_inputs (kw : Kwargs) (h : Heap) : gmap string DataObject :=
  match kw_inputs kw with Some l => dataAt h l | None => ∅ end
  ∪ match kw_inputDataObjs kw with Some l => dataAt h l | None => ∅ end.

Definition declared_mutables (kw : Kwargs) (h : Heap) : gmap string DataObject :=
  match kw_mutables kw with Some l => dataAt h l | None => ∅ end
  ∪ match kw_mutableDataObjs kw with Some l => dataAt h l | None => ∅ end.

Definition declared_parameters (kw : Kwargs) (h : Heap) : gmap string PyVal :=
  match kw_parameters kw with Some l => paramAt h l | None => ∅ end.

(** The keys of all the dictionaries that the keyword arguments bring. *)
Definition kw_keys (kw : Kwargs) (h : Heap) : gset string :=
  dom (declared_inputs kw h) ∪ dom (declared_outputs kw h)
  ∪ dom (declared_mutables kw h) ∪ dom (declared_parameters kw h).

(** The dictionaries of data objects that the keyword arguments bring. *)
Definition kw_data_dicts (kw : Kwargs) : list loc :=
  omap id [kw_inputDataObjs kw; kw_outputDataObjs kw; kw_mutableDataObjs kw;
           kw_inputs kw; kw_outputs kw; kw_mutables kw].

(** The dictionaries of data objects are different objects, and all the
    dictionaries were made before. *)
Definition distinct_dicts (kw : Kwargs) (h : Heap) : Prop :=
  NoDup (kw_data_dicts kw) /\
  Forall (fun l => (l < next_loc h)%positive) (kw_data_dicts kw) /\
  allocated h (kw_parameters kw).


(** A splittable input with a scatter task and a splittable output with a
    gather task, of two chunks each. *)
Definition chunk_file (name : string) (i : nat) : Data.FileAttrs :=
  Data.mkFile ("file://localhost/tmp/pypetest/" ++ fmt_0d 3 i ++ "_" ++ name)
    ("/tmp/pypetest/" ++ fmt_0d 3 i ++ "_" ++ name) false.

Definition split_in : DataObject :=
  {| Data.attrs := Data.mkFile "file://localhost/tmp/pypetest/in" "/tmp/pypetest/in" false;
     Data.chunks := Some {| Data.nChunk := 2;
                            Data.getSplittedFiles := [chunk_file "in" 0; chunk_file "in" 1];
                            Data.getScatterTask := Some "task://scatter/in";
                            Data.getGatherTask := None |} |}.

Definition split_out : DataObject :=
  {| Data.attrs := Data.mkFile "file://localhost/tmp/pypetest/out" "/tmp/pypetest/out" false;
     Data.chunks := Some {| Data.nChunk := 2;
                            Data.getSplittedFiles := [chunk_file "out" 0; chunk_file "out" 1];
                            Data.getScatterTask := None;
                            Data.getGatherTask := Some "task://gather/out" |} |}.

(** [inputDataObjs] at address 1 and [outputDataObjs] at address 2. *)
Definition scatter_heap (ins outs : gmap string DataObject) : Heap :=
  {| dataDicts := <[1%positive := ins]> (<[2%positive := outs]> ∅);
     paramDicts := ∅;
     next_loc := 3%positive |}.

Definition scatter_kwargv : Kwargs :=
  {| kw_taskFun := "test";
     kw_inputDataObjs := Some 1%positive; kw_outputDataObjs := Some 2%positive;
     kw_parameters := None; kw_mutableDataObjs := None;
     kw_inputs := None; kw_outputs := None;
     kw_mutables := None; kw_chunk_id := None;
     kw_codeMD5digest := None; kw_paramMD5digest := None;
     kw_compareFunctions := None |}.

Definition test_function : Function :=
  {| func_name := "test"; getfile := "/tmp/pypetest/test.py"; getsource := None |}.

(** Stand-ins for the digest and for [repr]. *)
Definition no_digest (s : string) : string := "md5-of-" ++ s.
Definition no_repr (URL : string) (kw : Kwargs) : string := "".

Definition test_scatter (ins outs : gmap string DataObject)
    : Outcome PypeTaskCollection * Heap :=
  PypeScatteredTasks no_digest no_repr PypeTaskBaseT test_function None
    scatter_kwargv (scatter_heap ins outs).

(** The gather task of an output, when it has a chunk count and a gather
    task. *)
Definition gather_of (ko : string * DataObject) : option Data.TaskRef :=
  match Data.chunks (snd ko) with
  | Some c => Data.getGatherTask c
  | None => None
  end.

(** A manifest of two files and a blank line, and the mapper run on it. *)
Definition fofn_lines : list string :=
  ["/tmp/pypetest/a.fa" ++ String "010" ""; String "010" ""; "  /tmp/pypetest/b.fa  "].

Definition local_file (fn : string) : DataObject :=
  Data.plain (Data.mkFile ("file://localhost" ++ fn) fn false).

Definition plain_kwargv : Kwargs :=
  {| kw_taskFun := "";
     kw_inputDataObjs := None; kw_outputDataObjs := None;
     kw_parameters := None; kw_mutableDataObjs := None;
     kw_inputs := None; kw_outputs := None;
     kw_mutables := None; kw_chunk_id := None;
     kw_codeMD5digest := None; kw_paramMD5digest := None;
     kw_compareFunctions := None |}.

Definition empty_heap : Heap :=
  {| dataDicts := ∅; paramDicts := ∅; next_loc := 1%positive |}.

Definition test_fofn : Outcome PypeTaskCollection * Heap :=
  PypeFOFNMapTasks no_digest no_repr local_file PypeThreadTaskBaseT test_function
    "/tmp/pypetest/file.fofn" fofn_lines (fun fn => fn ++ ".out") None
    plain_kwargv empty_heap.

(** ** Heaps that grow *)

(** [h'] still holds every dictionary that [h] holds below its next
    address. *)
Definition extends (h h' : Heap) : Prop :=
  (next_loc h <= next_loc h')%positive /\
  forall l : loc, (l < next_loc h)%positive ->
            dataDicts h' !! l = dataDicts h !! l /\
            paramDicts h' !! l = paramDicts h !! l.

(** The four dictionaries of the task were made before. *)
Definition task_allocated (h : Heap) (t : PypeTaskBase) : Prop :=
  (inputDataObjs t < next_loc h)%positive /\
  (outputDataObjs t < next_loc h)%positive /\
  (parameters t < next_loc h)%positive /\
  (mutableDataObjs t < next_loc h)%positive.

(** What the scatter decomposer makes of chunk [i], as the heap [h] holds it.
    [aliasIn] and [aliasOut] are the entries of the short cuts [inputs] and
    [outputs], which the constructor puts over the dictionaries that the
    decomposer has made for the chunk. *)
Definition chunk_task_made (T : TaskType) (tasksURL : string)
    (ins outs aliasIn aliasOut : gmap string DataObject) (sc : list string)
    (h : Heap) (i : nat) (t : TaskObject) : Prop :=
  task_allocated h t /\
  URL t = str_replace "tasks" "task" tasksURL ++ "/" ++ fmt_0d 3 i /\
  chunk_id t = Some (Z.of_nat i) /\ _status t = TaskInitialized /\
  (exists subIn, subTaskInput (map_to_list ins) sc i ∅ = Returned subIn /\
                 dataAt h (inputDataObjs t) = aliasIn ∪ subIn) /\
  (exists subOut, subTaskOutput (map_to_list outs) i ∅ = Returned subOut /\
                  dataAt h (outputDataObjs t) = aliasOut ∪ subOut) /\
  written t = foldr delete (dictionary_entries h t)
                (assigned_last T (Some (Z.of_nat i))) /\
  written t !! "outputDataObjs" = None.

(** The keyword arguments bring no dictionary besides those the mapper
    sets. *)
Definition no_dicts (kw : Kwargs) : Prop :=
  kw_parameters kw = None /\ kw_mutableDataObjs kw = None /\
  kw_inputs kw = None /\ kw_outputs kw = None /\ kw_mutables kw = None.


(** ** The call made by [_runTask] *)

(** What [inspect.getargspec] tells about the wrapped function: the names of
    its parameters, the names of its [*args] and [**kwargs] parameters when
    it has them, and its default values when it has any. *)
Record ArgSpec : Type := mkArgSpec {
  args : list string;
  varargs : option string;
  keywords : option string;
  defaults : option (list PyVal)
}.

(** A positional argument: the task itself or a value. *)
Inductive PyArg : Type :=
| ArgSelf
| ArgVal (v : PyVal).

(** A call of the function with positional and keyword arguments. *)
Record Call : Type := mkCall {
  positional : list PyArg;
  keyword : gmap string PyVal
}.

(** [l[-n:]]: the last [n] items, and the whole list for [n = 0] or for [n]
    beyond the length. *)
Definition last_items {A : Type} (n : nat) (l : list A) : list A :=
  if Nat.eqb n 0 then l else drop (length l - n) l.

(** [for a in defaultArg: nkwarg[a] = kwargv[a]] *)
Fixpoint collect_nkwarg (defaultArg : list string) (kwargv : gmap string PyVal)
    (nkwarg : gmap string PyVal) : Outcome (gmap string PyVal) :=
  match defaultArg with
  | [] => Returned nkwarg
  | a :: rest =>
      match kwargv !! a with
      | Some v => collect_nkwarg rest kwargv (<[a := v]> nkwarg)
      | None => Raised KeyError
      end
  end.

(** [_runTask] on the arguments [argv] and [kwargv]: the call of
    [self._taskFun] it makes, or the exception it raises before the call. *)
Definition _runTask (spec : ArgSpec) (argv : list PyArg)
    (kwargv : gmap string PyVal) : Outcome Call :=
  match keywords spec with
  | Some _ => Returned {| positional := ArgSelf :: argv; keyword := kwargv |}
  | None =>
      match varargs spec with
      | Some _ => Returned {| positional := ArgSelf :: argv; keyword := ∅ |}
      | None =>
          if negb (Nat.eqb (length (args spec)) 0) then
            match defaults spec with
            | Some ds =>
                match collect_nkwarg (last_items (length ds) (args spec)) kwargv ∅ with
                | Returned nkwarg =>
                    Returned {| positional := ArgSelf :: argv; keyword := nkwarg |}
                | Raised e => Raised e
                end
            | None => Returned {| positional := [ArgSelf]; keyword := ∅ |}
            end
          else Returned {| positional := [ArgSelf]; keyword := ∅ |}
      end
  end.

(** The arguments [run] passes on: [self._runTask(self, *argv, **kwargv)]
    after [argv.extend(self._argv)] and [kwargv.update(self._kwargv)]. *)
Definition run_call (spec : ArgSpec) (argv _argv : list PyArg)
    (kwargv _kwargv : gmap string PyVal) : Outcome Call :=
  _runTask spec (ArgSelf :: (argv ++ _argv)%list) (_kwargv ∪ kwargv).

(** ** [PypeThreadTaskBase] *)

(** The constants [TaskInitialized], [TaskDone] and [TaskFail]. *)
Definition status_string (s : Status) : string :=
  match s with
  | TaskInitialized => "TaskInitialized"
  | TaskDone => "done"
  | TaskFail => "fail"
  end.

(** A message [(URL, text)] on the queue. *)
Definition Message : Type := (string * string)%type.

(** A task that can run in a thread: the state the wrapped function works
    on, and the attribute [_queue], which is [None] or a queue with the
    messages put on it so far.  The wrapped function does not use the
    queue. *)
Record ThreadState : Type := mkThreadState {
  task_state : State;
  _queue : option (list Message)
}.

Definition setMessageQueue (ts : ThreadState) (q : list Message) : ThreadState :=
  {| task_state := task_state ts; _queue := Some q |}.

(** [PypeThreadTaskBase.runInThisThread]; it has no [return]. *)
Definition runInThisThread (taskFun : TaskFun) (ts : ThreadState)
    : Outcome unit * ThreadState :=
  match _queue ts with
  | None =>
      match run taskFun (task_state ts) with
      | (Raised e, st1) => (Raised e, {| task_state := st1; _queue := None |})
      | (Returned _, st1) =>
          (Raised (OtherError "There seems to be a case when self.queue==None, so we need to let this block simply return."),
           {| task_state := st1; _queue := None |})
      end
  | Some q =>
      let q1 := (q ++ [(URL (self (task_state ts)), "started, runflag: 1")])%list in
      match run taskFun (task_state ts) with
      | (Raised e, st1) => (Raised e, {| task_state := st1; _queue := Some q1 |})
      | (Returned _, st1) =>
          (Returned tt,
           {| task_state := st1;
              _queue := Some (q1 ++ [(URL (self st1),
                                      status_string (_status (self st1)))])%list |})
      end
  end.

(** [PypeThreadTaskBase.__call__]: in the handler, [self._queue.put] on a
    queue that is [None] raises [AttributeError]. *)
Definition PypeThreadTaskBase__call__ (taskFun : TaskFun) (ts : ThreadState)
    : Outcome unit * ThreadState :=
  match runInThisThread taskFun ts with
  | (Returned r, ts1) => (Returned r, ts1)
  | (Raised e, ts1) =>
      let st1 := with_status (task_state ts1) TaskFail in
      match _queue ts1 with
      | None => (Raised AttributeError, {| task_state := st1; _queue := None |})
      | Some q =>
          (Raised e,
           {| task_state := st1;
              _queue := Some (q ++ [(URL (self st1), status_string TaskFail)])%list |})
      end
  end.

(** [nSlots]: [self.parameters["nSlots"]], and 1 when the key is missing. *)
Definition nSlots (h : Heap) (t : PypeTaskBase) : PyVal :=
  match paramAt h (parameters t) !! "nSlots" with
  | Some v => v
  | None => PyInt 1
  end.

(** ** [PypeTaskCollection.__getitem__] *)

(** [self._tasks[k]] for an integer [k]; a negative [k] counts from the
    end. *)
Definition PypeTaskCollection__getitem__ (c : PypeTaskCollection) (k : Z)
    : Outcome TaskObject :=
  let n := Z.of_nat (length (_tasks c)) in
  let i := if Z.ltb k 0 then (k + n)%Z else k in
  if (Z.leb 0 i && Z.ltb i n)%bool then
    match _tasks c !! Z.to_nat i with
    | Some t => Returned t
    | None => Raised IndexError
    end
  else Raised IndexError.

(** The old iteration protocol, which [enumerate(tasks)] uses: [c[0]],
    [c[1]], ... until [IndexError]; another exception ends the iteration
    as well, and is raised.  [fuel] bounds the number of items. *)
Fixpoint iterate (fuel : nat) (c : PypeTaskCollection) (k : nat)
    : option (list TaskObject) :=
  match fuel with
  | O => None
  | S fuel' =>
      match PypeTaskCollection__getitem__ c (Z.of_nat k) with
      | Returned t =>
          match iterate fuel' c (S k) with
          | Some ts => Some (t :: ts)
          | None => None
          end
      | Raised _ => Some []
      end
  end.

(** ** [_auto_task_url] and [PypeTask] *)

(** ["task://" + inspect.getfile(taskFun) + "/" + _unique_name(taskFun.func_name)] *)
Definition _auto_task_url (fuel : nat) (_auto_names : gset string)
    (taskFun : Function) : option (string * gset string) :=
  match _unique_name fuel _auto_names (func_name taskFun) with
  | Some (name, reg) => Some ("task://" ++ getfile taskFun ++ "/" ++ name, reg)
  | None => None
  end.

(** A sequence of calls for functions of one file. *)
Fixpoint auto_task_urls (fuel : nat) (_auto_names : gset string)
    (taskFuns : list Function) : option (list string * gset string) :=
  match taskFuns with
  | [] => Some ([], _auto_names)
  | f :: rest =>
      match _auto_task_url fuel _auto_names f with
      | None => None
      | Some (u, reg) =>
          match auto_task_urls fuel reg rest with
          | None => None
          | Some (us, reg') => Some (u :: us, reg')
          end
      end
  end.

(** Modelled from the spec: the complete, un-split representative
    [_completeFile] of a splittable file of [data.py]; [isinstance(o,
    PypeSplittableLocalFile)] holds for the objects with a chunk count. *)
Definition complete_file (o : DataObject) : DataObject :=
  match Data.chunks o with
  | Some _ => Data.plain (Data.attrs o)
  | None => o
  end.

Section FunctionTask.

Variable md5_hexdigest : string -> string.
Variable repr_kwargv : string -> Kwargs -> string.
Variable T : TaskType.
Variable taskFun : Function.

(** [PypeTask(...)(taskFun)] once the URL is known.  [kwargv.get(name, {})]
    is the dictionary passed or a new one; the aliases are merged into it in
    place; the dictionaries with the complete files are new ones; and the
    constructor gets a copy of the keyword arguments, aliases included, with
    the two new dictionaries. *)
Definition PypeTask_with_URL (URL : string) (kw : Kwargs) : M TaskObject :=
  let! inputDataObjs := default_data_attr (kw_inputDataObjs kw) in
  let! _ := merge_alias inputDataObjs (kw_inputs kw) in
  let! outputDataObjs := default_data_attr (kw_outputDataObjs kw) in
  let! _ := merge_alias outputDataObjs (kw_outputs kw) in
  let! ins := get_data inputDataObjs in
  let! outs := get_data outputDataObjs in
  let! newInputs := new_data_dict (complete_file <$> ins) in
  let! newOutputs := new_data_dict (complete_file <$> outs) in
  instantiate T URL
    (newKwargv kw (func_name taskFun) newInputs newOutputs
       (codeMD5digest md5_hexdigest taskFun)
       (md5_hexdigest (repr_kwargv URL kw)) (kw_chunk_id kw)).

(** [PypeTask(...)(taskFun)]: the task or the exception, the heap and the
    registry of names after the call. *)
Definition PypeTask (fuel : nat) (URL : option string) (kw : Kwargs)
    (_auto_names : gset string) (h : Heap)
    : option (Outcome TaskObject * Heap * gset string) :=
  match match URL with
        | Some u => Some (u, _auto_names)
        | None => _auto_task_url fuel _auto_names taskFun
        end with
  | None => None
  | Some (u, reg) =>
      let '(r, h') := PypeTask_with_URL u kw h in Some (r, h', reg)
  end.

End FunctionTask.

(** ** More concrete inputs *)

(** The doctest task without its output. *)
Definition no_output_heap : Heap :=
  {| dataDicts := <[1%positive := test_inputs]>
                    (<[2%positive := ∅]> (<[4%positive := ∅]> ∅));
     paramDicts := {[3%positive := {["a" := PyStr "I am a"]}]};
     next_loc := 5%positive |}.

Definition no_output_state : State :=
  {| world := world_at 10 20; heap := no_output_heap; self := test_task |}.

(** The signature [def f(self, a=1)] and keyword arguments for it. *)
Definition spec_with_default : ArgSpec :=
  {| args := ["self"; "a"]; varargs := None; keywords := None;
     defaults := Some [PyInt 1] |}.

Definition call_kwargv : gmap string PyVal :=
  {["a" := PyInt 2; "b" := PyStr "I am b"]}.

(** An output of three chunks, where [split_in] has two. *)
Definition split_out3 : DataObject :=
  {| Data.attrs := Data.attrs split_out;
     Data.chunks := Some {| Data.nChunk := 3;
                            Data.getSplittedFiles := [];
                            Data.getScatterTask := None;
                            Data.getGatherTask := None |} |}.
(** * Properties *)

Local Close Scope Z_scope.

(** ** The timestamp comparator *)

Lemma stamp_lt_true_le (w : World) (x y : Stamp) :
  stamp_lt w x y = true -> (stamp_ts x <= stamp_ts y)%Z.
Proof.
  unfold stamp_lt. destruct (Z.eqb_spec (stamp_ts x) (stamp_ts y)) as [E|E]; simpl.
  - intros _. lia.
  - intros H. apply Z.ltb_lt in H. lia.
Qed.

Lemma stamp_lt_false_ge (w : World) (x y : Stamp) :
  stamp_lt w x y = false -> (stamp_ts y <= stamp_ts x)%Z.
Proof.
  unfold stamp_lt. destruct (Z.eqb_spec (stamp_ts x) (stamp_ts y)) as [E|E]; simpl.
  - intros _. lia.
  - intros H. apply Z.ltb_ge in H. lia.
Qed.

(** An output stamp against an input stamp: the tags differ, ['B'] is not
    less than ['A'], and so only a strictly smaller timestamp makes the
    output stamp the smaller one. *)
Lemma stamp_lt_B_A (w : World) (x y : Stamp) :
  stamp_tag x = "B"%char -> stamp_tag y = "A"%char ->
  stamp_lt w x y = bool_decide (stamp_ts x < stamp_ts y)%Z.
Proof.
  intros Hx Hy. unfold stamp_lt. rewrite Hx, Hy.
  destruct (Z.eqb_spec (stamp_ts x) (stamp_ts y)) as [E|E]; simpl.
  - rewrite bool_decide_eq_false_2 by lia. reflexivity.
  - destruct (Z.ltb_spec (stamp_ts x) (stamp_ts y)).
    + rewrite bool_decide_eq_true_2 by lia. reflexivity.
    + rewrite bool_decide_eq_false_2 by lia. reflexivity.
Qed.

Lemma fold_min_spec (w : World) (rest : list Stamp) (x : Stamp) :
  let m := fold_left (fun best item => if stamp_lt w item best then item else best)
             rest x in
  (m = x \/ m ∈ rest) /\
  (stamp_ts m <= stamp_ts x)%Z /\
  (forall y, y ∈ rest -> (stamp_ts m <= stamp_ts y)%Z).
Proof.
  revert x. induction rest as [|a rest IH]; intros x; simpl.
  - split; [by left|]. split; [lia|]. intros y Hy. inversion Hy.
  - destruct (stamp_lt w a x) eqn:E.
    + destruct (IH a) as (Hm & Hle & Hall).
      apply stamp_lt_true_le in E.
      split; [right; destruct Hm as [->|Hm]; [left | by right]|].
      split; [lia|].
      intros y Hy. apply elem_of_cons in Hy as [->|Hy]; [done | by apply Hall].
    + destruct (IH x) as (Hm & Hle & Hall).
      apply stamp_lt_false_ge in E.
      split; [destruct Hm as [->|Hm]; [by left | right; by right]|].
      split; [lia|].
      intros y Hy. apply elem_of_cons in Hy as [->|Hy]; [lia | by apply Hall].
Qed.

Lemma fold_max_spec (w : World) (rest : list Stamp) (x : Stamp) :
  let m := fold_left (fun best item => if stamp_lt w best item then item else best)
             rest x in
  (m = x \/ m ∈ rest) /\
  (stamp_ts x <= stamp_ts m)%Z /\
  (forall y, y ∈ rest -> (stamp_ts y <= stamp_ts m)%Z).
Proof.
  revert x. induction rest as [|a rest IH]; intros x; simpl.
  - split; [by left|]. split; [lia|]. intros y Hy. inversion Hy.
  - destruct (stamp_lt w x a) eqn:E.
    + destruct (IH a) as (Hm & Hle & Hall).
      apply stamp_lt_true_le in E.
      split; [right; destruct Hm as [->|Hm]; [left | by right]|].
      split; [lia|].
      intros y Hy. apply elem_of_cons in Hy as [->|Hy]; [done | by apply Hall].
    + destruct (IH x) as (Hm & Hle & Hall).
      apply stamp_lt_false_ge in E.
      split; [destruct Hm as [->|Hm]; [by left | right; by right]|].
      split; [lia|].
      intros y Hy. apply elem_of_cons in Hy as [->|Hy]; [lia | by apply Hall].
Qed.

Lemma py_min_spec (w : World) (l : list Stamp) :
  l <> [] ->
  exists m, py_min (stamp_lt w) l = Some m /\ m ∈ l /\
            forall y, y ∈ l -> (stamp_ts m <= stamp_ts y)%Z.
Proof.
  destruct l as [|x rest]; [done|]. intros _. simpl.
  destruct (fold_min_spec w rest x) as (Hm & Hle & Hall).
  eexists. split; [reflexivity|]. split.
  - destruct Hm as [->|Hm]; [left | by right].
  - intros y Hy. apply elem_of_cons in Hy as [->|Hy]; [done | by apply Hall].
Qed.

Lemma py_max_spec (w : World) (l : list Stamp) :
  l <> [] ->
  exists m, py_max (stamp_lt w) l = Some m /\ m ∈ l /\
            forall y, y ∈ l -> (stamp_ts y <= stamp_ts m)%Z.
Proof.
  destruct l as [|x rest]; [done|]. intros _. simpl.
  destruct (fold_max_spec w rest x) as (Hm & Hle & Hall).
  eexists. split; [reflexivity|]. split.
  - destruct Hm as [->|Hm]; [left | by right].
  - intros y Hy. apply elem_of_cons in Hy as [->|Hy]; [done | by apply Hall].
Qed.

Lemma scan_outputs_all_exist (w : World) (items : list (string * DataObject))
    (acc : list Stamp) :
  (forall kf, kf ∈ items -> Data.exists_ w (snd kf) = true) ->
  scan_outputs w items acc
  = (false, (acc ++ ((fun kf : string * DataObject => outputStamp w (snd kf)) <$> items))%list).
Proof.
  revert acc. induction items as [|[k f] items IH]; intros acc H; simpl.
  - by rewrite app_nil_r.
  - pose proof (H (k, f) ltac:(left)) as Hf. simpl in Hf. rewrite Hf. simpl.
    rewrite IH by (intros kf Hkf; apply H; by right).
    by rewrite <- app_assoc.
Qed.

Lemma scan_outputs_missing (w : World) (items : list (string * DataObject))
    (acc : list Stamp) :
  (exists kf, kf ∈ items /\ Data.exists_ w (snd kf) = false) ->
  fst (scan_outputs w items acc) = true.
Proof.
  revert acc. induction items as [|[k f] items IH]; intros acc [kf [Hin Hex]]; simpl.
  - inversion Hin.
  - destruct (Data.exists_ w f) eqn:E; simpl; [|done].
    apply IH. exists kf. split; [|done].
    apply elem_of_cons in Hin as [->|Hin]; [simpl in Hex; congruence | done].
Qed.

Lemma map_to_list_nonempty {A : Type} (d : gmap string A) :
  d <> ∅ -> map_to_list d <> [].
Proof. intros H E. apply H. by apply map_to_list_empty_iff. Qed.

(** C7. With no declared output the comparator answers true, whatever the
    inputs, their timestamps and the parameters are. *)
Theorem timeStampCompare_no_outputs (w : World)
    (inputDataObjs : gmap string DataObject) (parameters : gmap string PyVal) :
  timeStampCompare w inputDataObjs ∅ parameters = Returned true.
Proof.
  unfold timeStampCompare. rewrite map_to_list_empty. simpl.
  rewrite bool_decide_eq_true_2 by reflexivity. reflexivity.
Qed.

(** C1 (amended). When there are outputs, all of them exist and there are
    inputs, the comparator returns the comparison of the least output stamp
    with the greatest input stamp, and that is true exactly when the least
    output timestamp is strictly smaller than the greatest input timestamp:
    an output as old as the newest input is up to date. *)
Theorem timeStampCompare_min_max (w : World)
    (inputDataObjs outputDataObjs : gmap string DataObject)
    (parameters : gmap string PyVal) :
  outputDataObjs <> ∅ ->
  (forall k o, outputDataObjs !! k = Some o -> Data.exists_ w o = true) ->
  inputDataObjs <> ∅ ->
  exists minOut maxIn : Stamp,
    py_min (stamp_lt w) (outputStamps w outputDataObjs) = Some minOut /\
    py_max (stamp_lt w) (inputStamps w inputDataObjs) = Some maxIn /\
    timeStampCompare w inputDataObjs outputDataObjs parameters
    = Returned (stamp_lt w minOut maxIn) /\
    stamp_lt w minOut maxIn = bool_decide (stamp_ts minOut < stamp_ts maxIn)%Z /\
    (exists k o, outputDataObjs !! k = Some o /\ stamp_ts minOut = Data.timeStamp w o) /\
    (forall k o, outputDataObjs !! k = Some o ->
                 (stamp_ts minOut <= Data.timeStamp w o)%Z) /\
    (exists k i, inputDataObjs !! k = Some i /\ stamp_ts maxIn = Data.timeStamp w i) /\
    (forall k i, inputDataObjs !! k = Some i ->
                 (Data.timeStamp w i <= stamp_ts maxIn)%Z).
Proof.
  intros Hout Hex Hin.
  destruct (py_min_spec w (outputStamps w outputDataObjs)) as (m & Hm & Hmin & Hmle).
  { unfold outputStamps. intros E. apply fmap_nil_inv in E.
    by apply (map_to_list_nonempty outputDataObjs). }
  destruct (py_max_spec w (inputStamps w inputDataObjs)) as (M & HM & HMin & HMge).
  { unfold inputStamps. intros E. apply fmap_nil_inv in E.
    by apply (map_to_list_nonempty inputDataObjs). }
  unfold outputStamps in Hmin. apply list_elem_of_fmap in Hmin as ([ko o] & -> & Hko).
  unfold inputStamps in HMin. apply list_elem_of_fmap in HMin as ([ki i] & -> & Hki).
  apply elem_of_map_to_list in Hko, Hki.
  exists (outputStamp w o), (Data.timeStamp w i, "A"%char, i).
  split; [done|]. split; [done|]. split.
  { unfold timeStampCompare.
    rewrite scan_outputs_all_exist.
    2:{ intros [k f] Hkf. apply elem_of_map_to_list in Hkf. simpl. by eapply Hex. }
    simpl. rewrite (bool_decide_eq_false_2 (outputDataObjs = ∅)) by done.
    rewrite (bool_decide_eq_false_2 (inputDataObjs = ∅)) by done. simpl.
    fold (outputStamps w outputDataObjs). simpl in Hm, HM. rewrite Hm, HM.
    by destruct (stamp_lt w _ _). }
  split; [by apply stamp_lt_B_A|].
  split; [by exists ko, o|]. split.
  { intros k f Hf.
    apply (Hmle (outputStamp w f)). unfold outputStamps.
    apply list_elem_of_fmap. exists (k, f). split; [done|].
    by apply elem_of_map_to_list. }
  split; [by exists ki, i|].
  intros k f Hf.
  apply (HMge (Data.timeStamp w f, "A"%char, f)). unfold inputStamps.
  apply list_elem_of_fmap. exists (k, f). split; [done|].
  by apply elem_of_map_to_list.
Qed.

Lemma test_dicts_nonempty : test_outputs <> ∅ /\ test_inputs <> ∅.
Proof. split; apply (bool_decide_unpack _); vm_compute; exact I. Qed.

Lemma timeStampCompare_min_max_witness :
  exists minOut maxIn : Stamp,
    py_min (stamp_lt (world_at 30 20)) (outputStamps (world_at 30 20) test_outputs)
    = Some minOut /\
    py_max (stamp_lt (world_at 30 20)) (inputStamps (world_at 30 20) test_inputs)
    = Some maxIn /\
    timeStampCompare (world_at 30 20) test_inputs test_outputs ∅
    = Returned (stamp_lt (world_at 30 20) minOut maxIn) /\
    stamp_lt (world_at 30 20) minOut maxIn
    = bool_decide (stamp_ts minOut < stamp_ts maxIn)%Z /\
    (exists k o, test_outputs !! k = Some o /\
                 stamp_ts minOut = Data.timeStamp (world_at 30 20) o) /\
    (forall k o, test_outputs !! k = Some o ->
                 (stamp_ts minOut <= Data.timeStamp (world_at 30 20) o)%Z) /\
    (exists k i, test_inputs !! k = Some i /\
                 stamp_ts maxIn = Data.timeStamp (world_at 30 20) i) /\
    (forall k i, test_inputs !! k = Some i ->
                 (Data.timeStamp (world_at 30 20) i <= stamp_ts maxIn)%Z).
Proof.
  apply (timeStampCompare_min_max (world_at 30 20) test_inputs test_outputs ∅).
  - apply (bool_decide_unpack _). vm_compute. exact I.
  - intros k o _. reflexivity.
  - apply (bool_decide_unpack _). vm_compute. exact I.
Defined.

(** C1, as stated, fails: the output and the input carry the same timestamp,
    the output exists, and the comparator answers false, not true. *)
Lemma timeStampCompare_tie_is_fresh :
  test_outputs <> ∅ /\ test_inputs <> ∅ /\
  (forall k o, test_outputs !! k = Some o -> Data.exists_ (world_at 20 20) o = true) /\
  (forall o i, Data.timeStamp (world_at 20 20) o = Data.timeStamp (world_at 20 20) i) /\
  timeStampCompare (world_at 20 20) test_inputs test_outputs ∅ = Returned false /\
  timeStampCompare (world_at 20 20) test_inputs test_outputs ∅ <> Returned true.
Proof.
  split; [apply test_dicts_nonempty|]. split; [apply test_dicts_nonempty|].
  split; [intros; reflexivity|].
  split; [intros o i; simpl; by repeat case_bool_decide|].
  assert (timeStampCompare (world_at 20 20) test_inputs test_outputs ∅ = Returned false)
    as E by (vm_compute; reflexivity).
  split; [exact E|]. rewrite E. discriminate.
Qed.

(** The scenario of the specification: the input is written at 10 and the
    output is missing; the output is made at 20; the input is touched at
    30. *)
Example timeStampCompare_scenario :
  timeStampCompare
    {| Data.exists_ := fun o => bool_decide (o = testfile_in);
       Data.timeStamp := fun _ => 10%Z; Data.obj_lt := fun _ _ => false |}
    test_inputs test_outputs ∅ = Returned true /\
  timeStampCompare (world_at 10 20) test_inputs test_outputs ∅ = Returned false /\
  timeStampCompare (world_at 30 20) test_inputs test_outputs ∅ = Returned true.
Proof. repeat split; vm_compute; reflexivity. Qed.

(** ** The staleness decision *)

Lemma py_any_is_or (bs : list bool) : py_any bs = foldr orb false bs.
Proof.
  unfold py_any. induction bs as [|b bs IH]; simpl; [done|]. by rewrite IH.
Qed.

Lemma call_compareFunctions_returns (w : World)
    (ins outs : gmap string DataObject) (params : gmap string PyVal)
    (fs : list CompareFn) (bs : list bool) :
  Forall2 (fun f b => f w ins outs params = Returned b) fs bs ->
  call_compareFunctions w ins outs params fs = Returned bs.
Proof.
  induction 1 as [|f b fs bs Hf _ IH]; simpl; [done|]. by rewrite Hf, IH.
Qed.

Lemma code_changed_true (self : PypeTaskBase) (r : string) :
  _referenceMD5 self = Some r -> r <> _codeMD5digest self -> code_changed self = true.
Proof.
  intros Hr Hne. unfold code_changed. rewrite Hr.
  destruct (String.eqb_spec r (_codeMD5digest self)); [done | reflexivity].
Qed.

Lemma code_changed_false (self : PypeTaskBase) :
  _referenceMD5 self = None \/ _referenceMD5 self = Some (_codeMD5digest self) ->
  code_changed self = false.
Proof.
  unfold code_changed. intros [-> | ->]; [done|]. by rewrite String.eqb_refl.
Qed.

(** C5. A reference digest that is set and differs from the code digest
    makes the decision true whatever the compare functions are, and the
    reference becomes the code digest, so that the next decision is that of
    the compare functions.  With the reference unset or equal, the decision
    is [any] of the results of the compare functions, their logical or; and
    [isSatisfied] answers the negation of the decision. *)
Theorem _getRunFlag_decision (w : World) (h : Heap) (self : PypeTaskBase) :
  (forall r, _referenceMD5 self = Some r -> r <> _codeMD5digest self ->
     _getRunFlag w h self
     = (Returned true, setReferenceMD5 self (Some (_codeMD5digest self))) /\
     _referenceMD5 (snd (_getRunFlag w h self)) = Some (_codeMD5digest self) /\
     _codeMD5digest (snd (_getRunFlag w h self)) = _codeMD5digest self /\
     _getRunFlag w h (snd (_getRunFlag w h self))
     = (any_compareFunctions w h self, snd (_getRunFlag w h self))) /\
  (_referenceMD5 self = None \/ _referenceMD5 self = Some (_codeMD5digest self) ->
     _getRunFlag w h self = (any_compareFunctions w h self, self)) /\
  (forall bs,
     Forall2 (fun (f : CompareFn) b =>
                f w (dataAt h (inputDataObjs self)) (dataAt h (outputDataObjs self))
                  (paramAt h (parameters self)) = Returned b)
             (_compareFunctions self) bs ->
     any_compareFunctions w h self = Returned (foldr orb false bs)) /\
  isSatisfied w h self
  = (match fst (_getRunFlag w h self) with
     | Returned b => Returned (negb b)
     | Raised e => Raised e
     end, snd (_getRunFlag w h self)).
Proof.
  split; [|split; [|split]].
  - intros r Hr Hne.
    assert (_getRunFlag w h self
            = (Returned true, setReferenceMD5 self (Some (_codeMD5digest self)))) as E.
    { unfold _getRunFlag. by rewrite (code_changed_true self r Hr Hne). }
    rewrite E. simpl.
    split; [done|]. split; [done|]. split; [done|].
    unfold _getRunFlag. rewrite code_changed_false by (right; reflexivity).
    reflexivity.
  - intros H. unfold _getRunFlag. by rewrite code_changed_false.
  - intros bs Hbs. unfold any_compareFunctions.
    rewrite (call_compareFunctions_returns _ _ _ _ _ _ Hbs).
    by rewrite py_any_is_or.
  - unfold isSatisfied. destruct (_getRunFlag w h self) as [[b|e] self']; reflexivity.
Qed.

Lemma _getRunFlag_decision_witness :
  let self := setReferenceMD5 test_task (Some "92eb5ffee6ae2fec3ad71c777531578f") in
  _getRunFlag (world_at 10 20) test_heap self
  = (Returned true, setReferenceMD5 self (Some (_codeMD5digest self))) /\
  _getRunFlag (world_at 10 20) test_heap test_task
  = (any_compareFunctions (world_at 10 20) test_heap test_task, test_task) /\
  any_compareFunctions (world_at 10 20) test_heap test_task
  = Returned (foldr orb false [false]).
Proof.
  split; [|split].
  - apply (_getRunFlag_decision (world_at 10 20) test_heap
             (setReferenceMD5 test_task (Some "92eb5ffee6ae2fec3ad71c777531578f")))
      with (r := "92eb5ffee6ae2fec3ad71c777531578f");
      [reflexivity | vm_compute; discriminate].
  - apply (_getRunFlag_decision (world_at 10 20) test_heap test_task).
    left. reflexivity.
  - apply (_getRunFlag_decision (world_at 10 20) test_heap test_task).
    repeat constructor.
Defined.

(** With drift, compare functions that would raise are not called. *)
Example _getRunFlag_drift_skips_compare :
  let self :=
    {| URL := URL test_task; _taskFun := "test";
       _referenceMD5 := Some "92eb5ffee6ae2fec3ad71c777531578f";
       _status := TaskInitialized; inputDataObjs := 1%positive;
       outputDataObjs := 2%positive; parameters := 3%positive;
       mutableDataObjs := 4%positive; chunk_id := None;
       _codeMD5digest := _codeMD5digest test_task; _paramMD5digest := "";
       _compareFunctions := [failing_compare]; distributed := false |} in
  fst (_getRunFlag (world_at 10 20) test_heap self) = Returned true /\
  fst (_getRunFlag (world_at 10 20) test_heap
         (snd (_getRunFlag (world_at 10 20) test_heap self)))
  = Raised (OtherError "compare").
Proof. split; vm_compute; reflexivity. Qed.

(** ** Construction *)

Lemma bind_returned {A B : Type} (m : M A) (k : A -> M B) (h h' : Heap) (a : A) :
  m h = (Returned a, h') -> bind m k h = k a h'.
Proof. intros E. unfold bind. by rewrite E. Qed.

Lemma bind_raised {A B : Type} (m : M A) (k : A -> M B) (h h' : Heap) (e : Exn) :
  m h = (Raised e, h') -> bind m k h = (Raised e, h').
Proof. intros E. unfold bind. by rewrite E. Qed.

Lemma default_data_attr_returns (a : option loc) (h : Heap) :
  exists l h', default_data_attr a h = (Returned l, h').
Proof. destruct a; simpl; eauto. Qed.

Lemma default_param_attr_returns (a : option loc) (h : Heap) :
  exists l h', default_param_attr a h = (Returned l, h').
Proof. destruct a; simpl; eauto. Qed.

Lemma merge_alias_returns (l : loc) (a : option loc) (h : Heap) :
  exists h', merge_alias l a h = (Returned tt, h').
Proof. destruct a; simpl; eauto. Qed.

(** The assignments of the constructor never raise. *)
Lemma bind_attributes_returns (URL : string) (kw : Kwargs) (h : Heap) :
  exists self h', bind_attributes URL kw h = (Returned self, h').
Proof.
  unfold bind_attributes.
  destruct (default_data_attr_returns (kw_inputDataObjs kw) h) as (l1 & h1 & E1).
  rewrite (bind_returned _ _ _ _ _ E1).
  destruct (default_data_attr_returns (kw_outputDataObjs kw) h1) as (l2 & h2 & E2).
  rewrite (bind_returned _ _ _ _ _ E2).
  destruct (default_param_attr_returns (kw_parameters kw) h2) as (l3 & h3 & E3).
  rewrite (bind_returned _ _ _ _ _ E3).
  destruct (default_data_attr_returns (kw_mutableDataObjs kw) h3) as (l4 & h4 & E4).
  rewrite (bind_returned _ _ _ _ _ E4).
  destruct (merge_alias_returns l1 (kw_inputs kw) h4) as (h5 & E5).
  rewrite (bind_returned _ _ _ _ _ E5).
  destruct (merge_alias_returns l2 (kw_outputs kw) h5) as (h6 & E6).
  rewrite (bind_returned _ _ _ _ _ E6).
  destruct (merge_alias_returns l4 (kw_mutables kw) h6) as (h7 & E7).
  rewrite (bind_returned _ _ _ _ _ E7).
  eauto.
Qed.

Lemma existsb_readOnly (d : gmap string DataObject) :
  existsb is_readOnly (snd <$> map_to_list d) = true <->
  exists k o, d !! k = Some o /\ Data.readOnly (Data.attrs o) = true.
Proof.
  rewrite existsb_exists. split.
  - intros (o & Hin & Hro). apply list_elem_of_In in Hin.
    apply list_elem_of_fmap in Hin as ([k o'] & -> & Hk).
    apply elem_of_map_to_list in Hk. by exists k, o'.
  - intros (k & o & Hk & Hro). exists o. split; [|done].
    apply list_elem_of_In, list_elem_of_fmap. exists (k, o). split; [done|].
    by apply elem_of_map_to_list.
Qed.

(** Dictionaries that the keyword arguments bring under different names are
    different objects, and they were made before. *)
Lemma omap_id_differ (xs : list (option loc)) (j k : nat) (a b : loc) :
  NoDup (omap id xs) -> j <> k ->
  xs !! j = Some (Some a) -> xs !! k = Some (Some b) -> a <> b.
Proof.
  revert j k. induction xs as [|x xs IH]; intros j k Hnd Hjk Hj Hk; [done|].
  assert (forall n c, xs !! n = Some (Some c) -> c ∈ omap id xs) as Hin.
  { intros n c Hn. apply list_elem_of_omap. exists (Some c). split; [|done].
    by eapply list_elem_of_lookup_2. }
  destruct j as [|j], k as [|k]; simpl in *; [done| | |].
  - injection Hj as ->. apply NoDup_cons in Hnd as [Hnot _].
    intros ->. apply Hnot. by eapply Hin.
  - injection Hk as ->. apply NoDup_cons in Hnd as [Hnot _].
    intros <-. apply Hnot. by eapply Hin.
  - apply (IH j k); [|lia|done|done].
    destruct x as [c|]; simpl in Hnd; [by apply NoDup_cons in Hnd as [_ ?] | done].
Qed.

Lemma omap_id_Forall (P : loc -> Prop) (xs : list (option loc)) (j : nat) (a : loc) :
  Forall P (omap id xs) -> xs !! j = Some (Some a) -> P a.
Proof.
  intros HP Hj. rewrite Forall_forall in HP. apply HP.
  apply list_elem_of_omap. exists (Some a). split; [|done].
  by eapply list_elem_of_lookup_2.
Qed.

(** The dictionaries after lines 90 to 92: a dictionary passed is kept, a
    missing one is new and empty, and the dictionaries made before are as
    they were. *)
Lemma default_attrs_spec (i o p m : option loc) (h h1 h2 h3 h4 : Heap)
    (l1 l2 l3 l4 : loc) :
  allocated h i -> allocated h o -> allocated h m -> allocated h p ->
  (forall a b, i = Some a -> o = Some b -> a <> b) ->
  (forall a b, i = Some a -> m = Some b -> a <> b) ->
  (forall a b, o = Some a -> m = Some b -> a <> b) ->
  default_data_attr i h = (Returned l1, h1) ->
  default_data_attr o h1 = (Returned l2, h2) ->
  default_param_attr p h2 = (Returned l3, h3) ->
  default_data_attr m h3 = (Returned l4, h4) ->
  (next_loc h <= next_loc h4)%positive /\
  (forall l : loc, (l < next_loc h)%positive -> dataDicts h4 !! l = dataDicts h !! l) /\
  (forall l : loc, (l < next_loc h)%positive -> paramDicts h4 !! l = paramDicts h !! l) /\
  dataAt h4 l1 = match i with Some l => dataAt h l | None => ∅ end /\
  dataAt h4 l2 = match o with Some l => dataAt h l | None => ∅ end /\
  dataAt h4 l4 = match m with Some l => dataAt h l | None => ∅ end /\
  paramAt h4 l3 = match p with Some l => paramAt h l | None => ∅ end /\
  (l1 < next_loc h4)%positive /\ (l2 < next_loc h4)%positive /\
  (l4 < next_loc h4)%positive /\ (l3 < next_loc h4)%positive /\
  l1 <> l2 /\ l1 <> l4 /\ l2 <> l4 /\
  (i = Some l1 \/ (next_loc h <= l1)%positive) /\
  (o = Some l2 \/ (next_loc h <= l2)%positive) /\
  (m = Some l4 \/ (next_loc h <= l4)%positive).
Proof.
  intros Hi Ho Hm Hp Hio Him Hom E1 E2 E3 E4.
  destruct i as [li|], o as [lo|], p as [lp|], m as [lm|]; simpl in *;
    unfold ret, new_data_dict, new_param_dict in *;
    injection E1 as <- <-; injection E2 as <- <-; injection E3 as <- <-;
    injection E4 as <- <-;
    try (pose proof (Hio _ _ eq_refl eq_refl));
    try (pose proof (Him _ _ eq_refl eq_refl));
    try (pose proof (Hom _ _ eq_refl eq_refl));
    unfold dataAt, paramAt; simpl;
    repeat (rewrite ?lookup_insert_eq, ?lookup_insert_ne by lia; simpl);
    (split; [lia|]);
    (split; [intros l Hl; by repeat (rewrite ?lookup_insert_ne by lia)|]);
    (split; [intros l Hl; by repeat (rewrite ?lookup_insert_ne by lia)|]);
    repeat (split; [first [done | lia | by left | right; lia]|]);
    first [by left | right; lia].
Qed.

(** The dictionaries after lines 95 to 105: the entries of a short cut are
    put over those of the dictionary of the task, and no other dictionary
    changes. *)
Lemma merge_aliases_spec (ai ao am : option loc) (l1 l2 l4 : loc)
    (h4 h5 h6 h7 : Heap) :
  l1 <> l2 -> l1 <> l4 -> l2 <> l4 ->
  (forall x, ao = Some x -> x <> l1) ->
  (forall x, am = Some x -> x <> l1 /\ x <> l2) ->
  merge_alias l1 ai h4 = (Returned tt, h5) ->
  merge_alias l2 ao h5 = (Returned tt, h6) ->
  merge_alias l4 am h6 = (Returned tt, h7) ->
  next_loc h7 = next_loc h4 /\ paramDicts h7 = paramDicts h4 /\
  (forall l : loc, (l = l1 -> ai = None) -> (l = l2 -> ao = None) ->
                   (l = l4 -> am = None) -> dataDicts h7 !! l = dataDicts h4 !! l) /\
  dataAt h7 l1 = match ai with Some l => dataAt h4 l | None => ∅ end ∪ dataAt h4 l1 /\
  dataAt h7 l2 = match ao with Some l => dataAt h4 l | None => ∅ end ∪ dataAt h4 l2 /\
  dataAt h7 l4 = match am with Some l => dataAt h4 l | None => ∅ end ∪ dataAt h4 l4.
Proof.
  intros H12 H14 H24 Hao Ham E5 E6 E7.
  destruct ai as [lai|], ao as [lao|], am as [lam|]; simpl in *;
    unfold ret, data_dict_update in *;
    injection E5 as <-; injection E6 as <-; injection E7 as <-;
    try (pose proof (Hao _ eq_refl)); try (destruct (Ham _ eq_refl));
    unfold dataAt; simpl;
    repeat (rewrite ?lookup_insert_eq, ?lookup_insert_ne by done; simpl);
    rewrite ?(left_id_L ∅ (∪));
    (split; [done|]); (split; [done|]);
    (split; [intros l Hl1 Hl2 Hl4;
             by repeat (rewrite ?lookup_insert_ne
                          by (intros ->;
                              first [discriminate (Hl1 eq_refl)
                                    | discriminate (Hl2 eq_refl)
                                    | discriminate (Hl4 eq_refl)]))|]);
    by repeat split.
Qed.

(** The four dictionaries of the task after the assignments, when the
    dictionaries passed are different objects: each is what the caller
    declared, the entries of the short cut over those of the long keyword.
    The dictionaries made before, other than those passed, are as they
    were. *)
Lemma bind_attributes_dicts (URL : string) (kw : Kwargs) (h h' : Heap)
    (self : PypeTaskBase) :
  distinct_dicts kw h ->
  bind_attributes URL kw h = (Returned self, h') ->
  dataAt h' (inputDataObjs self) = declared_inputs kw h /\
  dataAt h' (outputDataObjs self) = declared_outputs kw h /\
  dataAt h' (mutableDataObjs self) = declared_mutables kw h /\
  paramAt h' (parameters self) = declared_parameters kw h /\
  (next_loc h <= next_loc h')%positive /\ task_allocated h' self /\
  (forall l : loc, (l < next_loc h)%positive ->
     (kw_inputDataObjs kw = Some l -> kw_inputs kw = None) ->
     (kw_outputDataObjs kw = Some l -> kw_outputs kw = None) ->
     (kw_mutableDataObjs kw = Some l -> kw_mutables kw = None) ->
     dataDicts h' !! l = dataDicts h !! l) /\
  (forall l : loc, (l < next_loc h)%positive -> paramDicts h' !! l = paramDicts h !! l).
Proof.
  intros (Hnd & Hal & Hpar) E. unfold kw_data_dicts in *.
  remember [kw_inputDataObjs kw; kw_outputDataObjs kw; kw_mutableDataObjs kw;
            kw_inputs kw; kw_outputs kw; kw_mutables kw] as xs eqn:Hxs.
  assert (forall j k a b, j <> k -> xs !! j = Some (Some a) -> xs !! k = Some (Some b) ->
                          a <> b) as Hne
    by (intros j k a b; by apply omap_id_differ).
  assert (forall j a, xs !! j = Some (Some a) -> (a < next_loc h)%positive) as Hlt
    by (intros j a; by apply (omap_id_Forall _ _ _ _ Hal)).
  assert (xs !! 0 = Some (kw_inputDataObjs kw) /\ xs !! 1 = Some (kw_outputDataObjs kw) /\
          xs !! 2 = Some (kw_mutableDataObjs kw) /\ xs !! 3 = Some (kw_inputs kw) /\
          xs !! 4 = Some (kw_outputs kw) /\ xs !! 5 = Some (kw_mutables kw))
    as (X0 & X1 & X2 & X3 & X4 & X5) by (by rewrite Hxs).
  clear Hxs.
  unfold bind_attributes in E.
  destruct (default_data_attr_returns (kw_inputDataObjs kw) h) as (l1 & h1 & E1).
  rewrite (bind_returned _ _ _ _ _ E1) in E.
  destruct (default_data_attr_returns (kw_outputDataObjs kw) h1) as (l2 & h2 & E2).
  rewrite (bind_returned _ _ _ _ _ E2) in E.
  destruct (default_param_attr_returns (kw_parameters kw) h2) as (l3 & h3 & E3).
  rewrite (bind_returned _ _ _ _ _ E3) in E.
  destruct (default_data_attr_returns (kw_mutableDataObjs kw) h3) as (l4 & h4 & E4).
  rewrite (bind_returned _ _ _ _ _ E4) in E.
  destruct (merge_alias_returns l1 (kw_inputs kw) h4) as (h5 & E5).
  rewrite (bind_returned _ _ _ _ _ E5) in E.
  destruct (merge_alias_returns l2 (kw_outputs kw) h5) as (h6 & E6).
  rewrite (bind_returned _ _ _ _ _ E6) in E.
  destruct (merge_alias_returns l4 (kw_mutables kw) h6) as (h7 & E7).
  rewrite (bind_returned _ _ _ _ _ E7) in E.
  unfold ret in E. injection E as <- <-. simpl.
  assert (forall j a, xs !! j = Some a -> allocated h a) as Hall.
  { intros j [a|] Hj; [|done]. by apply (Hlt j). }
  assert (forall j k x y a b, j <> k -> xs !! j = Some x -> xs !! k = Some y ->
            x = Some a -> y = Some b -> a <> b) as Hne'.
  { intros j k x y a b Hjk Hj Hk -> ->. by apply (Hne j k). }
  destruct (default_attrs_spec _ _ _ _ _ _ _ _ _ _ _ _ _
              (Hall _ _ X0) (Hall _ _ X1) (Hall _ _ X2) Hpar
              (fun a b => Hne' 0 1 _ _ a b ltac:(done) X0 X1)
              (fun a b => Hne' 0 2 _ _ a b ltac:(done) X0 X2)
              (fun a b => Hne' 1 2 _ _ a b ltac:(done) X1 X2)
              E1 E2 E3 E4)
    as (Hn4 & Hd4 & Hp4 & D1 & D2 & D4 & D3 & L1 & L2 & L4 & L3 & N12 & N14 & N24
        & G1 & G2 & G4).
  assert (forall j k x l (a : option loc),
            xs !! j = Some (Some x) -> xs !! k = Some a -> j <> k ->
            (a = Some l \/ (next_loc h <= l)%positive) -> x <> l) as Hfresh.
  { intros j k x l a Hj Hk Hjk [->|Hge].
    - by apply (Hne j k).
    - pose proof (Hlt j x Hj). lia. }
  assert (forall j x (a : option loc), xs !! j = Some a -> a = Some x ->
            xs !! j = Some (Some x)) as Hat by (by intros j x a Hj <-).
  destruct (merge_aliases_spec _ _ _ _ _ _ _ _ _ _ N12 N14 N24
              (fun x Hx => Hfresh 4 0 x l1 _ (Hat _ _ _ X4 Hx) X0 ltac:(done) G1)
              (fun x Hx => conj
                 (Hfresh 5 0 x l1 _ (Hat _ _ _ X5 Hx) X0 ltac:(done) G1)
                 (Hfresh 5 1 x l2 _ (Hat _ _ _ X5 Hx) X1 ltac:(done) G2))
              E5 E6 E7)
    as (Hn7 & Hp7 & Hd7 & M1 & M2 & M4).
  assert (forall j a, xs !! j = Some a ->
            match a with Some l => dataAt h4 l | None => ∅ end
            = match a with Some l => dataAt h l | None => ∅ end) as Halias.
  { intros j [x|] Hj; [|done]. cbv beta iota. unfold dataAt. by rewrite (Hd4 x (Hlt j x Hj)). }
  unfold declared_inputs, declared_outputs, declared_mutables, declared_parameters.
  split; [|split; [|split; [|split; [|split; [|split; [|split]]]]]].
  - by rewrite M1, D1, (Halias _ _ X3).
  - by rewrite M2, D2, (Halias _ _ X4).
  - by rewrite M4, D4, (Halias _ _ X5).
  - unfold paramAt. rewrite Hp7. exact D3.
  - lia.
  - unfold task_allocated. simpl. rewrite Hn7. by repeat split.
  - intros l Hl Hi Ho Hm. rewrite Hd7; [by apply Hd4| | |].
    + destruct G1 as [G|G]; [|lia]. intros ->. by apply Hi.
    + destruct G2 as [G|G]; [|lia]. intros ->. by apply Ho.
    + destruct G4 as [G|G]; [|lia]. intros ->. by apply Hm.
  - intros l Hl. rewrite Hp7. by apply Hp4.
Qed.

(** The loop of lines 108 and 109 changes no dictionary; it raises
    [TypeError] or returns all the entries. *)
Lemma vars_update_outcome (self : PypeTaskBase) (h : Heap) :
  vars_update self h = (Raised TypeError, h) \/
  vars_update self h = (Returned (dictionary_entries h self), h).
Proof.
  unfold vars_update, dictionary_entries, bind, get_data, lift, update_from, raise.
  rewrite lookup_empty.
  destruct ((dataAt h (inputDataObjs self) ∪ ∅) !! "outputDataObjs"); [by left|].
  destruct ((dataAt h (outputDataObjs self) ∪ _) !! "mutableDataObjs"); [by left|].
  destruct ((dataAt h (mutableDataObjs self) ∪ _) !! "parameters"); [by left|].
  by right.
Qed.

(** It returns when no data object is stored under the name of a dictionary
    that a later round reads. *)
Lemma vars_update_returns (self : PypeTaskBase) (h : Heap) :
  dataAt h (inputDataObjs self) !! "outputDataObjs" = None ->
  (forall name, name = "mutableDataObjs" \/ name = "parameters" ->
     dataAt h (inputDataObjs self) !! name = None /\
     dataAt h (outputDataObjs self) !! name = None) ->
  dataAt h (mutableDataObjs self) !! "parameters" = None ->
  vars_update self h = (Returned (dictionary_entries h self), h).
Proof.
  intros H1 H2 H3.
  destruct (H2 "mutableDataObjs" ltac:(by left)) as [Hm1 Hm2].
  destruct (H2 "parameters" ltac:(by right)) as [Hp1 Hp2].
  unfold vars_update, dictionary_entries, bind, get_data, lift, update_from, raise.
  rewrite lookup_empty.
  rewrite (proj2 (lookup_union_None _ _ _) (conj H1 (lookup_empty _))).
  rewrite (proj2 (lookup_union_None _ _ _)
             (conj Hm2 (proj2 (lookup_union_None _ _ _) (conj Hm1 (lookup_empty _))))).
  by rewrite (proj2 (lookup_union_None _ _ _)
                (conj H3 (proj2 (lookup_union_None _ _ _)
                   (conj Hp2 (proj2 (lookup_union_None _ _ _)
                      (conj Hp1 (lookup_empty _))))))).
Qed.

Lemma lookup_foldr_delete {A : Type} (w : gmap string A) (names : list string)
    (name : string) :
  name ∉ names -> foldr delete w names !! name = w !! name.
Proof.
  induction names as [|n names IH]; intros Hnot; [done|]. cbn [foldr].
  apply not_elem_of_cons in Hnot as [Hne Hnot].
  rewrite lookup_delete_ne by done. by apply IH.
Qed.

Lemma lookup_foldr_delete_None {A : Type} (w : gmap string A) (names : list string)
    (name : string) :
  w !! name = None -> foldr delete w names !! name = None.
Proof.
  intros Hw. induction names as [|n names IH]; [done|]. cbn [foldr].
  apply lookup_delete_None. by right.
Qed.

Lemma not_assigned_after (c : option Z) (name : string) :
  name <> "chunk_id" -> name <> "_codeMD5digest" -> name <> "_paramMD5digest" ->
  name <> "_compareFunctions" -> name ∉ assigned_after c.
Proof.
  intros H1 H2 H3 H4 Hin. unfold assigned_after in Hin.
  destruct c; simpl in Hin;
    repeat (apply elem_of_cons in Hin as [?|Hin]; [done|]);
    by apply elem_of_nil in Hin.
Qed.

(** What the constructor does after its assignments. *)
Lemma init_after_assignments (URL : string) (kw : Kwargs) (h h1 : Heap)
    (self : PypeTaskBase) :
  bind_attributes URL kw h = (Returned self, h1) ->
  PypeTaskBase__init__ URL kw h
  = match vars_update self h1 with
    | (Raised e, _) => (Raised e, h1)
    | (Returned w, _) =>
        match w !! "outputDataObjs" with
        | Some _ => (Raised AttributeError, h1)
        | None =>
            if existsb is_readOnly
                 (snd <$> map_to_list (dataAt h1 (outputDataObjs self)))
            then (Raised PypeError, h1)
            else (Returned {| assigned := self;
                              written := foldr delete w (assigned_after (kw_chunk_id kw)) |}, h1)
        end
    end.
Proof.
  intros E. unfold PypeTaskBase__init__. rewrite (bind_returned _ _ _ _ _ E).
  destruct (vars_update_outcome self h1) as [Ev|Ev]; rewrite Ev.
  - by rewrite (bind_raised _ _ _ _ _ Ev).
  - rewrite (bind_returned _ _ _ _ _ Ev). cbv zeta.
    assert ("outputDataObjs" ∉ assigned_after (kw_chunk_id kw)) as Hnot
      by (by apply not_assigned_after).
    pose proof (lookup_foldr_delete (dictionary_entries h1 self) _ _ Hnot) as Hdel.
    unfold bind, get_data, lift, outputDataObjs_values. rewrite Hdel.
    destruct (dictionary_entries h1 self !! "outputDataObjs"); [done|].
    by destruct (existsb _ _).
Qed.

(** The attributes that the constructor assigns itself. *)
Lemma bind_attributes_fields (URL_ : string) (kw : Kwargs) (h h' : Heap)
    (t : PypeTaskBase) :
  bind_attributes URL_ kw h = (Returned t, h') ->
  URL t = URL_ /\ _status t = TaskInitialized /\ _referenceMD5 t = None /\
  chunk_id t = kw_chunk_id kw /\
  _compareFunctions t = default [timeStampCompare] (kw_compareFunctions kw) /\
  _codeMD5digest t = default "" (kw_codeMD5digest kw) /\
  _paramMD5digest t = default "" (kw_paramMD5digest kw) /\
  _taskFun t = kw_taskFun kw /\ distributed t = false.
Proof.
  unfold bind_attributes.
  destruct (default_data_attr_returns (kw_inputDataObjs kw) h) as (l1 & h1 & E1).
  rewrite (bind_returned _ _ _ _ _ E1).
  destruct (default_data_attr_returns (kw_outputDataObjs kw) h1) as (l2 & h2 & E2).
  rewrite (bind_returned _ _ _ _ _ E2).
  destruct (default_param_attr_returns (kw_parameters kw) h2) as (l3 & h3 & E3).
  rewrite (bind_returned _ _ _ _ _ E3).
  destruct (default_data_attr_returns (kw_mutableDataObjs kw) h3) as (l4 & h4 & E4).
  rewrite (bind_returned _ _ _ _ _ E4).
  destruct (merge_alias_returns l1 (kw_inputs kw) h4) as (h5 & E5).
  rewrite (bind_returned _ _ _ _ _ E5).
  destruct (merge_alias_returns l2 (kw_outputs kw) h5) as (h6 & E6).
  rewrite (bind_returned _ _ _ _ _ E6).
  destruct (merge_alias_returns l4 (kw_mutables kw) h6) as (h7 & E7).
  rewrite (bind_returned _ _ _ _ _ E7).
  unfold ret. intros [= <- <-]. simpl. repeat split; reflexivity.
Qed.

(** A task object that a constructor returns: the attributes assigned, the
    entries written over them, and what the two checks have found. *)
Lemma instantiate_spec (T : TaskType) (URL_ : string) (kw : Kwargs) (h h' : Heap)
    (t : TaskObject) :
  instantiate T URL_ kw h = (Returned t, h') ->
  exists self,
    bind_attributes URL_ kw h = (Returned self, h') /\
    assigned t = match T with
                 | PypeDistributiableTaskBaseT => set_distributed true self
                 | _ => self
                 end /\
    written t = foldr delete (dictionary_entries h' self)
                  (assigned_last T (kw_chunk_id kw)) /\
    written t !! "outputDataObjs" = None /\
    forall k o, dataAt h' (outputDataObjs self) !! k = Some o ->
                Data.readOnly (Data.attrs o) = false.
Proof.
  destruct (bind_attributes_returns URL_ kw h) as (self & h1 & E).
  assert (forall t0 h0, PypeTaskBase__init__ URL_ kw h = (Returned t0, h0) ->
            h0 = h1 /\ assigned t0 = self /\
            written t0 = foldr delete (dictionary_entries h1 self)
                           (assigned_after (kw_chunk_id kw)) /\
            dictionary_entries h1 self !! "outputDataObjs" = None /\
            forall k o, dataAt h1 (outputDataObjs self) !! k = Some o ->
                        Data.readOnly (Data.attrs o) = false) as Hbase.
  { intros t0 h0. rewrite (init_after_assignments _ _ _ _ _ E).
    destruct (vars_update_outcome self h1) as [Ev|Ev]; rewrite Ev; [done|].
    destruct (dictionary_entries h1 self !! "outputDataObjs"); [done|].
    destruct (existsb is_readOnly _) eqn:Ero; [done|].
    intros [= <- <-]. repeat split; try done.
    intros k o Hk. destruct (Data.readOnly (Data.attrs o)) eqn:Hro; [|done].
    rewrite (proj2 (existsb_readOnly _)) in Ero; [done|]. by exists k, o. }
  destruct T; simpl.
  - intros E0. destruct (Hbase _ _ E0) as (-> & <- & Hw & Hno & Hro). exists t.
    repeat split; try done. rewrite Hw. by apply lookup_foldr_delete_None.
  - intros E0. destruct (Hbase _ _ E0) as (-> & <- & Hw & Hno & Hro). exists t.
    repeat split; try done. rewrite Hw. by apply lookup_foldr_delete_None.
  - unfold PypeDistributiableTaskBase__init__, bind.
    destruct (PypeTaskBase__init__ URL_ kw h) as [[t0|e] h0] eqn:E0; [|done].
    unfold ret. intros [= <- <-].
    destruct (Hbase _ _ eq_refl) as (-> & <- & Hw & Hno & Hro).
    exists t0. simpl. rewrite Hw. repeat split; try done.
    apply lookup_delete_None. right. by apply lookup_foldr_delete_None.
Qed.

(** The attributes that a constructor assigns to the task it returns. *)
Lemma instantiate_fields (T : TaskType) (URL_ : string) (kw : Kwargs)
    (h h' : Heap) (t : TaskObject) :
  instantiate T URL_ kw h = (Returned t, h') ->
  URL t = URL_ /\ _status t = TaskInitialized /\ _referenceMD5 t = None /\
  chunk_id t = kw_chunk_id kw /\
  _compareFunctions t = default [timeStampCompare] (kw_compareFunctions kw) /\
  _codeMD5digest t = default "" (kw_codeMD5digest kw) /\
  distributed t = (if T is PypeDistributiableTaskBaseT then true else false) /\
  forall k o, dataAt h' (outputDataObjs t) !! k = Some o ->
              Data.readOnly (Data.attrs o) = false.
Proof.
  intros E. apply instantiate_spec in E as (self & E & Ht & _ & _ & Hro).
  apply bind_attributes_fields in E as (H1 & H2 & H3 & H4 & H5 & H6 & _ & _ & H9).
  rewrite Ht. destruct T; simpl; repeat split; done.
Qed.

(** A name that is no key of a dictionary passed is no key of a dictionary of
    the task, and no entry is written under it. *)
Lemma absent_key (URL_ : string) (kw : Kwargs) (h h1 : Heap) (self : PypeTaskBase) :
  distinct_dicts kw h -> bind_attributes URL_ kw h = (Returned self, h1) ->
  forall name, name ∉ kw_keys kw h ->
    dataAt h1 (inputDataObjs self) !! name = None /\
    dataAt h1 (outputDataObjs self) !! name = None /\
    dataAt h1 (mutableDataObjs self) !! name = None /\
    paramAt h1 (parameters self) !! name = None.
Proof.
  intros Hdist E name Hn.
  destruct (bind_attributes_dicts _ _ _ _ _ Hdist E) as (Di & Do & Dm & Dp & _).
  unfold kw_keys in Hn. rewrite Di, Do, Dm, Dp.
  rewrite !not_elem_of_union in Hn. destruct Hn as [[[? ?] ?] ?].
  by rewrite <- !not_elem_of_dom.
Qed.

Lemma dictionary_entries_None (h : Heap) (self : PypeTaskBase) (name : string) :
  dataAt h (inputDataObjs self) !! name = None /\
  dataAt h (outputDataObjs self) !! name = None /\
  dataAt h (mutableDataObjs self) !! name = None /\
  paramAt h (parameters self) !! name = None ->
  dictionary_entries h self !! name = None.
Proof.
  intros (Hi & Ho & Hm & Hp). unfold dictionary_entries.
  apply lookup_union_None. rewrite !lookup_fmap, Hp. split; [done|].
  by rewrite (proj2 (lookup_union_None _ _ _)
                (conj Hm (proj2 (lookup_union_None _ _ _)
                   (conj Ho (proj2 (lookup_union_None _ _ _)
                      (conj Hi (lookup_empty _))))))).
Qed.

(** The constructor returns a task when the dictionaries passed are
    different objects, none of their keys is [outputDataObjs],
    [mutableDataObjs] or [parameters], and no declared output is
    read-only. *)
Lemma instantiate_returns (T : TaskType) (URL_ : string) (kw : Kwargs) (h : Heap) :
  distinct_dicts kw h ->
  (forall name, name = "outputDataObjs" \/ name = "mutableDataObjs" \/
                name = "parameters" -> name ∉ kw_keys kw h) ->
  (forall k o, declared_outputs kw h !! k = Some o ->
               Data.readOnly (Data.attrs o) = false) ->
  exists t h', instantiate T URL_ kw h = (Returned t, h').
Proof.
  intros Hdist Hnames Hrw.
  destruct (bind_attributes_returns URL_ kw h) as (self & h1 & E).
  destruct (bind_attributes_dicts _ _ _ _ _ Hdist E) as (_ & Do & _).
  pose proof (absent_key _ _ _ _ _ Hdist E) as Hkeys.
  destruct (Hkeys _ (Hnames _ ltac:(by left))) as (Ho1 & Ho2 & Ho3 & Ho4).
  destruct (Hkeys _ (Hnames _ ltac:(by right; left))) as (Hm1 & Hm2 & _).
  destruct (Hkeys _ (Hnames _ ltac:(by right; right))) as (Hp1 & Hp2 & Hp3 & _).
  assert (exists t, PypeTaskBase__init__ URL_ kw h = (Returned t, h1)) as (t & Einit).
  { rewrite (init_after_assignments _ _ _ _ _ E).
    rewrite vars_update_returns; [|done|by intros name [->| ->]|done].
    rewrite (dictionary_entries_None _ _ _ (conj Ho1 (conj Ho2 (conj Ho3 Ho4)))).
    destruct (existsb is_readOnly _) eqn:Ero; [|by eexists].
    apply existsb_readOnly in Ero as (k & o & Hk & Hro).
    rewrite Do in Hk. rewrite (Hrw k o Hk) in Hro. discriminate. }
  destruct T; simpl; try by exists t, h1.
  unfold PypeDistributiableTaskBase__init__.
  rewrite (bind_returned _ _ _ _ _ Einit). by eexists _, _.
Qed.




(** An input stored under the key [parameters] replaces the attribute of
    that name in the first round of the loop; the last round then finds a
    data object in the place of the dictionary and raises [TypeError]. *)
Example input_named_parameters :
  forall T,
    fst (instantiate T "task://tmp/pypetest/test" alias_kwargv
           {| dataDicts := <[1%positive := {["parameters" := testfile_in]}]>
                             (<[2%positive := test_outputs]> ∅);
              paramDicts := ∅; next_loc := 3%positive |})
    = Raised TypeError.
Proof. intros [| |]; vm_compute; reflexivity. Qed.

(** ** Heaps that grow *)

Lemma extends_refl (h : Heap) : extends h h.
Proof. split; [lia | done]. Qed.

Lemma extends_trans (h1 h2 h3 : Heap) :
  extends h1 h2 -> extends h2 h3 -> extends h1 h3.
Proof.
  intros [Hle1 H1] [Hle2 H2]. split; [lia|].
  intros l Hl. destruct (H1 l Hl) as [<- <-]. apply H2. lia.
Qed.

Lemma task_allocated_extends (h h' : Heap) (t : PypeTaskBase) :
  extends h h' -> task_allocated h t -> task_allocated h' t.
Proof. intros [Hle _] (H1 & H2 & H3 & H4). repeat split; lia. Qed.

Lemma extends_dataAt (h h' : Heap) (l : loc) :
  extends h h' -> (l < next_loc h)%positive -> dataAt h' l = dataAt h l.
Proof. intros [_ H] Hl. unfold dataAt. by destruct (H l Hl) as [-> _]. Qed.

Lemma extends_paramAt (h h' : Heap) (l : loc) :
  extends h h' -> (l < next_loc h)%positive -> paramAt h' l = paramAt h l.
Proof. intros [_ H] Hl. unfold paramAt. by destruct (H l Hl) as [_ ->]. Qed.

(** The entries of the dictionaries of a task stay as they are while the
    heap only grows. *)
Lemma dictionary_entries_extends (h h' : Heap) (t : PypeTaskBase) :
  extends h h' -> task_allocated h t ->
  dictionary_entries h' t = dictionary_entries h t.
Proof.
  intros Hext (Hi & Ho & Hp & Hm). unfold dictionary_entries.
  by rewrite (extends_paramAt _ _ _ Hext Hp), (extends_dataAt _ _ _ Hext Hm),
    (extends_dataAt _ _ _ Hext Ho), (extends_dataAt _ _ _ Hext Hi).
Qed.

(** The dictionaries that the keyword arguments bring were made before. *)
Lemma distinct_dicts_allocated (kw : Kwargs) (h : Heap) :
  distinct_dicts kw h ->
  allocated h (kw_inputDataObjs kw) /\ allocated h (kw_outputDataObjs kw) /\
  allocated h (kw_mutableDataObjs kw) /\ allocated h (kw_inputs kw) /\
  allocated h (kw_outputs kw) /\ allocated h (kw_mutables kw).
Proof.
  intros (_ & Hal & _). unfold kw_data_dicts in Hal.
  assert (forall j a, [kw_inputDataObjs kw; kw_outputDataObjs kw; kw_mutableDataObjs kw;
                       kw_inputs kw; kw_outputs kw; kw_mutables kw] !! j = Some a ->
                      allocated h a) as H.
  { intros j [a|] Hj; [|done]. by apply (omap_id_Forall _ _ _ _ Hal Hj). }
  repeat split; [apply (H 0)|apply (H 1)|apply (H 2)|apply (H 3)|apply (H 4)|apply (H 5)];
    reflexivity.
Qed.

(** The keyword arguments of a decomposer with two new dictionaries in the
    place of the inputs and the outputs. *)
Lemma distinct_dicts_newKwargv (kw : Kwargs) (h0 h2 : Heap) (name cm pm : string)
    (ch : option Z) (a b : loc) :
  distinct_dicts kw h0 ->
  (next_loc h0 <= a)%positive -> (next_loc h0 <= b)%positive -> a <> b ->
  (a < next_loc h2)%positive -> (b < next_loc h2)%positive ->
  distinct_dicts (newKwargv kw name a b cm pm ch) h2.
Proof.
  intros (Hnd & Hal & Hp) Ha Hb Hab Ha2 Hb2.
  unfold distinct_dicts, kw_data_dicts in *. unfold newKwargv.
  cbn [kw_inputDataObjs kw_outputDataObjs kw_mutableDataObjs kw_inputs kw_outputs
       kw_mutables kw_parameters].
  change [kw_inputDataObjs kw; kw_outputDataObjs kw; kw_mutableDataObjs kw;
          kw_inputs kw; kw_outputs kw; kw_mutables kw]
    with ([kw_inputDataObjs kw; kw_outputDataObjs kw]
          ++ [kw_mutableDataObjs kw; kw_inputs kw; kw_outputs kw; kw_mutables kw])%list
    in Hnd, Hal.
  rewrite omap_app in Hnd, Hal.
  apply NoDup_app in Hnd as (_ & _ & Hnd). apply Forall_app in Hal as [_ Hal].
  change (omap id [Some a; Some b; kw_mutableDataObjs kw; kw_inputs kw; kw_outputs kw;
                   kw_mutables kw])
    with ([a; b] ++ omap id [kw_mutableDataObjs kw; kw_inputs kw; kw_outputs kw;
                            kw_mutables kw])%list.
  rewrite Forall_forall in Hal.
  split; [|split].
  - apply NoDup_app. split; [|split; [|done]].
    + apply NoDup_cons. split; [|apply NoDup_singleton].
      by intros ->%list_elem_of_singleton.
    + intros x Hx Hx'. apply Hal in Hx'.
      apply elem_of_cons in Hx as [->|Hx]; [lia|].
      apply list_elem_of_singleton in Hx as ->. lia.
  - apply Forall_app. split; [by repeat constructor|].
    apply Forall_forall. intros x Hx. apply Hal in Hx. lia.
  - destruct (kw_parameters kw); simpl in *; [lia|done].
Qed.
(** ** The execution wrapper *)

Lemma missing_outputs_nil (w : World) (d : gmap string DataObject) :
  missing_outputs w d = [] <->
  forall k o, d !! k = Some o -> Data.exists_ w o = true.
Proof.
  unfold missing_outputs. split.
  - intros E k o Hk.
    destruct (Data.exists_ w o) eqn:Ex; [done|].
    assert ((k, o) ∈ filter (fun ko : string * DataObject =>
                               negb (Data.exists_ w (snd ko)) = true) (map_to_list d)) as Hin.
    { apply list_elem_of_filter. split; [simpl; by rewrite Ex|].
      by apply elem_of_map_to_list. }
    rewrite E in Hin. inversion Hin.
  - intros H.
    destruct (filter _ _) as [|[k o] l] eqn:E; [done|].
    assert ((k, o) ∈ filter (fun ko : string * DataObject =>
                               negb (Data.exists_ w (snd ko)) = true) (map_to_list d)) as Hin
      by (rewrite E; left).
    apply list_elem_of_filter in Hin as [Hmiss Hin].
    apply elem_of_map_to_list in Hin. simpl in Hmiss.
    rewrite (H k o Hin) in Hmiss. discriminate.
Qed.

(** What [run] does once the task function has returned and the two
    comparisons have found no difference. *)
Lemma run_after_return (taskFun : TaskFun) (st st1 : State) (rtn : PyVal) :
  taskFun st = (Returned rtn, st1) ->
  dataAt (heap st1) (inputDataObjs (self st1))
  = dataAt (heap st1) (inputDataObjs (self st)) ->
  paramAt (heap st1) (parameters (self st1))
  = paramAt (heap st1) (parameters (self st)) ->
  run taskFun st
  = (Returned true,
     with_status st1
       match missing_outputs (world st1)
               (dataAt (heap st1) (outputDataObjs (self st1))) with
       | [] => TaskDone
       | _ :: _ => TaskFail
       end).
Proof.
  intros E Hin Hpar. unfold run. rewrite E.
  rewrite (bool_decide_eq_true_2 _ Hin), (bool_decide_eq_true_2 _ Hpar). simpl.
  by destruct (missing_outputs _ _).
Qed.

(** C4 (amended). When the task function returns and the dictionaries bound
    to [inputDataObjs] and [parameters] afterwards equal those bound on
    entry, [run] returns [True], and the status is [TaskFail] if some output
    does not exist then and [TaskDone] if every output exists. *)
Theorem run_returns_True (taskFun : TaskFun) (st st1 : State) (rtn : PyVal) :
  taskFun st = (Returned rtn, st1) ->
  dataAt (heap st1) (inputDataObjs (self st1))
  = dataAt (heap st1) (inputDataObjs (self st)) ->
  paramAt (heap st1) (parameters (self st1))
  = paramAt (heap st1) (parameters (self st)) ->
  exists status,
    run taskFun st = (Returned true, with_status st1 status) /\
    _status (self (snd (run taskFun st))) = status /\
    ((exists k o, dataAt (heap st1) (outputDataObjs (self st1)) !! k = Some o /\
                  Data.exists_ (world st1) o = false) -> status = TaskFail) /\
    ((forall k o, dataAt (heap st1) (outputDataObjs (self st1)) !! k = Some o ->
                  Data.exists_ (world st1) o = true) -> status = TaskDone).
Proof.
  intros E Hin Hpar. rewrite (run_after_return taskFun st st1 rtn E Hin Hpar).
  destruct (missing_outputs _ _) as [|x missing] eqn:Emiss.
  - exists TaskDone. split; [done|]. split; [done|]. split; [|done].
    intros (k & o & Hk & Hex).
    rewrite (proj1 (missing_outputs_nil _ _) Emiss k o Hk) in Hex. discriminate.
  - exists TaskFail. split; [done|]. split; [done|]. split; [done|].
    intros Hall. apply missing_outputs_nil in Hall. rewrite Hall in Emiss. discriminate.
Qed.

Lemma run_returns_True_witness :
  exists status,
    run (fun st => (Returned PyNone, st)) (test_state (world_at 10 20))
    = (Returned true, with_status (test_state (world_at 10 20)) status) /\
    _status (self (snd (run (fun st => (Returned PyNone, st))
                          (test_state (world_at 10 20))))) = status /\
    ((exists k o, dataAt test_heap 2%positive !! k = Some o /\
                  Data.exists_ (world_at 10 20) o = false) -> status = TaskFail) /\
    ((forall k o, dataAt test_heap 2%positive !! k = Some o ->
                  Data.exists_ (world_at 10 20) o = true) -> status = TaskDone).
Proof.
  apply (run_returns_True (fun st => (Returned PyNone, st))
           (test_state (world_at 10 20)) (test_state (world_at 10 20)) PyNone);
    reflexivity.
Defined.

(** C4, as stated, fails: this task function returns, and [run] raises
    [TaskFunctionError] where it should return [True]; the status stays as
    it was. *)
Lemma run_raises_after_normal_return :
  fst (body_rebinds_parameters (test_state (world_at 10 20))) = Returned PyNone /\
  fst (run body_rebinds_parameters (test_state (world_at 10 20)))
  = Raised TaskFunctionError /\
  fst (run body_rebinds_parameters (test_state (world_at 10 20))) <> Returned true /\
  _status (self (snd (run body_rebinds_parameters (test_state (world_at 10 20)))))
  = TaskInitialized.
Proof.
  assert (fst (run body_rebinds_parameters (test_state (world_at 10 20)))
          = Raised TaskFunctionError) as E by (vm_compute; reflexivity).
  split; [reflexivity|]. split; [exact E|]. split; [rewrite E; discriminate|].
  vm_compute. reflexivity.
Qed.

(** A task function that leaves the attributes [inputDataObjs] and
    [parameters] bound to the dictionaries they were bound to is never
    reported, whatever it did to the entries of those dictionaries: the
    snapshot is the dictionary itself. *)
Lemma run_compares_a_dictionary_with_itself (taskFun : TaskFun) (st st1 : State)
    (rtn : PyVal) :
  taskFun st = (Returned rtn, st1) ->
  inputDataObjs (self st1) = inputDataObjs (self st) ->
  parameters (self st1) = parameters (self st) ->
  fst (run taskFun st) = Returned true.
Proof.
  intros E Hin Hpar.
  rewrite (run_after_return taskFun st st1 rtn E); [done | by rewrite Hin | by rewrite Hpar].
Qed.

(** C2 fails on the code.  The task function changes an entry of its
    parameters; [run] returns [True] and sets the status to [TaskDone]. *)
Theorem run_misses_mutated_parameters :
  fst (body_mutates_parameters (test_state (world_at 10 20))) = Returned PyNone /\
  paramAt (heap (test_state (world_at 10 20))) (parameters test_task) !! "a"
  = Some (PyStr "I am a") /\
  paramAt (heap (snd (body_mutates_parameters (test_state (world_at 10 20)))))
    (parameters test_task) !! "a" = Some (PyStr "changed") /\
  fst (run body_mutates_parameters (test_state (world_at 10 20))) = Returned true /\
  _status (self (snd (run body_mutates_parameters (test_state (world_at 10 20)))))
  = TaskDone.
Proof. repeat split; vm_compute; reflexivity. Qed.

(** A rebinding of [parameters] to a dictionary with other entries is
    reported, and [__call__] then sets the status to [TaskFail]. *)
Lemma run_reports_rebound_parameters (taskFun : TaskFun) (st st1 : State)
    (rtn : PyVal) :
  taskFun st = (Returned rtn, st1) ->
  paramAt (heap st1) (parameters (self st1))
  <> paramAt (heap st1) (parameters (self st)) ->
  run taskFun st = (Raised TaskFunctionError, st1) /\
  PypeTaskBase__call__ taskFun st
  = (Raised TaskFunctionError, with_status st1 TaskFail).
Proof.
  intros E Hne.
  assert (run taskFun st = (Raised TaskFunctionError, st1)) as Hrun.
  { unfold run. rewrite E. rewrite (bool_decide_eq_false_2 _ Hne). simpl.
    by rewrite orb_true_r. }
  split; [done|]. unfold PypeTaskBase__call__. by rewrite Hrun.
Qed.

(** ** Unique names *)

Lemma of_uint_zero_pad (k : nat) (d : Decimal.uint) :
  Nat.of_uint (zero_pad k d) = Nat.of_uint d.
Proof.
  unfold zero_pad. induction k as [|k IH]; [done|]. simpl. exact IH.
Qed.

(** The number can be read back from its zero-padded form. *)
Lemma fmt_0d_inj (width a b : nat) : fmt_0d width a = fmt_0d width b -> a = b.
Proof.
  unfold fmt_0d. intros E.
  apply (f_equal DecimalString.NilEmpty.uint_of_string) in E.
  rewrite !DecimalString.NilEmpty.usu in E. injection E as E.
  apply (f_equal Nat.of_uint) in E.
  by rewrite !of_uint_zero_pad, !DecimalNat.Unsigned.of_to in E.
Qed.

Lemma try_name_inj (name : string) (a b : nat) :
  try_name name a = try_name name b -> a = b.
Proof.
  unfold try_name. intros E.
  apply (inj (String.app name)) in E. apply (inj (String.app ".")) in E.
  by apply fmt_0d_inj in E.
Qed.

Lemma find_free_Some (fuel : nat) (reg : gset string) (name : string) (n : nat)
    (t : string) :
  find_free fuel reg name n = Some t ->
  exists k, n < k /\ k <= n + fuel /\ t = try_name name k /\ (t ∉ reg) /\
            forall j, n < j -> j < k -> try_name name j ∈ reg.
Proof.
  revert n. induction fuel as [|fuel IH]; intros n; simpl; [done|].
  case_bool_decide as Hfree.
  - intros [= <-]. exists (S n). split; [lia|]. split; [lia|].
    split; [done|]. split; [done|]. intros j Hj1 Hj2. lia.
  - intros E. destruct (IH _ E) as (k & Hk1 & Hk2 & -> & Hnot & Hbelow).
    exists k. split; [lia|]. split; [lia|]. split; [done|]. split; [done|].
    intros j Hj1 Hj2. destruct (decide (j = S n)) as [->|Hne].
    + exact Hfree.
    + apply Hbelow; lia.
Qed.

Lemma find_free_None (fuel : nat) (reg : gset string) (name : string) (n : nat) :
  find_free fuel reg name n = None ->
  forall j, n < j -> j <= n + fuel -> try_name name j ∈ reg.
Proof.
  revert n. induction fuel as [|fuel IH]; intros n; simpl.
  - intros _ j Hj1 Hj2. lia.
  - case_bool_decide as Hfree; [done|].
    intros E j Hj1 Hj2. destruct (decide (j = S n)) as [->|Hne].
    + exact Hfree.
    + apply (IH _ E); lia.
Qed.

(** A registry holds at most as many of the candidate names as it has
    names. *)
Lemma candidates_bounded (reg : gset string) (name : string) (n fuel : nat) :
  (forall j, n < j -> j <= n + fuel -> try_name name j ∈ reg) -> fuel <= size reg.
Proof.
  intros H.
  assert (NoDup (try_name name <$> seq (S n) fuel)) as Hnd.
  { apply NoDup_fmap_2; [|apply NoDup_seq]. intros a b. apply try_name_inj. }
  assert (try_name name <$> seq (S n) fuel ⊆+ elements reg) as Hsub.
  { apply NoDup_submseteq; [done|]. intros x Hx.
    apply list_elem_of_fmap in Hx as (j & -> & Hj). apply elem_of_seq in Hj.
    apply elem_of_elements, H; lia. }
  apply submseteq_length in Hsub. rewrite length_fmap, length_seq in Hsub.
  exact Hsub.
Qed.

(** With more fuel than the registry has names the loop ends. *)
Lemma find_free_ends (fuel : nat) (reg : gset string) (name : string) (n : nat) :
  size reg < fuel -> exists t, find_free fuel reg name n = Some t.
Proof.
  intros Hfuel. destruct (find_free fuel reg name n) as [t|] eqn:E; [by exists t|].
  pose proof (candidates_bounded reg name n fuel (find_free_None _ _ _ _ E)). lia.
Qed.

(** One call: it returns a name that was not in the registry and adds it. *)
Lemma _unique_name_fresh (fuel : nat) (reg : gset string) (name : string) :
  size reg < fuel ->
  exists r, _unique_name fuel reg name = Some (r, {[r]} ∪ reg) /\ (r ∉ reg) /\
            (name ∉ reg -> r = name) /\
            (name ∈ reg ->
             exists k, 1 <= k /\ r = try_name name k /\
                       forall j, 1 <= j -> j < k -> try_name name j ∈ reg).
Proof.
  intros Hfuel. unfold _unique_name. case_bool_decide as Hin.
  - destruct (find_free_ends fuel reg name 0 Hfuel) as (t & E). rewrite E.
    destruct (find_free_Some _ _ _ _ _ E) as (k & Hk1 & Hk2 & -> & Hnot & Hbelow).
    eexists. split; [done|]. split; [done|]. split; [done|].
    intros _. exists k. split; [lia|]. split; [done|].
    intros j Hj1 Hj2. apply Hbelow; lia.
  - exists name. split; [done|]. split; [done|]. split; [done|]. done.
Qed.

Lemma size_add_name (reg : gset string) (r : string) :
  r ∉ reg -> size ({[r]} ∪ reg) = S (size reg).
Proof.
  intros H. rewrite size_union.
  - by rewrite size_singleton.
  - intros x Hx Hx'. apply elem_of_singleton in Hx as ->. done.
Qed.

(** A sequence of calls returns names that are new to the registry and
    differ from one another. *)
Lemma unique_names_distinct (fuel : nat) (names : list string) (reg : gset string) :
  size reg + length names <= fuel ->
  exists rs reg', unique_names fuel reg names = Some (rs, reg') /\
                  length rs = length names /\ NoDup rs /\
                  (forall r, r ∈ rs -> r ∉ reg) /\ reg ⊆ reg'.
Proof.
  revert reg. induction names as [|name names IH]; intros reg Hfuel; simpl in *.
  - exists [], reg. split; [done|]. split; [done|]. split; [constructor|].
    split; [|done]. intros r Hr. inversion Hr.
  - destruct (_unique_name_fresh fuel reg name) as (r & E & Hfresh & _); [lia|].
    rewrite E.
    destruct (IH ({[r]} ∪ reg)) as (rs & reg' & Ers & Hlen & Hnd & Hnew & Hsub).
    { rewrite size_add_name by done. lia. }
    rewrite Ers. exists (r :: rs), reg'. split; [done|].
    split; [simpl; by rewrite Hlen|]. split.
    + constructor; [|done]. intros Hr. apply (Hnew r Hr).
      apply elem_of_union_l. by apply elem_of_singleton.
    + split.
      * intros x Hx. apply elem_of_cons in Hx as [->|Hx]; [done|].
        intros Hreg. apply (Hnew x Hx). by apply elem_of_union_r.
      * intros x Hx. apply Hsub. by apply elem_of_union_r.
Qed.

(** C9. Two calls with the same base name, on any registry and with enough
    fuel for the loop: both return; the two names differ; the second is the
    base name, a dot and the two-digit zero-padded form of the least counter
    from 1 whose name the registry did not hold.  And the names returned by
    any sequence of calls differ from one another. *)
Theorem _unique_name_twice (fuel : nat) (_auto_names : gset string) (name : string) :
  size _auto_names + 2 <= fuel ->
  (exists n1 n2 k,
     _unique_name fuel _auto_names name = Some (n1, {[n1]} ∪ _auto_names) /\
     _unique_name fuel ({[n1]} ∪ _auto_names) name
     = Some (n2, {[n2]} ∪ ({[n1]} ∪ _auto_names)) /\
     n1 <> n2 /\
     1 <= k /\ n2 = name ++ "." ++ fmt_0d 2 k /\
     (n2 ∉ {[n1]} ∪ _auto_names) /\
     (forall j, 1 <= j -> j < k ->
                name ++ "." ++ fmt_0d 2 j ∈ {[n1]} ∪ _auto_names)) /\
  (forall names, size _auto_names + length names <= fuel ->
     exists rs reg', unique_names fuel _auto_names names = Some (rs, reg') /\
                     length rs = length names /\ NoDup rs).
Proof.
  intros Hfuel. split.
  - destruct (_unique_name_fresh fuel _auto_names name) as (n1 & E1 & Hf1 & Hnew1 & Hold1);
      [lia|].
    destruct (_unique_name_fresh fuel ({[n1]} ∪ _auto_names) name)
      as (n2 & E2 & Hf2 & _ & Hold2).
    { rewrite size_add_name by done. lia. }
    assert (name ∈ {[n1]} ∪ _auto_names) as Hin.
    { destruct (decide (name ∈ _auto_names)) as [H|H]; [by apply elem_of_union_r|].
      rewrite (Hnew1 H). apply elem_of_union_l. by apply elem_of_singleton. }
    destruct (Hold2 Hin) as (k & Hk & -> & Hbelow).
    exists n1, (try_name name k), k.
    split; [done|]. split; [done|]. split.
    { intros Heq. apply Hf2. rewrite <- Heq.
      apply elem_of_union_l. by apply elem_of_singleton. }
    split; [done|]. split; [done|]. split; [done|]. exact Hbelow.
  - intros names Hn.
    destruct (unique_names_distinct fuel names _auto_names Hn)
      as (rs & reg' & E & Hlen & Hnd & _).
    by exists rs, reg'.
Qed.

Lemma _unique_name_twice_witness :
  (exists n1 n2 k,
     _unique_name 3 ∅ "foo" = Some (n1, {[n1]} ∪ ∅) /\
     _unique_name 3 ({[n1]} ∪ ∅) "foo" = Some (n2, {[n2]} ∪ ({[n1]} ∪ ∅)) /\
     n1 <> n2 /\
     1 <= k /\ n2 = "foo" ++ "." ++ fmt_0d 2 k /\
     (n2 ∉ ({[n1]} ∪ ∅ : gset string)) /\
     (forall j, 1 <= j -> j < k ->
                "foo" ++ "." ++ fmt_0d 2 j ∈ ({[n1]} ∪ ∅ : gset string))) /\
  (forall names, size (∅ : gset string) + length names <= 3 ->
     exists rs reg', unique_names 3 ∅ names = Some (rs, reg') /\
                     length rs = length names /\ NoDup rs).
Proof.
  apply (_unique_name_twice 3 ∅ "foo"). vm_compute. lia.
Defined.

(** The doctest of [_unique_name]. *)
Example _unique_name_doctest :
  unique_names 10 ∅ ["foo"; "foo"; "foo"]
  = Some (["foo"; "foo.01"; "foo.02"], {["foo.02"]} ∪ ({["foo.01"]} ∪ ({["foo"]} ∪ ∅))).
Proof. vm_compute. reflexivity. Qed.

(** ** The scatter decomposer *)





(** The keys gathered by the first loop are those of the inputs that have a
    chunk count. *)
Lemma collect_inputs_scattered (items : list (string * DataObject))
    (n n' : option Z) (sc sc' : list string) (tasks tasks' : PypeTaskCollection) :
  collect_inputs items n sc tasks = Returned (n', sc', tasks') ->
  forall k, k ∈ sc' <->
            k ∈ sc \/ exists o, (k, o) ∈ items /\ Data.chunks o <> None.
Proof.
  revert n sc tasks. induction items as [|[k o] items IH]; intros n sc tasks; simpl.
  - intros [= <- <- <-] k. split; [by left|]. intros [H|(o & H & _)]; [done|].
    inversion H.
  - destruct (Data.chunks o) as [c|] eqn:Hc.
    + assert (forall n1 t1,
                collect_inputs items n1 (sc ++ [k]) t1 = Returned (n', sc', tasks') ->
                forall k', k' ∈ sc' <->
                  k' ∈ sc \/ exists o', (k', o') ∈ (k, o) :: items /\ Data.chunks o' <> None)
        as Hstep.
      { intros n1 t1 E k'. rewrite (IH _ _ _ E k'), elem_of_app, list_elem_of_singleton.
        split.
        - intros [[H| ->]|(o' & Hin & Ho')].
          + by left.
          + right. exists o. split; [left|]. by rewrite Hc.
          + right. exists o'. split; [by right | done].
        - intros [H|(o' & Hin & Ho')]; [by left; left|].
          apply elem_of_cons in Hin as [[= -> ->]|Hin]; [left; by right|].
          right. by exists o'. }
      destruct n as [m|].
      * case_bool_decide; [|done]. apply Hstep.
      * apply Hstep.
    + intros E k'. rewrite (IH _ _ _ E k'). split.
      * intros [H|(o' & Hin & Ho')]; [by left|]. right. exists o'. split; [by right|done].
      * intros [H|(o' & Hin & Ho')]; [by left|].
        apply elem_of_cons in Hin as [[= -> ->]|Hin]; [by rewrite Hc in Ho'|].
        right. by exists o'.
Qed.


Lemma collect_inputs_tasks (items : list (string * DataObject))
    (n n' : option Z) (sc sc' : list string) (tasks tasks' : PypeTaskCollection) :
  collect_inputs items n sc tasks = Returned (n', sc', tasks') ->
  _tasks tasks' = _tasks tasks.
Proof.
  revert n sc tasks. induction items as [|[k o] items IH]; intros n sc tasks; simpl.
  - by intros [= <- <- <-].
  - destruct (Data.chunks o) as [c|]; [|apply IH].
    destruct n as [m|].
    + case_bool_decide; [apply IH | done].
    + intros E. rewrite (IH _ _ _ E). by destruct (Data.getScatterTask c).
Qed.

Lemma collect_outputs_tasks (items : list (string * DataObject))
    (n n' : option Z) (tasks tasks' : PypeTaskCollection) :
  collect_outputs items n tasks = Returned (n', tasks') ->
  _tasks tasks' = _tasks tasks.
Proof.
  revert n tasks. induction items as [|[k o] items IH]; intros n tasks; simpl.
  - by intros [= <- <-].
  - destruct (Data.chunks o) as [c|]; [|apply IH].
    destruct n as [m|]; [|apply IH].
    case_bool_decide; [|done].
    intros E. rewrite (IH _ _ E). by destruct (Data.getGatherTask c).
Qed.

Section Decomposer.

Variable md5_hexdigest : string -> string.
Variable repr_kwargv : string -> Kwargs -> string.
Variable T : TaskType.
Variable taskFun : Function.




(** The sub-task of one chunk. *)
Lemma chunk_task_spec (URL_ : string) (kw : Kwargs)
    (ins outs : gmap string DataObject) (sc : list string) (i : nat)
    (h0 h h' : Heap) (t : TaskObject) :
  distinct_dicts kw h0 -> extends h0 h ->
  (kw_mutables kw = None \/ kw_mutableDataObjs kw = None) ->
  chunk_task md5_hexdigest repr_kwargv T taskFun URL_ kw ins outs sc i h
  = (Returned t, h') ->
  extends h h' /\
  chunk_task_made T URL_ ins outs
    (match kw_inputs kw with Some l => dataAt h0 l | None => ∅ end)
    (match kw_outputs kw with Some l => dataAt h0 l | None => ∅ end) sc h' i t.
Proof.
  intros Hdist Hext Hmut. unfold chunk_task, bind, lift.
  destruct (subTaskInput (map_to_list ins) sc i ∅) as [subIn|e] eqn:Ein; [|done].
  destruct (subTaskOutput (map_to_list outs) i ∅) as [subOut|e] eqn:Eout; [|done].
  unfold new_data_dict. cbn beta iota zeta. cbn [next_loc dataDicts paramDicts].
  set (a := next_loc h). set (b := Pos.succ a).
  set (h2 := {| dataDicts := <[b := subOut]> (<[a := subIn]> (dataDicts h));
                paramDicts := paramDicts h; next_loc := Pos.succ b |}).
  set (kw' := newKwargv kw (func_name taskFun) a b (codeMD5digest md5_hexdigest taskFun)
                (md5_hexdigest (repr_kwargv URL_ kw)) (Some (Z.of_nat i))).
  intros E.
  destruct Hext as [Hle Hframe].
  assert (distinct_dicts kw' h2) as Hdist'.
  { apply (distinct_dicts_newKwargv kw h0); subst a b h2; simpl; try done; lia. }
  destruct (distinct_dicts_allocated _ _ Hdist) as (_ & _ & Am & Ai & Ao & _).
  apply instantiate_spec in E as (self & Eb & Ht & Hw & Hno & _).
  destruct (bind_attributes_fields _ _ _ _ _ Eb) as (F1 & F2 & _ & F4 & _).
  destruct (bind_attributes_dicts _ _ _ _ _ Hdist' Eb)
    as (Di & Do & _ & _ & Hn & Halloc & Hfd & Hfp).
  assert (forall x : option loc, allocated h0 x ->
            match x with Some l => dataAt h2 l | None => ∅ end
            = match x with Some l => dataAt h0 l | None => ∅ end) as Halias.
  { intros [l|] Hl; [|done]. simpl in Hl. unfold dataAt. subst h2. simpl.
    rewrite !lookup_insert_ne by (subst a b; lia).
    by destruct (Hframe l Hl) as [-> _]. }
  assert (inputDataObjs t = inputDataObjs self /\ outputDataObjs t = outputDataObjs self /\
          parameters t = parameters self /\ mutableDataObjs t = mutableDataObjs self /\
          URL t = URL self /\ chunk_id t = chunk_id self /\ _status t = _status self)
    as (T1 & T2 & T3 & T4 & T5 & T6 & T7) by (rewrite Ht; by destruct T).
  split; [|split; [|split; [|split; [|split; [|split; [|split; [|split; [|done]]]]]]]].
  - split; [subst h2 a b; simpl in Hn; lia|]. intros l Hl. split.
    + rewrite Hfd.
      * subst h2. simpl. by rewrite !lookup_insert_ne by (subst a b; lia).
      * subst h2 a b. simpl. lia.
      * subst kw'. simpl. intros [= <-]. subst a. lia.
      * subst kw'. simpl. intros [= <-]. subst b a. lia.
      * subst kw'. simpl. intros Hm. destruct Hmut as [?|Hmut]; [done|].
        by rewrite Hmut in Hm.
    + rewrite Hfp; [done|]. subst h2 a b. simpl. lia.
  - unfold task_allocated. by rewrite T1, T2, T3, T4.
  - by rewrite T5.
  - by rewrite T6.
  - by rewrite T7.
  - exists subIn. split; [done|]. rewrite T1, Di. unfold declared_inputs. subst kw'.
    simpl. rewrite (Halias _ Ai). f_equal.
    unfold dataAt. subst h2. simpl.
    rewrite lookup_insert_ne by (subst b; lia). by rewrite lookup_insert_eq.
  - exists subOut. split; [done|]. rewrite T2, Do. unfold declared_outputs. subst kw'.
    simpl. rewrite (Halias _ Ao). f_equal.
    unfold dataAt. subst h2. simpl. by rewrite lookup_insert_eq.
  - rewrite Hw. unfold dictionary_entries. by rewrite T1, T2, T3, T4.
Qed.

(** A sub-task stays what it is while the heap only grows. *)
Lemma chunk_task_made_extends (URL_ : string)
    (ins outs aliasIn aliasOut : gmap string DataObject) (sc : list string)
    (h h' : Heap) (i : nat) (t : TaskObject) :
  extends h h' ->
  chunk_task_made T URL_ ins outs aliasIn aliasOut sc h i t ->
  chunk_task_made T URL_ ins outs aliasIn aliasOut sc h' i t.
Proof.
  intros Hext (Ha & Hu & Hc & Hs & Hi & Ho & Hw & Hno).
  pose proof Ha as (Li & Lo & _ & _).
  split; [by eapply task_allocated_extends|]. repeat (split; [done|]).
  rewrite (extends_dataAt _ _ _ Hext Li), (extends_dataAt _ _ _ Hext Lo).
  by rewrite (dictionary_entries_extends _ _ _ Hext Ha).
Qed.

(** The loop over the chunks. *)
Lemma chunk_tasks_spec (URL_ : string) (kw : Kwargs)
    (ins outs : gmap string DataObject) (sc : list string) (h0 : Heap) :
  distinct_dicts kw h0 ->
  (kw_mutables kw = None \/ kw_mutableDataObjs kw = None) ->
  forall (range : list nat) (tasks c : PypeTaskCollection) (h h' : Heap),
    extends h0 h ->
    chunk_tasks md5_hexdigest repr_kwargv T taskFun URL_ kw ins outs sc range tasks h
    = (Returned c, h') ->
    extends h h' /\ tasks_URL c = tasks_URL tasks /\
    _scatterGatherTasks c = _scatterGatherTasks tasks /\
    exists ts, _tasks c = (_tasks tasks ++ ts)%list /\
      Forall2 (chunk_task_made T URL_ ins outs
                 (match kw_inputs kw with Some l => dataAt h0 l | None => ∅ end)
                 (match kw_outputs kw with Some l => dataAt h0 l | None => ∅ end)
                 sc h') range ts.
Proof.
  intros Hdist Hmut. induction range as [|i range IH]; intros tasks c h h' Hext; simpl.
  - unfold ret. intros [= <- <-]. split; [apply extends_refl|].
    split; [done|]. split; [done|]. exists []. split; [by rewrite app_nil_r|constructor].
  - unfold bind at 1.
    destruct (chunk_task _ _ _ _ _ _ _ _ _ _ _) as [[t|e] h1] eqn:E; [|done].
    intros E'.
    destruct (chunk_task_spec _ _ _ _ _ _ _ _ _ _ Hdist Hext Hmut E) as [Hext1 Hmade].
    destruct (IH _ _ _ _ (extends_trans _ _ _ Hext Hext1) E')
      as (Hext2 & Hu & Hsg & ts & Hts & Hall).
    split; [by eapply extends_trans|]. split; [done|]. split; [done|].
    exists (t :: ts). simpl in Hts. split; [by rewrite Hts, <- app_assoc|].
    constructor; [|done]. by eapply chunk_task_made_extends.
Qed.

(** The sub-tasks of the collection that the decomposer returns. *)
Lemma PypeScatteredTasks_spec (URL_ : option string) (kw : Kwargs) (h h' : Heap)
    (c : PypeTaskCollection) (li lo : loc) :
  distinct_dicts kw h ->
  (kw_mutables kw = None \/ kw_mutableDataObjs kw = None) ->
  kw_inputDataObjs kw = Some li -> kw_outputDataObjs kw = Some lo ->
  PypeScatteredTasks md5_hexdigest repr_kwargv T taskFun URL_ kw h = (Returned c, h') ->
  exists (n : Z) (sc : list string),
    (forall k, k ∈ sc <-> exists o, dataAt h li !! k = Some o /\ Data.chunks o <> None) /\
    tasks_URL c = default_tasks_URL taskFun URL_ /\
    Forall2 (chunk_task_made T (default_tasks_URL taskFun URL_)
               (dataAt h li) (dataAt h lo)
               (match kw_inputs kw with Some l => dataAt h l | None => ∅ end)
               (match kw_outputs kw with Some l => dataAt h l | None => ∅ end)
               sc h') (seq 0 (Z.to_nat n)) (getTasks c).
Proof.
  intros Hdist Hmut Hli Hlo. unfold PypeScatteredTasks. rewrite Hli, Hlo.
  unfold bind, get_data, lift.
  destruct (collect_inputs _ _ _ _) as [[[n sc] tasks]|e] eqn:E1; [|done].
  destruct (collect_outputs _ _ _) as [[n' tasks']|e] eqn:E2; [|done].
  destruct n' as [m|]; [|done]. intros E.
  destruct (chunk_tasks_spec _ _ _ _ _ _ Hdist Hmut _ _ _ _ _ (extends_refl h) E)
    as (_ & Hu & _ & ts & Hts & Hall).
  rewrite (collect_outputs_tasks _ _ _ _ _ E2),
    (collect_inputs_tasks _ _ _ _ _ _ _ E1) in Hts. simpl in Hts.
  exists m, sc. split; [|split].
  - intros k. rewrite (collect_inputs_scattered _ _ _ _ _ _ _ E1 k). split.
    + intros [Hk|(o & Hin & Ho)]; [by apply elem_of_nil in Hk|].
      exists o. split; [by apply elem_of_map_to_list | done].
    + intros (o & Hk & Ho). right. exists o. split; [by apply elem_of_map_to_list | done].
  - rewrite Hu. clear -E1 E2.
    assert (forall items n sc t r, collect_inputs items n sc t = Returned r ->
              tasks_URL (snd r) = tasks_URL t) as H1.
    { induction items as [|[k o] items IH]; intros n0 sc0 t r; simpl.
      - by intros [= <-].
      - destruct (Data.chunks o) as [ch|]; [|apply IH].
        destruct n0 as [m0|].
        + case_bool_decide; [apply IH | done].
        + intros E. rewrite (IH _ _ _ _ E). by destruct (Data.getScatterTask ch). }
    assert (forall items n t r, collect_outputs items n t = Returned r ->
              tasks_URL (snd r) = tasks_URL t) as H2.
    { induction items as [|[k o] items IH]; intros n0 t r; simpl.
      - by intros [= <-].
      - destruct (Data.chunks o) as [ch|]; [|apply IH].
        destruct n0 as [m0|]; [|apply IH].
        case_bool_decide; [|done].
        intros E. rewrite (IH _ _ _ E). by destruct (Data.getGatherTask ch). }
    pose proof (H2 _ _ _ _ E2) as X2. pose proof (H1 _ _ _ _ _ E1) as X1.
    simpl in X1, X2. by rewrite X2, X1.
  - unfold getTasks. by rewrite Hts.
Qed.

End Decomposer.



(** *** The scatter and gather tasks of the collection *)

(** Inputs without a chunk count leave the chunk count, the list of
    scattered keys and the collection as they are. *)
Lemma collect_inputs_plain (items : list (string * DataObject)) (n : option Z)
    (sc : list string) (tasks : PypeTaskCollection) :
  (forall k o, (k, o) ∈ items -> Data.chunks o = None) ->
  collect_inputs items n sc tasks = Returned (n, sc, tasks).
Proof.
  revert n sc tasks. induction items as [|[k o] items IH]; intros n sc tasks H; simpl.
  - done.
  - rewrite (H k o) by left. apply IH. intros k' o' Hin. apply (H k' o'). by right.
Qed.

(** The first input with a chunk count gives the chunk count, and its
    scatter task is added to the collection. *)
Lemma collect_inputs_first (pre post : list (string * DataObject)) (k : string)
    (o : DataObject) (c : Data.Chunks) (sc : list string)
    (tasks : PypeTaskCollection) :
  (forall k' o', (k', o') ∈ pre -> Data.chunks o' = None) ->
  Data.chunks o = Some c ->
  collect_inputs (pre ++ (k, o) :: post) None sc tasks
  = collect_inputs post (Some (Data.nChunk c)) (sc ++ [k])
      (match Data.getScatterTask c with
       | Some t => addScatterGatherTask tasks t
       | None => tasks
       end).
Proof.
  intros Hpre Hc. induction pre as [|[k' o'] pre IH]; simpl.
  - by rewrite Hc.
  - rewrite (Hpre k' o') by left. apply IH. intros k2 o2 Hin. apply (Hpre k2 o2). by right.
Qed.

(** When no chunk count is known yet, the first output with a chunk count
    gives it, and its gather task is not added to the collection. *)
Lemma collect_outputs_first (pre post : list (string * DataObject)) (k : string)
    (o : DataObject) (c : Data.Chunks) (tasks : PypeTaskCollection) :
  (forall k' o', (k', o') ∈ pre -> Data.chunks o' = None) ->
  Data.chunks o = Some c ->
  collect_outputs (pre ++ (k, o) :: post) None tasks
  = collect_outputs post (Some (Data.nChunk c)) tasks.
Proof.
  intros Hpre Hc. induction pre as [|[k' o'] pre IH]; simpl.
  - by rewrite Hc.
  - rewrite (Hpre k' o') by left. apply IH. intros k2 o2 Hin. apply (Hpre k2 o2). by right.
Qed.

(** Once the chunk count is known, the gather task of every output that has
    one is added, in the order of the loop. *)
Lemma collect_outputs_known (items : list (string * DataObject)) (n : Z)
    (n' : option Z) (tasks tasks' : PypeTaskCollection) :
  collect_outputs items (Some n) tasks = Returned (n', tasks') ->
  n' = Some n /\
  _scatterGatherTasks tasks' = (_scatterGatherTasks tasks ++ omap gather_of items)%list.
Proof.
  revert tasks. induction items as [|[k o] items IH]; intros tasks; simpl.
  - intros [= <- <-]. by rewrite app_nil_r.
  - unfold gather_of at 1. simpl. destruct (Data.chunks o) as [c|]; [|apply IH].
    case_bool_decide; [|done].
    intros E. destruct (IH _ E) as [-> ->]. split; [done|].
    destruct (Data.getGatherTask c); simpl; [|done]. by rewrite <- app_assoc.
Qed.

(** C3 fails on the code.  The only object with a chunk count is an output
    that has a gather task; the decomposer returns the two sub-tasks and a
    collection without any scatter or gather task. *)
Theorem scatter_only_output_drops_gather :
  (forall k o, ({["in" := testfile_in]} : gmap string DataObject) !! k = Some o ->
               Data.chunks o = None) /\
  gather_of ("out", split_out) = Some "task://gather/out" /\
  exists c, fst (test_scatter {["in" := testfile_in]} {["out" := split_out]})
            = Returned c /\
            length (getTasks c) = 2 /\
            getScatterGatherTasks c = [].
Proof.
  split.
  - intros k o Hk. apply lookup_singleton_Some in Hk as [_ <-]. reflexivity.
  - split; [reflexivity|].
    assert (match fst (test_scatter {["in" := testfile_in]} {["out" := split_out]}) with
            | Returned c => length (getTasks c) = 2 /\ getScatterGatherTasks c = []
            | Raised _ => False
            end) as H by (vm_compute; split; reflexivity).
    destruct (fst (test_scatter {["in" := testfile_in]} {["out" := split_out]}))
      as [c|e]; [|done].
    by exists c.
Qed.

(** With a chunked input, the same output has its gather task collected, and
    so has every further chunked output. *)
Example scatter_with_input_collects :
  match fst (test_scatter {["in" := split_in]} {["out" := split_out]}) with
  | Returned c => getScatterGatherTasks c = ["task://scatter/in"; "task://gather/out"]
  | Raised _ => False
  end /\
  match fst (test_scatter {["in" := split_in]}
               {["out" := split_out; "out2" := split_out]}) with
  | Returned c => getScatterGatherTasks c
                  = ["task://scatter/in"; "task://gather/out"; "task://gather/out"]
  | Raised _ => False
  end.
Proof. split; vm_compute; reflexivity. Qed.

(** ** The file-of-file-names mapper *)

(** A task whose only compare function is [never_stale] and whose reference
    digest is unset is never stale. *)
Lemma never_stale_task (w : World) (h : Heap) (t : PypeTaskBase) :
  _referenceMD5 t = None -> _compareFunctions t = [never_stale] ->
  _getRunFlag w h t = (Returned false, t) /\ isSatisfied w h t = (Returned true, t).
Proof.
  intros Href Hcmp.
  assert (_getRunFlag w h t = (Returned false, t)) as E.
  { unfold _getRunFlag, code_changed, any_compareFunctions. by rewrite Href, Hcmp. }
  split; [done|]. unfold isSatisfied. by rewrite E.
Qed.

(** The keys of the outputs of the aggregating task. *)
Lemma allFOFNOutDataObjs_keys (ts : list TaskObject) :
  forall (idx : nat) (acc r : gmap string DataObject),
    allFOFNOutDataObjs ts idx acc = Returned r ->
    forall k, is_Some (r !! k) ->
              is_Some (acc !! k) \/ exists i : nat, k = "FOFNout" ++ fmt_0d 3 i.
Proof.
  induction ts as [|t ts IH]; intros idx acc r; simpl.
  - intros [= <-] k Hk. by left.
  - destruct (getattr_data t "in_f") as [o|e]; [|done].
    intros E k Hk. destruct (IH _ _ _ E k Hk) as [Hacc|Hi]; [|by right].
    destruct (decide (k = "FOFNout" ++ fmt_0d 3 idx)) as [->|Hne]; [right; by exists idx|].
    left. by rewrite lookup_insert_ne in Hacc.
Qed.

Lemma lookup_foldr_delete_Some {A : Type} (w : gmap string A) (names : list string)
    (name : string) (a : A) :
  foldr delete w names !! name = Some a -> w !! name = Some a.
Proof.
  induction names as [|n names IH]; [done|]. cbn [foldr].
  intros [_ H]%lookup_delete_Some. by apply IH.
Qed.

Lemma not_assigned_last (T : TaskType) (c : option Z) (name : string) :
  name <> "distributed" -> name <> "chunk_id" -> name <> "_codeMD5digest" ->
  name <> "_paramMD5digest" -> name <> "_compareFunctions" ->
  name ∉ assigned_last T c.
Proof.
  intros H0 H1 H2 H3 H4. unfold assigned_last.
  pose proof (not_assigned_after c name H1 H2 H3 H4) as Hafter.
  destruct T; simpl; try done. by apply not_elem_of_cons.
Qed.

(** The keyword arguments of the aggregating task name two new
    dictionaries. *)
Lemma distinct_dicts_pseudoScatterTask (h2 : Heap) (a : loc) :
  (Pos.succ a < next_loc h2)%positive ->
  distinct_dicts (pseudoScatterTask_kwargv a (Pos.succ a)) h2.
Proof.
  intros Ha. split; [|split; [|done]]; simpl.
  - apply NoDup_cons. split; [|apply NoDup_singleton].
    intros ?%list_elem_of_singleton. lia.
  - repeat constructor; lia.
Qed.

(** What the mapper makes after its loop: the aggregating task. *)
Lemma pseudoScatterTask_spec (makePypeLocalFile : string -> DataObject)
    (T : TaskType) (FOFNFileName : string) (tasks : PypeTaskCollection)
    (h h' : Heap) (agg : TaskObject) :
  pseudoScatterTask makePypeLocalFile T FOFNFileName tasks h = (Returned agg, h') ->
  URL agg = "task://pseudoScatterTask/" ++ FOFNFileName /\
  _referenceMD5 agg = None /\ _compareFunctions agg = [never_stale] /\
  dataAt h' (inputDataObjs agg) = {["FOFNin" := makePypeLocalFile FOFNFileName]} /\
  allFOFNOutDataObjs (_tasks tasks) 0 ∅ = Returned (dataAt h' (outputDataObjs agg)) /\
  (forall name, is_Some (written agg !! name) ->
     name = "FOFNin" \/ exists i : nat, name = "FOFNout" ++ fmt_0d 3 i).
Proof.
  unfold pseudoScatterTask, bind, lift.
  destruct (allFOFNOutDataObjs (_tasks tasks) 0 ∅) as [outObjs|e] eqn:Eout; [|done].
  unfold new_data_dict. cbn beta iota zeta. cbn [next_loc dataDicts paramDicts].
  set (a := next_loc h).
  set (h2 := {| dataDicts := <[Pos.succ a := outObjs]>
                               (<[a := {["FOFNin" := makePypeLocalFile FOFNFileName]}]>
                                  (dataDicts h));
                paramDicts := paramDicts h; next_loc := Pos.succ (Pos.succ a) |}).
  intros E.
  assert (distinct_dicts (pseudoScatterTask_kwargv a (Pos.succ a)) h2) as Hdist
    by (apply distinct_dicts_pseudoScatterTask; simpl; lia).
  apply instantiate_spec in E as (self & Eb & Ht & Hw & _ & _).
  destruct (bind_attributes_fields _ _ _ _ _ Eb) as (F1 & _ & F3 & _ & F5 & _).
  destruct (bind_attributes_dicts _ _ _ _ _ Hdist Eb) as (Di & Do & Dm & Dp & _).
  unfold declared_inputs, declared_outputs, declared_mutables, declared_parameters in *.
  simpl in Di, Do, Dm, Dp. rewrite (left_id_L ∅ (∪)) in Di, Do, Dm.
  unfold dataAt in Di at 2. unfold dataAt in Do at 2. simpl in Di, Do.
  rewrite lookup_insert_ne in Di by lia. rewrite lookup_insert_eq in Di, Do.
  simpl in Di, Do.
  assert (inputDataObjs agg = inputDataObjs self /\ outputDataObjs agg = outputDataObjs self /\
          URL agg = URL self /\ _referenceMD5 agg = _referenceMD5 self /\
          _compareFunctions agg = _compareFunctions self)
    as (T1 & T2 & T3 & T4 & T5) by (rewrite Ht; by destruct T).
  rewrite T1, T2, T3, T4, T5, Di, Do.
  repeat (split; [done|]).
  intros name [v Hv]. rewrite Hw in Hv. apply lookup_foldr_delete_Some in Hv.
  unfold dictionary_entries in Hv. rewrite Dp, Dm, Do, Di in Hv.
  rewrite fmap_empty, !(left_id_L ∅ (∪)), (right_id_L ∅ (∪)) in Hv.
  rewrite lookup_fmap in Hv.
  destruct ((outObjs ∪ {["FOFNin" := makePypeLocalFile FOFNFileName]}) !! name)
    as [o|] eqn:Hn; [|done].
  apply lookup_union_Some_raw in Hn as [Hn|[_ Hn]].
  - destruct (allFOFNOutDataObjs_keys _ _ _ _ Eout name (mk_is_Some _ _ Hn)) as [Hacc|Hi];
      [|by right].
    rewrite lookup_empty in Hacc. by destruct Hacc.
  - left. by apply lookup_singleton_Some in Hn as [<- _].
Qed.

(** C8. When the mapper returns, the last task of its collection is the
    aggregating task: its input is the manifest file, its outputs are the
    [in_f] of the tasks before it, no reference digest is set, its only
    compare function answers false, no entry of its dictionaries is written
    over an attribute that a task has, and so in every file system and every
    heap its run flag is false and it is satisfied. *)
Theorem FOFN_aggregate_never_stale (md5_hexdigest : string -> string)
    (repr_kwargv : string -> Kwargs -> string)
    (makePypeLocalFile : string -> DataObject) (T : TaskType) (taskFun : Function)
    (FOFNFileName : string) (FOFN : list string)
    (outTemplateFunc : string -> string) (URL_ : option string) (kw : Kwargs)
    (h h' : Heap) (c : PypeTaskCollection) :
  PypeFOFNMapTasks md5_hexdigest repr_kwargv makePypeLocalFile T taskFun
    FOFNFileName FOFN outTemplateFunc URL_ kw h = (Returned c, h') ->
  exists before agg,
    getTasks c = (before ++ [agg])%list /\
    URL agg = "task://pseudoScatterTask/" ++ FOFNFileName /\
    dataAt h' (inputDataObjs agg) = {["FOFNin" := makePypeLocalFile FOFNFileName]} /\
    allFOFNOutDataObjs before 0 ∅ = Returned (dataAt h' (outputDataObjs agg)) /\
    _referenceMD5 agg = None /\
    _compareFunctions agg = [never_stale] /\
    (forall name, is_Some (written agg !! name) ->
       name = "FOFNin" \/ exists i : nat, name = "FOFNout" ++ fmt_0d 3 i) /\
    forall (w : World) (h2 : Heap),
      _getRunFlag w h2 agg = (Returned false, assigned agg) /\
      isSatisfied w h2 agg = (Returned true, assigned agg).
Proof.
  unfold PypeFOFNMapTasks. unfold bind at 1.
  destruct (line_tasks _ _ _ _ _ _ _ _ _ _ _) as [[tasks|e] h1] eqn:Elines; [|done].
  unfold bind at 1.
  destruct (pseudoScatterTask _ _ _ _ _) as [[agg|e] h2] eqn:Eagg; [|done].
  unfold ret. intros [= <- <-].
  apply pseudoScatterTask_spec in Eagg as (Hurl & Href & Hcmp & Hin & Hout & Hw).
  exists (_tasks tasks), agg. repeat (split; [done|]).
  intros w h3. by apply never_stale_task.
Qed.

Lemma FOFN_aggregate_never_stale_witness :
  exists c h', test_fofn = (Returned c, h') /\
  exists before agg,
    getTasks c = (before ++ [agg])%list /\
    URL agg = "task://pseudoScatterTask/" ++ "/tmp/pypetest/file.fofn" /\
    dataAt h' (inputDataObjs agg) = {["FOFNin" := local_file "/tmp/pypetest/file.fofn"]} /\
    allFOFNOutDataObjs before 0 ∅ = Returned (dataAt h' (outputDataObjs agg)) /\
    _referenceMD5 agg = None /\
    _compareFunctions agg = [never_stale] /\
    (forall name, is_Some (written agg !! name) ->
       name = "FOFNin" \/ exists i : nat, name = "FOFNout" ++ fmt_0d 3 i) /\
    forall (w : World) (h2 : Heap),
      _getRunFlag w h2 agg = (Returned false, assigned agg) /\
      isSatisfied w h2 agg = (Returned true, assigned agg).
Proof.
  assert (is_Returned (fst test_fofn) = true) as Hret by (vm_compute; reflexivity).
  destruct test_fofn as [[c|e] h'] eqn:E; [|discriminate Hret].
  exists c, h'. split; [reflexivity|].
  exact (FOFN_aggregate_never_stale _ _ _ _ _ _ _ _ _ _ _ _ _ E).
Defined.

(** The mapper on a manifest of two files and a blank line: two tasks and
    the aggregating task, whose outputs are the two files. *)
Example PypeFOFNMapTasks_run :
  match test_fofn with
  | (Returned c, h') =>
      (URL <$> (assigned <$> getTasks c))
      = ["task:///tmp/pypetest/test.py/test/md5-of-/tmp/pypetest/a.fa";
         "task:///tmp/pypetest/test.py/test/md5-of-/tmp/pypetest/b.fa";
         "task://pseudoScatterTask//tmp/pypetest/file.fofn"] /\
      (fun t : TaskObject => dataAt h' (outputDataObjs t)) <$> last (getTasks c)
      = Some ({["FOFNout000" := local_file "/tmp/pypetest/a.fa";
                "FOFNout001" := local_file "/tmp/pypetest/b.fa"]})
  | (Raised _, _) => False
  end.
Proof. vm_compute. split; reflexivity. Qed.

Section Mapper.

Variable md5_hexdigest : string -> string.
Variable repr_kwargv : string -> Kwargs -> string.
Variable makePypeLocalFile : string -> DataObject.
Variable T : TaskType.
Variable taskFun : Function.

Hypothesis makePypeLocalFile_writable :
  forall fn, is_readOnly (makePypeLocalFile fn) = false.

Lemma line_task_returns (outTemplateFunc : string -> string) (URL_ : string)
    (kw : Kwargs) (fn : string) (h : Heap) :
  no_dicts kw ->
  exists t h',
    line_task md5_hexdigest repr_kwargv makePypeLocalFile T taskFun
      outTemplateFunc URL_ kw fn h = (Returned t, h') /\
    getattr_data t "in_f" = Returned (makePypeLocalFile fn).
Proof.
  intros (Hp & Hm & Hai & Hao & Ham).
  unfold line_task, bind, new_data_dict. cbn beta iota zeta.
  cbn [next_loc dataDicts paramDicts].
  set (a := next_loc h).
  set (h2 := {| dataDicts :=
                  <[Pos.succ a := {["out_f" := makePypeLocalFile (outTemplateFunc fn)]}]>
                    (<[a := {["in_f" := makePypeLocalFile fn]}]> (dataDicts h));
                paramDicts := paramDicts h; next_loc := Pos.succ (Pos.succ a) |}).
  set (kw' := newKwargv kw (func_name taskFun) a (Pos.succ a)
                (codeMD5digest md5_hexdigest taskFun)
                (md5_hexdigest (repr_kwargv URL_ kw)) (kw_chunk_id kw)).
  assert (distinct_dicts kw' h2) as Hdist.
  { unfold distinct_dicts, kw_data_dicts. subst kw'. simpl.
    rewrite Hp, Hm, Hai, Hao, Ham. simpl. split; [|split; [|done]].
    - apply NoDup_cons. split; [|apply NoDup_singleton].
      intros ?%list_elem_of_singleton. lia.
    - repeat constructor; lia. }
  assert (declared_inputs kw' h2 = {["in_f" := makePypeLocalFile fn]} /\
          declared_outputs kw' h2
          = {["out_f" := makePypeLocalFile (outTemplateFunc fn)]} /\
          declared_mutables kw' h2 = ∅ /\ declared_parameters kw' h2 = ∅)
    as (Di & Do & Dm & Dp).
  { unfold declared_inputs, declared_outputs, declared_mutables, declared_parameters.
    subst kw'. simpl. rewrite Hp, Hm, Hai, Hao, Ham. rewrite !(left_id_L ∅ (∪)).
    unfold dataAt. simpl. rewrite lookup_insert_ne by lia. by rewrite !lookup_insert_eq. }
  destruct (instantiate_returns T
              (str_replace "tasks" "task" URL_ ++ "/" ++ md5_hexdigest fn) kw' h2 Hdist)
    as (t & h' & E).
  { intros name Hname. unfold kw_keys. rewrite Di, Do, Dm, Dp.
    rewrite !not_elem_of_union, !not_elem_of_dom, !lookup_empty.
    repeat split; try done; apply lookup_singleton_ne;
      by destruct Hname as [->|[->| ->]]. }
  { rewrite Do. intros k o [_ <-]%lookup_singleton_Some.
    apply makePypeLocalFile_writable. }
  exists t, h'. split; [done|].
  apply instantiate_spec in E as (self & Eb & Ht & Hw & _ & _).
  destruct (bind_attributes_dicts _ _ _ _ _ Hdist Eb) as (Ei & Eo & Em & Ep & _).
  unfold getattr_data. rewrite Hw.
  rewrite lookup_foldr_delete by (by apply not_assigned_last).
  unfold dictionary_entries. rewrite Ep, Em, Eo, Ei, Dp, Dm, Do, Di.
  rewrite fmap_empty, !(left_id_L ∅ (∪)), (right_id_L ∅ (∪)).
  rewrite lookup_fmap, lookup_union, lookup_singleton_ne by done.
  by rewrite lookup_singleton_eq.
Qed.

Lemma line_tasks_returns (outTemplateFunc : string -> string) (URL_ : string)
    (kw : Kwargs) (FOFN : list string) :
  no_dicts kw ->
  forall (tasks : PypeTaskCollection) (h : Heap),
    Forall (fun t => exists o, getattr_data t "in_f" = Returned o /\
                               is_readOnly o = false) (_tasks tasks) ->
    exists tasks' h',
      line_tasks md5_hexdigest repr_kwargv makePypeLocalFile T taskFun
        outTemplateFunc URL_ kw FOFN tasks h = (Returned tasks', h') /\
      Forall (fun t => exists o, getattr_data t "in_f" = Returned o /\
                                 is_readOnly o = false) (_tasks tasks').
Proof.
  intros Hkw. induction FOFN as [|fn FOFN IH]; intros tasks h Hinv; simpl.
  - by exists tasks, h.
  - destruct (Nat.eqb (String.length (strip fn)) 0); [by apply IH|].
    destruct (line_task_returns outTemplateFunc URL_ kw (strip fn) h Hkw)
      as (t & h1 & E & Hattr).
    rewrite (bind_returned _ _ _ _ _ E). apply IH. simpl.
    apply Forall_app. split; [done|].
    apply Forall_singleton. by exists (makePypeLocalFile (strip fn)).
Qed.

Lemma allFOFNOutDataObjs_returns (ts : list TaskObject) :
  Forall (fun t => exists o, getattr_data t "in_f" = Returned o /\
                             is_readOnly o = false) ts ->
  forall (idx : nat) (acc : gmap string DataObject),
    (forall k o, acc !! k = Some o -> is_readOnly o = false) ->
    exists r, allFOFNOutDataObjs ts idx acc = Returned r /\
              forall k o, r !! k = Some o -> is_readOnly o = false.
Proof.
  induction 1 as [|t ts (o & Ho & Hro) _ IH]; intros idx acc Hacc; simpl.
  - by exists acc.
  - rewrite Ho. apply IH. intros k o' Hk.
    apply lookup_insert_Some in Hk as [[_ <-]|[_ Hk]]; [done | by eapply Hacc].
Qed.

Lemma pseudoScatterTask_returns (FOFNFileName : string)
    (tasks : PypeTaskCollection) (h : Heap) :
  Forall (fun t => exists o, getattr_data t "in_f" = Returned o /\
                             is_readOnly o = false) (_tasks tasks) ->
  exists t h', pseudoScatterTask makePypeLocalFile T FOFNFileName tasks h
               = (Returned t, h').
Proof.
  intros Hinv.
  destruct (allFOFNOutDataObjs_returns (_tasks tasks) Hinv 0 ∅) as (r & Er & Hr).
  { intros k o Hk. by rewrite lookup_empty in Hk. }
  unfold pseudoScatterTask, bind, lift. rewrite Er.
  unfold new_data_dict. cbn beta iota zeta. cbn [next_loc dataDicts paramDicts].
  set (a := next_loc h).
  set (h2 := {| dataDicts := <[Pos.succ a := r]>
                               (<[a := {["FOFNin" := makePypeLocalFile FOFNFileName]}]>
                                  (dataDicts h));
                paramDicts := paramDicts h; next_loc := Pos.succ (Pos.succ a) |}).
  assert (distinct_dicts (pseudoScatterTask_kwargv a (Pos.succ a)) h2) as Hdist
    by (apply distinct_dicts_pseudoScatterTask; simpl; lia).
  assert (declared_inputs (pseudoScatterTask_kwargv a (Pos.succ a)) h2
          = {["FOFNin" := makePypeLocalFile FOFNFileName]} /\
          declared_outputs (pseudoScatterTask_kwargv a (Pos.succ a)) h2 = r /\
          declared_mutables (pseudoScatterTask_kwargv a (Pos.succ a)) h2 = ∅ /\
          declared_parameters (pseudoScatterTask_kwargv a (Pos.succ a)) h2 = ∅)
    as (Di & Do & Dm & Dp).
  { unfold declared_inputs, declared_outputs, declared_mutables, declared_parameters.
    simpl. rewrite !(left_id_L ∅ (∪)).
    unfold dataAt. simpl. rewrite lookup_insert_ne by lia. by rewrite !lookup_insert_eq. }
  apply (instantiate_returns T _ (pseudoScatterTask_kwargv a (Pos.succ a)) h2 Hdist).
  - intros name Hname. unfold kw_keys. rewrite Di, Do, Dm, Dp.
    rewrite !not_elem_of_union, !not_elem_of_dom, !lookup_empty.
    repeat split; try done.
    + apply lookup_singleton_ne. by destruct Hname as [->|[->| ->]].
    + destruct (r !! name) as [o|] eqn:Hn; [|done].
      destruct (allFOFNOutDataObjs_keys _ _ _ _ Er name (mk_is_Some _ _ Hn))
        as [Hacc|[i Hi]].
      * rewrite lookup_empty in Hacc. by destruct Hacc.
      * by destruct Hname as [->|[->| ->]].
  - rewrite Do. intros k o Hk. by apply (Hr k o).
Qed.

(** The mapper returns a collection when the files it makes are writable and
    the keyword arguments bring no dictionaries of their own. *)
Lemma PypeFOFNMapTasks_returns (FOFNFileName : string) (FOFN : list string)
    (outTemplateFunc : string -> string) (URL_ : option string) (kw : Kwargs)
    (h : Heap) :
  no_dicts kw ->
  exists c h',
    PypeFOFNMapTasks md5_hexdigest repr_kwargv makePypeLocalFile T taskFun
      FOFNFileName FOFN outTemplateFunc URL_ kw h = (Returned c, h').
Proof.
  intros Hkw. unfold PypeFOFNMapTasks.
  destruct (line_tasks_returns outTemplateFunc (default_tasks_URL taskFun URL_) kw
              FOFN Hkw
              {| tasks_URL := default_tasks_URL taskFun URL_; _tasks := [];
                 _scatterGatherTasks := [] |} h)
    as (tasks & h1 & E1 & Hinv); [by constructor|].
  rewrite (bind_returned _ _ _ _ _ E1).
  destruct (pseudoScatterTask_returns FOFNFileName tasks h1 Hinv) as (t & h2 & E2).
  rewrite (bind_returned _ _ _ _ _ E2). by eexists _, _.
Qed.

End Mapper.
(** * Further properties *)

(** ** The timestamp comparator on all inputs *)

(** The comparator when every output exists and there is one at least. *)
Lemma timeStampCompare_outputs_exist (w : World)
    (ins outs : gmap string DataObject) (ps : gmap string PyVal) :
  outs <> ∅ ->
  (forall k o, outs !! k = Some o -> Data.exists_ w o = true) ->
  exists b, timeStampCompare w ins outs ps = Returned b /\
            (b = true <->
             exists ko o ki i, outs !! ko = Some o /\ ins !! ki = Some i /\
                               (Data.timeStamp w o < Data.timeStamp w i)%Z).
Proof.
  intros Hout Hex. unfold timeStampCompare.
  rewrite scan_outputs_all_exist.
  2:{ intros [k f] Hkf. apply elem_of_map_to_list in Hkf. simpl. by eapply Hex. }
  simpl. rewrite (bool_decide_eq_false_2 (outs = ∅)) by done. simpl.
  fold (outputStamps w outs).
  destruct (decide (ins = ∅)) as [->|Hin].
  - rewrite bool_decide_eq_true_2 by done. simpl. exists false. split; [done|].
    split; [done|]. intros (ko & o & ki & i & _ & Hi & _).
    by rewrite lookup_empty in Hi.
  - rewrite (bool_decide_eq_false_2 (ins = ∅)) by done. simpl.
    destruct (py_min_spec w (outputStamps w outs)) as (m & Hm & Hmin & Hmle).
    { unfold outputStamps. intros E. apply fmap_nil_inv in E.
      by apply (map_to_list_nonempty outs). }
    destruct (py_max_spec w (inputStamps w ins)) as (M & HM & HMin & HMge).
    { unfold inputStamps. intros E. apply fmap_nil_inv in E.
      by apply (map_to_list_nonempty ins). }
    rewrite Hm, HM.
    unfold outputStamps in Hmin. apply list_elem_of_fmap in Hmin as ([ko o] & -> & Hko).
    unfold inputStamps in HMin. apply list_elem_of_fmap in HMin as ([ki i] & -> & Hki).
    apply elem_of_map_to_list in Hko, Hki.
    rewrite (stamp_lt_B_A w (outputStamp w (ko, o).2)
               (Data.timeStamp w (ki, i).2, "A"%char, (ki, i).2)) by done.
    exists (bool_decide (Data.timeStamp w o < Data.timeStamp w i)%Z).
    split; [unfold stamp_ts, outputStamp; simpl; by destruct (bool_decide _)|].
    rewrite bool_decide_eq_true. split.
    + intros Hlt. by exists ko, o, ki, i.
    + intros (ko' & o' & ki' & i' & Ho' & Hi' & Hlt).
      assert (stamp_ts (outputStamp w o) <= stamp_ts (outputStamp w o'))%Z as H1.
      { apply Hmle. unfold outputStamps. apply list_elem_of_fmap.
        exists (ko', o'). split; [done|]. by apply elem_of_map_to_list. }
      assert (stamp_ts (Data.timeStamp w i', "A"%char, i')
              <= stamp_ts (Data.timeStamp w i, "A"%char, i))%Z as H2.
      { apply (HMge (Data.timeStamp w i', "A"%char, i')). unfold inputStamps.
        apply list_elem_of_fmap. exists (ki', i'). split; [done|].
        by apply elem_of_map_to_list. }
      unfold stamp_ts, outputStamp in H1, H2. simpl in H1, H2. lia.
Qed.

(** X1. When some declared output does not exist, the comparator answers
    true, whatever the inputs, the timestamps and the parameters are. *)
Theorem timeStampCompare_missing_output (w : World)
    (inputDataObjs outputDataObjs : gmap string DataObject)
    (parameters : gmap string PyVal) (k : string) (o : DataObject) :
  outputDataObjs !! k = Some o -> Data.exists_ w o = false ->
  timeStampCompare w inputDataObjs outputDataObjs parameters = Returned true.
Proof.
  intros Hk Hex. unfold timeStampCompare.
  pose proof (scan_outputs_missing w (map_to_list outputDataObjs) []) as Hscan.
  destruct (scan_outputs w (map_to_list outputDataObjs) []) as [runFlag ts].
  simpl in Hscan. rewrite Hscan.
  - by destruct (bool_decide (outputDataObjs = ∅)).
  - exists (k, o). split; [|done]. by apply elem_of_map_to_list.
Qed.

Lemma timeStampCompare_missing_output_witness :
  timeStampCompare
    {| Data.exists_ := fun o => bool_decide (o = testfile_in);
       Data.timeStamp := fun _ => 10%Z; Data.obj_lt := fun _ _ => false |}
    test_inputs test_outputs ∅ = Returned true.
Proof.
  apply (timeStampCompare_missing_output _ test_inputs test_outputs ∅
           "test_out" testfile_out); vm_compute; reflexivity.
Defined.

(** X2. With no declared input, outputs that all exist are up to date: the
    comparator answers false. *)
Theorem timeStampCompare_no_inputs (w : World)
    (outputDataObjs : gmap string DataObject) (parameters : gmap string PyVal) :
  outputDataObjs <> ∅ ->
  (forall k o, outputDataObjs !! k = Some o -> Data.exists_ w o = true) ->
  timeStampCompare w ∅ outputDataObjs parameters = Returned false.
Proof.
  intros Hout Hex.
  destruct (timeStampCompare_outputs_exist w ∅ outputDataObjs parameters Hout Hex)
    as (b & -> & Hb).
  destruct b; [|done].
  destruct (proj1 Hb eq_refl) as (ko & o & ki & i & _ & Hi & _).
  by rewrite lookup_empty in Hi.
Qed.

Lemma timeStampCompare_no_inputs_witness :
  timeStampCompare (world_at 30 20) ∅ test_outputs ∅ = Returned false.
Proof.
  apply (timeStampCompare_no_inputs (world_at 30 20) test_outputs ∅).
  - apply (bool_decide_unpack _). vm_compute. exact I.
  - intros k o _. reflexivity.
Defined.

(** X3. The comparator never raises, and it answers true exactly when there
    is no output, or an output that does not exist, or an output with a
    timestamp strictly below that of some input.  So its answer depends
    neither on the parameters nor on the order of the objects. *)
Theorem timeStampCompare_decision (w : World)
    (inputDataObjs outputDataObjs : gmap string DataObject)
    (parameters : gmap string PyVal) :
  exists b,
    timeStampCompare w inputDataObjs outputDataObjs parameters = Returned b /\
    (b = true <->
     outputDataObjs = ∅ \/
     (exists k o, outputDataObjs !! k = Some o /\ Data.exists_ w o = false) \/
     (exists ko o ki i,
        outputDataObjs !! ko = Some o /\ inputDataObjs !! ki = Some i /\
        (Data.timeStamp w o < Data.timeStamp w i)%Z)).
Proof.
  destruct (decide (outputDataObjs = ∅)) as [->|Hout].
  { exists true. split; [|by split; [left|]].
    unfold timeStampCompare. rewrite map_to_list_empty. simpl.
    by rewrite bool_decide_eq_true_2. }
  destruct (decide (Forall (fun kf : string * DataObject =>
                              Data.exists_ w (snd kf) = true)
                      (map_to_list outputDataObjs))) as [Hall|Hnot].
  - rewrite Forall_forall in Hall.
    assert (forall k o, outputDataObjs !! k = Some o -> Data.exists_ w o = true) as Hex.
    { intros k o Hk. apply (Hall (k, o)). by apply elem_of_map_to_list. }
    destruct (timeStampCompare_outputs_exist w inputDataObjs outputDataObjs parameters
                Hout Hex) as (b & E & Hb).
    exists b. split; [done|]. rewrite Hb. split; [by right; right|].
    intros [H|[(k & o & Hk & Hmiss)|H]]; [done| |done].
    rewrite (Hex k o Hk) in Hmiss. discriminate.
  - apply not_Forall_Exists in Hnot; [|apply _].
    apply Exists_exists in Hnot as ([k o] & Hin & Hmiss).
    apply elem_of_map_to_list in Hin. simpl in Hmiss.
    apply not_true_is_false in Hmiss.
    exists true. split; [|by split; [right; left; exists k, o|]].
    unfold timeStampCompare.
    pose proof (scan_outputs_missing w (map_to_list outputDataObjs) []) as Hscan.
    destruct (scan_outputs w (map_to_list outputDataObjs) []) as [runFlag ts].
    simpl in Hscan. rewrite Hscan.
    + by destruct (bool_decide (outputDataObjs = ∅)).
    + exists (k, o). split; [|done]. by apply elem_of_map_to_list.
Qed.

(** ** The wrapper and the staleness decision together *)

(** X4. Whatever the task function does, after [__call__] the status is
    [TaskDone] or [TaskFail]; it is [TaskFail] whenever [__call__] raises,
    and [__call__] raises exactly the exception of [run] and returns what
    [run] returns. *)
Theorem PypeTaskBase__call__status (taskFun : TaskFun) (st : State) :
  fst (PypeTaskBase__call__ taskFun st) = fst (run taskFun st) /\
  (_status (self (snd (PypeTaskBase__call__ taskFun st))) = TaskDone \/
   _status (self (snd (PypeTaskBase__call__ taskFun st))) = TaskFail) /\
  (forall e, fst (PypeTaskBase__call__ taskFun st) = Raised e ->
             _status (self (snd (PypeTaskBase__call__ taskFun st))) = TaskFail).
Proof.
  unfold PypeTaskBase__call__.
  destruct (run taskFun st) as [[b|e] st1] eqn:Erun; simpl.
  - split; [done|]. split; [|done].
    unfold run in Erun. destruct (taskFun st) as [[rtn|e] st0]; [|done].
    destruct (_ || _); [done|].
    destruct (missing_outputs _ _); injection Erun as <- <-; simpl; auto.
  - split; [done|]. split; [by right|]. done.
Qed.

(** X5. A task with the default compare function and no reference digest:
    when the task function returns, the two dictionaries compare equal,
    there are outputs, all of them exist afterwards and none is older than
    an input, then [run] sets the status to [TaskDone] and the task is
    satisfied right afterwards. *)
Theorem run_then_isSatisfied (taskFun : TaskFun) (st st1 : State) (rtn : PyVal) :
  taskFun st = (Returned rtn, st1) ->
  dataAt (heap st1) (inputDataObjs (self st1))
  = dataAt (heap st1) (inputDataObjs (self st)) ->
  paramAt (heap st1) (parameters (self st1))
  = paramAt (heap st1) (parameters (self st)) ->
  _referenceMD5 (self st1) = None ->
  _compareFunctions (self st1) = [timeStampCompare] ->
  dataAt (heap st1) (outputDataObjs (self st1)) <> ∅ ->
  (forall k o, dataAt (heap st1) (outputDataObjs (self st1)) !! k = Some o ->
               Data.exists_ (world st1) o = true) ->
  (forall ko o ki i,
     dataAt (heap st1) (outputDataObjs (self st1)) !! ko = Some o ->
     dataAt (heap st1) (inputDataObjs (self st1)) !! ki = Some i ->
     (Data.timeStamp (world st1) i <= Data.timeStamp (world st1) o)%Z) ->
  run taskFun st = (Returned true, with_status st1 TaskDone) /\
  isSatisfied (world st1) (heap st1) (self (with_status st1 TaskDone))
  = (Returned true, self (with_status st1 TaskDone)).
Proof.
  intros E Hin Hpar Href Hcmp Hne Hex Hts. split.
  - rewrite (run_after_return taskFun st st1 rtn E Hin Hpar).
    by rewrite (proj2 (missing_outputs_nil _ _) Hex).
  - unfold isSatisfied, _getRunFlag, code_changed, any_compareFunctions. simpl.
    rewrite Href, Hcmp. simpl.
    destruct (timeStampCompare_outputs_exist (world st1)
                (dataAt (heap st1) (inputDataObjs (self st1)))
                (dataAt (heap st1) (outputDataObjs (self st1)))
                (paramAt (heap st1) (parameters (self st1))) Hne Hex)
      as (b & -> & Hb).
    destruct b; [|done].
    destruct (proj1 Hb eq_refl) as (ko & o & ki & i & Ho & Hi & Hlt).
    pose proof (Hts ko o ki i Ho Hi). lia.
Qed.

Lemma run_then_isSatisfied_witness :
  run (fun st => (Returned PyNone, st)) (test_state (world_at 10 20))
  = (Returned true, with_status (test_state (world_at 10 20)) TaskDone) /\
  isSatisfied (world_at 10 20) test_heap
    (self (with_status (test_state (world_at 10 20)) TaskDone))
  = (Returned true, self (with_status (test_state (world_at 10 20)) TaskDone)).
Proof.
  apply (run_then_isSatisfied (fun st => (Returned PyNone, st))
           (test_state (world_at 10 20)) (test_state (world_at 10 20)) PyNone);
    try reflexivity.
  - apply (bool_decide_unpack _). vm_compute. exact I.
  - intros ko o ki i Ho Hi. simpl in Ho, Hi.
    assert (o = testfile_out) as ->.
    { unfold dataAt in Ho. simpl in Ho. rewrite lookup_insert_ne in Ho by done.
      rewrite lookup_insert_eq in Ho. simpl in Ho. unfold test_outputs in Ho.
      by apply lookup_singleton_Some in Ho as [_ <-]. }
    assert (i = testfile_in) as ->.
    { unfold dataAt in Hi. simpl in Hi. rewrite lookup_insert_eq in Hi. simpl in Hi.
      unfold test_inputs in Hi. by apply lookup_singleton_Some in Hi as [_ <-]. }
    vm_compute. discriminate.
Defined.

(** X6. A task that declares no output, with the default compare function
    and no reference digest: [run] sets its status to [TaskDone] whenever
    the task function returns and the two dictionaries compare equal, and
    yet the task is not satisfied afterwards. *)
Theorem run_without_outputs (taskFun : TaskFun) (st st1 : State) (rtn : PyVal) :
  taskFun st = (Returned rtn, st1) ->
  dataAt (heap st1) (inputDataObjs (self st1))
  = dataAt (heap st1) (inputDataObjs (self st)) ->
  paramAt (heap st1) (parameters (self st1))
  = paramAt (heap st1) (parameters (self st)) ->
  _referenceMD5 (self st1) = None ->
  _compareFunctions (self st1) = [timeStampCompare] ->
  dataAt (heap st1) (outputDataObjs (self st1)) = ∅ ->
  run taskFun st = (Returned true, with_status st1 TaskDone) /\
  isSatisfied (world st1) (heap st1) (self (with_status st1 TaskDone))
  = (Returned false, self (with_status st1 TaskDone)).
Proof.
  intros E Hin Hpar Href Hcmp Hout. split.
  - rewrite (run_after_return taskFun st st1 rtn E Hin Hpar).
    rewrite Hout. unfold missing_outputs. by rewrite map_to_list_empty.
  - unfold isSatisfied, _getRunFlag, code_changed, any_compareFunctions. simpl.
    rewrite Href, Hcmp, Hout. simpl.
    unfold timeStampCompare. rewrite map_to_list_empty. simpl.
    by rewrite bool_decide_eq_true_2.
Qed.

Lemma run_without_outputs_witness :
  run (fun st => (Returned PyNone, st)) no_output_state
  = (Returned true, with_status no_output_state TaskDone) /\
  isSatisfied (world_at 10 20) no_output_heap
    (self (with_status no_output_state TaskDone))
  = (Returned false, self (with_status no_output_state TaskDone)).
Proof.
  apply (run_without_outputs (fun st => (Returned PyNone, st))
           no_output_state no_output_state PyNone); reflexivity.
Defined.

(** ** Tasks in threads *)

(** X7. With a queue attached, one call puts exactly two messages on it: the
    start message with the URL on entry, then the URL and the status the
    task has after the call.  That status is done or fail; when [run]
    raises, the call raises the same exception and the status is fail;
    when [run] returns, the call returns. *)
Theorem PypeThreadTaskBase__call__messages (taskFun : TaskFun) (st : State)
    (q : list Message) :
  let r := PypeThreadTaskBase__call__ taskFun {| task_state := st; _queue := Some q |} in
  let after := self (task_state (snd r)) in
  _queue (snd r)
  = Some (q ++ [(URL (self st), "started, runflag: 1");
                (URL after, status_string (_status after))])%list /\
  (_status after = TaskDone \/ _status after = TaskFail) /\
  (forall e, fst (run taskFun st) = Raised e ->
             fst r = Raised e /\ _status after = TaskFail) /\
  (forall b, fst (run taskFun st) = Returned b ->
             fst r = Returned tt /\ task_state (snd r) = snd (run taskFun st)).
Proof.
  unfold PypeThreadTaskBase__call__, runInThisThread. simpl.
  destruct (run taskFun st) as [[b|e] st1] eqn:Erun; simpl.
  - split; [by rewrite <- app_assoc|]. split.
    + unfold run in Erun. destruct (taskFun st) as [[rtn|e] st0]; [|done].
      destruct (_ || _); [done|].
      destruct (missing_outputs _ _); injection Erun as <- <-; simpl; auto.
    + split; [done|]. by intros b' [= <-].
  - split; [by rewrite <- app_assoc|]. split; [by right|].
    split; [by intros e' [= <-]|]. done.
Qed.

(** X8. Without a queue the call always ends in [AttributeError], raised by
    the handler, and leaves the status at fail, also when the task function
    made every output. *)
Theorem PypeThreadTaskBase__call__without_queue (taskFun : TaskFun) (st : State) :
  let r := PypeThreadTaskBase__call__ taskFun {| task_state := st; _queue := None |} in
  fst r = Raised AttributeError /\
  _status (self (task_state (snd r))) = TaskFail /\
  _queue (snd r) = None.
Proof.
  unfold PypeThreadTaskBase__call__, runInThisThread. simpl.
  by destruct (run taskFun st) as [[b|e] st1].
Qed.

(** ** The call of the wrapped function *)

Lemma collect_nkwarg_raised (names : list string) (kwargv acc : gmap string PyVal) :
  (exists a, a ∈ names /\ kwargv !! a = None) ->
  collect_nkwarg names kwargv acc = Raised KeyError.
Proof.
  revert acc. induction names as [|a names IH]; intros acc (b & Hin & Hb); simpl.
  - inversion Hin.
  - destruct (kwargv !! a) as [v|] eqn:Ea; [|done].
    apply IH. exists b. split; [|done].
    apply elem_of_cons in Hin as [->|Hin]; [congruence | done].
Qed.

Lemma collect_nkwarg_returned (names : list string) (kwargv acc r : gmap string PyVal) :
  collect_nkwarg names kwargv acc = Returned r ->
  forall a, r !! a = if decide (a ∈ names) then kwargv !! a else acc !! a.
Proof.
  revert acc. induction names as [|b names IH]; intros acc; cbn [collect_nkwarg].
  - intros [= <-] a. by rewrite decide_False by apply not_elem_of_nil.
  - destruct (kwargv !! b) as [v|] eqn:Eb; [|done].
    intros E a. rewrite (IH _ E a).
    destruct (decide (a ∈ names)) as [Hin|Hnin].
    + rewrite decide_True by by right. done.
    + destruct (decide (a = b)) as [->|Hne].
      * rewrite decide_True by left. by rewrite lookup_insert_eq.
      * rewrite lookup_insert_ne by done.
        rewrite decide_False; [done|]. intros Hin.
        apply elem_of_cons in Hin as [?|?]; done.
Qed.

Lemma collect_nkwarg_present (names : list string) (kwargv acc : gmap string PyVal) :
  (forall a, a ∈ names -> is_Some (kwargv !! a)) ->
  exists r, collect_nkwarg names kwargv acc = Returned r.
Proof.
  revert acc. induction names as [|a names IH]; intros acc H; simpl.
  - by exists acc.
  - destruct (H a) as [v ->]; [left|]. apply IH. intros b Hb. apply H. by right.
Qed.

(** X9. For a function without [*args] and [**kwargs] that has default
    values: when [kwargv] lacks the name of a parameter with a default,
    [_runTask] raises [KeyError] before any call; otherwise it calls the
    function with the task, the positional arguments and exactly the
    entries of [kwargv] under those names, the other entries being left
    out. *)
Theorem _runTask_with_defaults (spec : ArgSpec) (argv : list PyArg)
    (kwargv : gmap string PyVal) (ds : list PyVal) :
  keywords spec = None -> varargs spec = None -> args spec <> [] ->
  defaults spec = Some ds ->
  ((exists a, a ∈ last_items (length ds) (args spec) /\ kwargv !! a = None) ->
   _runTask spec argv kwargv = Raised KeyError) /\
  ((forall a, a ∈ last_items (length ds) (args spec) -> is_Some (kwargv !! a)) ->
   exists nkwarg,
     _runTask spec argv kwargv
     = Returned {| positional := ArgSelf :: argv; keyword := nkwarg |} /\
     forall a, nkwarg !! a
               = if decide (a ∈ last_items (length ds) (args spec))
                 then kwargv !! a else None).
Proof.
  intros Hk Hv Ha Hd. unfold _runTask. rewrite Hk, Hv, Hd.
  destruct (args spec) as [|x xs] eqn:Eargs; [done|]. simpl Nat.eqb. simpl negb.
  cbn iota. split.
  - intros Hmiss. by rewrite (collect_nkwarg_raised _ _ _ Hmiss).
  - intros Hall.
    destruct (collect_nkwarg_present _ kwargv ∅ Hall) as (r & Er). rewrite Er.
    exists r. split; [done|]. intros a.
    rewrite (collect_nkwarg_returned _ _ _ _ Er a). by rewrite lookup_empty.
Qed.

Lemma _runTask_with_defaults_witness :
  (exists a, a ∈ last_items 1 ["self"; "a"] /\
             ({["b" := PyInt 0]} : gmap string PyVal) !! a = None) /\
  _runTask spec_with_default [ArgSelf] {["b" := PyInt 0]} = Raised KeyError /\
  exists nkwarg,
    _runTask spec_with_default [ArgSelf] call_kwargv
    = Returned {| positional := [ArgSelf; ArgSelf]; keyword := nkwarg |} /\
    forall a, nkwarg !! a
              = if decide (a ∈ last_items 1 ["self"; "a"])
                then call_kwargv !! a else None.
Proof.
  assert (exists a, a ∈ last_items 1 ["self"; "a"] /\
                    ({["b" := PyInt 0]} : gmap string PyVal) !! a = None) as Hmiss.
  { exists "a". split; [vm_compute; left | vm_compute; reflexivity]. }
  split; [exact Hmiss|]. split.
  - apply (_runTask_with_defaults spec_with_default [ArgSelf] {["b" := PyInt 0]}
             [PyInt 1]); try reflexivity; [discriminate | exact Hmiss].
  - apply (_runTask_with_defaults spec_with_default [ArgSelf] call_kwargv [PyInt 1]);
      try reflexivity; [discriminate|].
    intros a Ha. vm_compute in Ha. apply list_elem_of_singleton in Ha as ->.
    vm_compute. eauto.
Defined.

(** X10. Every call that [_runTask] makes passes the task first, passes
    either nothing else or all of [argv] after it, and passes as keyword
    arguments only entries of [kwargv]. *)
Theorem _runTask_call (spec : ArgSpec) (argv : list PyArg)
    (kwargv : gmap string PyVal) (c : Call) :
  _runTask spec argv kwargv = Returned c ->
  (positional c = [ArgSelf] \/ positional c = ArgSelf :: argv) /\
  keyword c ⊆ kwargv.
Proof.
  unfold _runTask.
  destruct (keywords spec); [intros [= <-]; simpl; split; [by right | done]|].
  destruct (varargs spec);
    [intros [= <-]; simpl; split; [by right | apply map_empty_subseteq]|].
  destruct (negb _);
    [|intros [= <-]; simpl; split; [by left | apply map_empty_subseteq]].
  destruct (defaults spec) as [ds|];
    [|intros [= <-]; simpl; split; [by left | apply map_empty_subseteq]].
  destruct (collect_nkwarg _ _ _) as [r|e] eqn:E; [|done].
  intros [= <-]. simpl. split; [by right|].
  apply map_subseteq_spec. intros a v Hr.
  rewrite (collect_nkwarg_returned _ _ _ _ E a) in Hr.
  destruct (decide _); [done | by rewrite lookup_empty in Hr].
Qed.

Lemma _runTask_call_witness :
  (positional {| positional := [ArgSelf; ArgSelf]; keyword := {["a" := PyInt 2]} |}
   = [ArgSelf] \/
   positional {| positional := [ArgSelf; ArgSelf]; keyword := {["a" := PyInt 2]} |}
   = [ArgSelf; ArgSelf]) /\
  keyword {| positional := [ArgSelf; ArgSelf]; keyword := {["a" := PyInt 2]} |}
  ⊆ call_kwargv.
Proof.
  apply (_runTask_call spec_with_default [ArgSelf] call_kwargv).
  vm_compute. reflexivity.
Defined.

(** ** Collections of tasks *)

Lemma getitem_in_range (c : PypeTaskCollection) (k : nat) (t : TaskObject) :
  _tasks c !! k = Some t ->
  PypeTaskCollection__getitem__ c (Z.of_nat k) = Returned t.
Proof.
  intros Hk. pose proof (lookup_lt_Some _ _ _ Hk) as Hlt.
  unfold PypeTaskCollection__getitem__.
  destruct (Z.ltb_spec (Z.of_nat k) 0) as [?|_]; [lia|].
  destruct (Z.leb_spec 0 (Z.of_nat k)) as [_|?]; [|lia].
  destruct (Z.ltb_spec (Z.of_nat k) (Z.of_nat (length (_tasks c)))) as [_|?]; [|lia].
  simpl. by rewrite Nat2Z.id, Hk.
Qed.

Lemma getitem_beyond (c : PypeTaskCollection) (k : nat) :
  length (_tasks c) <= k ->
  PypeTaskCollection__getitem__ c (Z.of_nat k) = Raised IndexError.
Proof.
  intros Hk. unfold PypeTaskCollection__getitem__.
  destruct (Z.ltb_spec (Z.of_nat k) 0) as [?|_]; [lia|].
  destruct (Z.ltb_spec (Z.of_nat k) (Z.of_nat (length (_tasks c)))) as [?|_]; [lia|].
  by rewrite andb_false_r.
Qed.

Lemma iterate_from (c : PypeTaskCollection) (fuel k : nat) :
  length (_tasks c) - k < fuel ->
  iterate fuel c k = Some (drop k (_tasks c)).
Proof.
  revert k. induction fuel as [|fuel IH]; intros k Hfuel; [lia|]. simpl.
  destruct (_tasks c !! k) as [t|] eqn:Ek.
  - rewrite (getitem_in_range c k t Ek).
    pose proof (lookup_lt_Some _ _ _ Ek). rewrite IH by lia.
    by rewrite (drop_S _ _ _ Ek).
  - apply lookup_ge_None in Ek. rewrite (getitem_beyond c k Ek).
    by rewrite drop_ge.
Qed.

(** X11. Iterating over a collection with [c[0]], [c[1]], ... until
    [IndexError], as [enumerate] does, gives exactly its tasks, in the order
    in which they were added. *)
Theorem iterate_collection (c : PypeTaskCollection) (fuel : nat) :
  length (getTasks c) < fuel -> iterate fuel c 0 = Some (getTasks c).
Proof.
  intros Hfuel. rewrite iterate_from by (unfold getTasks in Hfuel; lia).
  by rewrite drop_0.
Qed.

Lemma iterate_collection_witness :
  iterate 2 (addTask {| tasks_URL := "tasks://t"; _tasks := [];
                        _scatterGatherTasks := [] |} test_object) 0
  = Some (getTasks (addTask {| tasks_URL := "tasks://t"; _tasks := [];
                               _scatterGatherTasks := [] |} test_object)).
Proof.
  apply (iterate_collection _ 2). vm_compute. lia.
Defined.

(** X12. After [addTask], the new task is the item at the old length and the
    item at index -1, the items before it are the ones that were there, the
    index after it raises [IndexError], and the scatter and gather tasks
    are as they were. *)
Theorem addTask_getitem (c : PypeTaskCollection) (task : TaskObject) :
  PypeTaskCollection__getitem__ (addTask c task) (Z.of_nat (length (getTasks c)))
  = Returned task /\
  PypeTaskCollection__getitem__ (addTask c task) (-1) = Returned task /\
  (forall k t, getTasks c !! k = Some t ->
               PypeTaskCollection__getitem__ (addTask c task) (Z.of_nat k)
               = Returned t) /\
  PypeTaskCollection__getitem__ (addTask c task)
    (Z.of_nat (S (length (getTasks c)))) = Raised IndexError /\
  getScatterGatherTasks (addTask c task) = getScatterGatherTasks c.
Proof.
  unfold getTasks. split; [|split; [|split; [|split]]].
  - apply getitem_in_range. simpl. by rewrite lookup_app_r, Nat.sub_diag.
  - unfold PypeTaskCollection__getitem__. simpl. rewrite length_app. simpl.
    destruct (Z.leb_spec 0 (-1 + Z.of_nat (length (_tasks c) + 1))) as [_|?]; [|lia].
    destruct (Z.ltb_spec (-1 + Z.of_nat (length (_tasks c) + 1))
                (Z.of_nat (length (_tasks c) + 1))) as [_|?]; [|lia].
    simpl.
    replace (Z.to_nat (-1 + Z.of_nat (length (_tasks c) + 1))) with (length (_tasks c))
      by lia.
    by rewrite lookup_app_r, Nat.sub_diag.
  - intros k t Hk. apply getitem_in_range. simpl. by apply lookup_app_l_Some.
  - apply getitem_beyond. simpl. rewrite length_app. simpl. lia.
  - done.
Qed.

(** ** More on the scatter decomposer *)

Lemma collect_inputs_raised (items : list (string * DataObject)) (n : option Z)
    (sc : list string) (tasks : PypeTaskCollection) (e : Exn) :
  collect_inputs items n sc tasks = Raised e -> e = AssertionError.
Proof.
  revert n sc tasks. induction items as [|[k o] items IH]; intros n sc tasks; simpl.
  - done.
  - destruct (Data.chunks o) as [c|]; [|apply IH].
    destruct n as [m|]; [|apply IH].
    case_bool_decide; [apply IH | by intros [= <-]].
Qed.

Lemma collect_outputs_raised (items : list (string * DataObject)) (n : option Z)
    (tasks : PypeTaskCollection) (e : Exn) :
  collect_outputs items n tasks = Raised e -> e = AssertionError.
Proof.
  revert n tasks. induction items as [|[k o] items IH]; intros n tasks; simpl.
  - done.
  - destruct (Data.chunks o) as [c|]; [|apply IH].
    destruct n as [m|]; [|apply IH].
    case_bool_decide; [apply IH | by intros [= <-]].
Qed.

(** When the first loop returns, the chunk count it leaves is that of every
    input that has one, and the one it started with if it started with
    one. *)
Lemma collect_inputs_agree (items : list (string * DataObject)) (n n' : option Z)
    (sc sc' : list string) (tasks tasks' : PypeTaskCollection) :
  collect_inputs items n sc tasks = Returned (n', sc', tasks') ->
  (forall m, n = Some m -> n' = Some m) /\
  (forall k o c, (k, o) ∈ items -> Data.chunks o = Some c ->
                 n' = Some (Data.nChunk c)) /\
  (n' = None -> forall k o, (k, o) ∈ items -> Data.chunks o = None).
Proof.
  revert n sc tasks. induction items as [|[k o] items IH]; intros n sc tasks; simpl.
  - intros [= <- <- <-]. split; [done|].
    split; [intros k o c Hin; inversion Hin | intros _ k o Hin; inversion Hin].
  - destruct (Data.chunks o) as [c|] eqn:Hc.
    + destruct n as [m|].
      * case_bool_decide as Hm; [|done]. intros E.
        destruct (IH _ _ _ E) as (Hkeep & Hall & Hnone).
        split; [done|]. split.
        -- intros k' o' c' Hin Hc'.
           apply elem_of_cons in Hin as [[= -> ->]|Hin]; [|by eapply Hall].
           rewrite Hc in Hc'. injection Hc' as <-. rewrite Hm. by apply Hkeep.
        -- intros Hn. by rewrite (Hkeep m eq_refl) in Hn.
      * intros E. destruct (IH _ _ _ E) as (Hkeep & Hall & Hnone).
        split; [done|]. split.
        -- intros k' o' c' Hin Hc'.
           apply elem_of_cons in Hin as [[= -> ->]|Hin]; [|by eapply Hall].
           rewrite Hc in Hc'. injection Hc' as <-. by apply Hkeep.
        -- intros Hn. by rewrite (Hkeep _ eq_refl) in Hn.
    + intros E. destruct (IH _ _ _ E) as (Hkeep & Hall & Hnone).
      split; [done|]. split.
      * intros k' o' c' Hin Hc'.
        apply elem_of_cons in Hin as [[= -> ->]|Hin]; [congruence | by eapply Hall].
      * intros Hn k' o' Hin.
        apply elem_of_cons in Hin as [[= -> ->]|Hin]; [done | by eapply Hnone].
Qed.

Lemma collect_outputs_agree (items : list (string * DataObject)) (n n' : option Z)
    (tasks tasks' : PypeTaskCollection) :
  collect_outputs items n tasks = Returned (n', tasks') ->
  (forall m, n = Some m -> n' = Some m) /\
  (forall k o c, (k, o) ∈ items -> Data.chunks o = Some c ->
                 n' = Some (Data.nChunk c)) /\
  (n' = None -> n = None /\ forall k o, (k, o) ∈ items -> Data.chunks o = None).
Proof.
  revert n tasks. induction items as [|[k o] items IH]; intros n tasks; simpl.
  - intros [= <- <-]. split; [done|].
    split; [intros k o c Hin; inversion Hin|].
    intros ->. split; [done|]. intros k o Hin. inversion Hin.
  - destruct (Data.chunks o) as [c|] eqn:Hc.
    + destruct n as [m|].
      * case_bool_decide as Hm; [|done]. intros E.
        destruct (IH _ _ E) as (Hkeep & Hall & Hnone).
        split; [done|]. split.
        -- intros k' o' c' Hin Hc'.
           apply elem_of_cons in Hin as [[= -> ->]|Hin]; [|by eapply Hall].
           rewrite Hc in Hc'. injection Hc' as <-. rewrite Hm. by apply Hkeep.
        -- intros Hn. by rewrite (Hkeep m eq_refl) in Hn.
      * intros E. destruct (IH _ _ E) as (Hkeep & Hall & Hnone).
        split; [done|]. split.
        -- intros k' o' c' Hin Hc'.
           apply elem_of_cons in Hin as [[= -> ->]|Hin]; [|by eapply Hall].
           rewrite Hc in Hc'. injection Hc' as <-. by apply Hkeep.
        -- intros Hn. by rewrite (Hkeep _ eq_refl) in Hn.
    + intros E. destruct (IH _ _ E) as (Hkeep & Hall & Hnone).
      split; [done|]. split.
      * intros k' o' c' Hin Hc'.
        apply elem_of_cons in Hin as [[= -> ->]|Hin]; [congruence | by eapply Hall].
      * intros Hn. destruct (Hnone Hn) as [-> Hrest]. split; [done|].
        intros k' o' Hin.
        apply elem_of_cons in Hin as [[= -> ->]|Hin]; [done | by eapply Hrest].
Qed.

Lemma lookup_foldr_delete_elem {A : Type} (w : gmap string A) (names : list string)
    (name : string) :
  name ∈ names -> foldr delete w names !! name = None.
Proof.
  induction names as [|n names IH]; intros Hin; [by apply elem_of_nil in Hin|].
  cbn [foldr]. apply lookup_delete_None.
  destruct (decide (n = name)) as [->|Hne]; [by left|].
  right. apply IH. by apply elem_of_cons in Hin as [->|Hin].
Qed.



(** A key [URL] among the parameters: the constructor returns a task object
    on which the entry has replaced the URL it was given. *)
Example instantiate_URL_written :
  match instantiate PypeTaskBaseT "task://tmp/pypetest/test" scatter_kwargv
          {| dataDicts := <[1%positive := test_inputs]> (<[2%positive := test_outputs]> ∅);
             paramDicts := ∅; next_loc := 3%positive |} with
  | (Returned t, _) => written t !! "URL" = None
  | (Raised _, _) => False
  end /\
  match instantiate PypeTaskBaseT "task://tmp/pypetest/test" scatter_kwargv
          {| dataDicts := <[1%positive := test_inputs]>
                            (<[2%positive := <["URL" := testfile_out]> test_outputs]> ∅);
             paramDicts := ∅; next_loc := 3%positive |} with
  | (Returned t, _) =>
      URL t = "task://tmp/pypetest/test" /\ written t !! "URL" = Some (AttrData testfile_out)
  | (Raised _, _) => False
  end.
Proof. split; vm_compute; [reflexivity | split; reflexivity]. Qed.

Lemma collect_outputs_plain (items : list (string * DataObject)) (n : option Z)
    (tasks : PypeTaskCollection) :
  (forall k o, (k, o) ∈ items -> Data.chunks o = None) ->
  collect_outputs items n tasks = Returned (n, tasks).
Proof.
  revert n tasks. induction items as [|[k o] items IH]; intros n tasks H; simpl.
  - done.
  - rewrite (H k o) by left. apply IH. intros k' o' Hin. apply (H k' o'). by right.
Qed.

Section ScatterMore.

Variable md5_hexdigest : string -> string.
Variable repr_kwargv : string -> Kwargs -> string.
Variable T : TaskType.
Variable taskFun : Function.

(** X14. When two objects among the inputs and outputs carry different
    chunk counts, the decomposer raises [AssertionError], makes no task and
    leaves the heap as it was. *)
Theorem PypeScatteredTasks_mismatch (URL_ : option string) (kw : Kwargs) (h : Heap)
    (li lo : loc) (k1 k2 : string) (o1 o2 : DataObject) (c1 c2 : Data.Chunks) :
  kw_inputDataObjs kw = Some li -> kw_outputDataObjs kw = Some lo ->
  dataAt h li !! k1 = Some o1 \/ dataAt h lo !! k1 = Some o1 ->
  dataAt h li !! k2 = Some o2 \/ dataAt h lo !! k2 = Some o2 ->
  Data.chunks o1 = Some c1 -> Data.chunks o2 = Some c2 ->
  Data.nChunk c1 <> Data.nChunk c2 ->
  PypeScatteredTasks md5_hexdigest repr_kwargv T taskFun URL_ kw h
  = (Raised AssertionError, h).
Proof.
  intros Hli Hlo H1 H2 Hc1 Hc2 Hne. unfold PypeScatteredTasks.
  rewrite Hli, Hlo. unfold bind, get_data, lift.
  destruct (collect_inputs _ _ _ _) as [[[n sc] tasks]|e] eqn:E1;
    [|by rewrite (collect_inputs_raised _ _ _ _ _ E1)].
  destruct (collect_outputs _ _ _) as [[n' tasks']|e] eqn:E2;
    [|by rewrite (collect_outputs_raised _ _ _ _ E2)].
  exfalso.
  destruct (collect_inputs_agree _ _ _ _ _ _ _ E1) as (_ & Hin & _).
  destruct (collect_outputs_agree _ _ _ _ _ E2) as (Hkeep & Hout & _).
  assert (forall k o c, dataAt h li !! k = Some o \/ dataAt h lo !! k = Some o ->
                        Data.chunks o = Some c -> n' = Some (Data.nChunk c)) as Hall.
  { intros k o c [Hk|Hk] Hc.
    - apply Hkeep. apply (Hin k o c); [by apply elem_of_map_to_list | done].
    - apply (Hout k o c); [by apply elem_of_map_to_list | done]. }
  pose proof (Hall k1 o1 c1 H1 Hc1) as E. rewrite (Hall k2 o2 c2 H2 Hc2) in E.
  by injection E as E.
Qed.

(** X15. When no input and no output has a chunk count, the decomposer
    raises [TypeError]: the range of [None]. *)
Theorem PypeScatteredTasks_no_chunks (URL_ : option string) (kw : Kwargs) (h : Heap)
    (li lo : loc) :
  kw_inputDataObjs kw = Some li -> kw_outputDataObjs kw = Some lo ->
  (forall k o, dataAt h li !! k = Some o -> Data.chunks o = None) ->
  (forall k o, dataAt h lo !! k = Some o -> Data.chunks o = None) ->
  PypeScatteredTasks md5_hexdigest repr_kwargv T taskFun URL_ kw h
  = (Raised TypeError, h).
Proof.
  intros Hli Hlo Hin Hout. unfold PypeScatteredTasks.
  rewrite Hli, Hlo. unfold bind, get_data, lift.
  rewrite collect_inputs_plain.
  2:{ intros k o Hk. apply (Hin k). by apply elem_of_map_to_list. }
  rewrite collect_outputs_plain; [done|].
  intros k o Hk. apply (Hout k). by apply elem_of_map_to_list.
Qed.

End ScatterMore.

Lemma PypeScatteredTasks_mismatch_witness :
  test_scatter {["in" := split_in]} {["out" := split_out3]}
  = (Raised AssertionError,
     scatter_heap {["in" := split_in]} {["out" := split_out3]}).
Proof.
  apply (PypeScatteredTasks_mismatch no_digest no_repr PypeTaskBaseT test_function
           None scatter_kwargv
           (scatter_heap {["in" := split_in]} {["out" := split_out3]})
           1%positive 2%positive "in" "out" split_in split_out3
           {| Data.nChunk := 2;
              Data.getSplittedFiles := [chunk_file "in" 0; chunk_file "in" 1];
              Data.getScatterTask := Some "task://scatter/in";
              Data.getGatherTask := None |}
           {| Data.nChunk := 3; Data.getSplittedFiles := [];
              Data.getScatterTask := None; Data.getGatherTask := None |}).
  - reflexivity.
  - reflexivity.
  - left. vm_compute. reflexivity.
  - right. vm_compute. reflexivity.
  - reflexivity.
  - reflexivity.
  - vm_compute. discriminate.
Defined.

Lemma PypeScatteredTasks_no_chunks_witness :
  test_scatter test_inputs test_outputs
  = (Raised TypeError, scatter_heap test_inputs test_outputs).
Proof.
  apply (PypeScatteredTasks_no_chunks no_digest no_repr PypeTaskBaseT test_function
           None scatter_kwargv _ 1%positive 2%positive); try reflexivity.
  - intros k o Hk. unfold dataAt in Hk. simpl in Hk.
    rewrite lookup_insert_eq in Hk. simpl in Hk. unfold test_inputs in Hk.
    by apply lookup_singleton_Some in Hk as [_ <-].
  - intros k o Hk. unfold dataAt in Hk. simpl in Hk.
    rewrite lookup_insert_ne in Hk by done. rewrite lookup_insert_eq in Hk.
    simpl in Hk. unfold test_outputs in Hk.
    by apply lookup_singleton_Some in Hk as [_ <-].
Defined.

Lemma collect_inputs_URL (items : list (string * DataObject))
    (n n' : option Z) (sc sc' : list string) (tasks tasks' : PypeTaskCollection) :
  collect_inputs items n sc tasks = Returned (n', sc', tasks') ->
  tasks_URL tasks' = tasks_URL tasks.
Proof.
  revert n sc tasks. induction items as [|[k o] items IH]; intros n sc tasks; simpl.
  - by intros [= <- <- <-].
  - destruct (Data.chunks o) as [c|]; [|apply IH].
    destruct n as [m|].
    + case_bool_decide; [apply IH | done].
    + intros E. rewrite (IH _ _ _ E). by destruct (Data.getScatterTask c).
Qed.

Lemma collect_outputs_URL (items : list (string * DataObject))
    (n n' : option Z) (tasks tasks' : PypeTaskCollection) :
  collect_outputs items n tasks = Returned (n', tasks') ->
  tasks_URL tasks' = tasks_URL tasks.
Proof.
  revert n tasks. induction items as [|[k o] items IH]; intros n tasks; simpl.
  - by intros [= <- <-].
  - destruct (Data.chunks o) as [c|]; [|apply IH].
    destruct n as [m|]; [|apply IH].
    case_bool_decide; [|done].
    intros E. rewrite (IH _ _ E). by destruct (Data.getGatherTask c).
Qed.

Section ScatterTasks.

Variable md5_hexdigest : string -> string.
Variable repr_kwargv : string -> Kwargs -> string.
Variable T : TaskType.
Variable taskFun : Function.

Lemma chunk_task_fields (URL_ : string) (kw : Kwargs)
    (ins outs : gmap string DataObject) (sc : list string) (i : nat)
    (h h' : Heap) (t : TaskObject) :
  chunk_task md5_hexdigest repr_kwargv T taskFun URL_ kw ins outs sc i h
  = (Returned t, h') ->
  URL t = str_replace "tasks" "task" URL_ ++ "/" ++ fmt_0d 3 i /\
  chunk_id t = Some (Z.of_nat i) /\ _status t = TaskInitialized /\
  written t !! "chunk_id" = None.
Proof.
  unfold chunk_task, bind, lift.
  destruct (subTaskInput _ _ _ _) as [subIn|e]; [|done].
  destruct (subTaskOutput _ _ _) as [subOut|e]; [|done].
  unfold new_data_dict. cbn beta iota zeta. intros E.
  pose proof (instantiate_fields _ _ _ _ _ _ E) as (H1 & H2 & _ & H4 & _).
  apply instantiate_spec in E as (self & _ & _ & Hw & _).
  repeat (split; [done|]). rewrite Hw. apply lookup_foldr_delete_elem.
  unfold assigned_last, assigned_after. simpl.
  destruct T; simpl; rewrite !elem_of_cons; tauto.
Qed.

Lemma chunk_tasks_fields (URL_ : string) (kw : Kwargs)
    (ins outs : gmap string DataObject) (sc : list string) (range : list nat) :
  forall (tasks c : PypeTaskCollection) (h h' : Heap),
    chunk_tasks md5_hexdigest repr_kwargv T taskFun URL_ kw ins outs sc range tasks h
    = (Returned c, h') ->
    tasks_URL c = tasks_URL tasks /\
    exists ts, _tasks c = (_tasks tasks ++ ts)%list /\
      Forall2 (fun (i : nat) (t : TaskObject) =>
                 URL t = str_replace "tasks" "task" URL_ ++ "/" ++ fmt_0d 3 i /\
                 chunk_id t = Some (Z.of_nat i) /\ _status t = TaskInitialized /\
                 written t !! "chunk_id" = None)
              range ts.
Proof.
  induction range as [|i range IH]; intros tasks c h h'; simpl.
  - unfold ret. intros [= <- <-]. split; [done|]. exists []. split; [|constructor].
    by rewrite app_nil_r.
  - unfold bind.
    destruct (chunk_task _ _ _ _ _ _ _ _ _ _ _) as [[t|e] h1] eqn:Et; [|done].
    intros E. destruct (IH _ _ _ _ E) as (Hurl & ts & Hts & Hall). simpl in *.
    split; [done|]. exists (t :: ts). split.
    + by rewrite Hts, <- app_assoc.
    + constructor; [by eapply chunk_task_fields | done].
Qed.

(** X16. When the decomposer returns, the collection has as many tasks as
    the chunk count, which every object with a chunk count shares.  To the
    task at index [i] the constructor has assigned the chunk id [i], which no
    entry of a dictionary replaces, the status [TaskInitialized] and the URL
    of the collection with the word tasks replaced by task, a slash and the
    three-digit form of [i]; the URLs assigned differ from one another.  When
    the dictionaries passed are different objects, and not both [mutables]
    and [mutableDataObjs] are given, the entries written over the attributes
    of a task are those of its four dictionaries, except under the names
    assigned after the loop: the URL and the status assigned are those of
    the task exactly when no dictionary of it has the key [URL] or
    [_status]. *)
Theorem PypeScatteredTasks_tasks (URL_ : option string) (kw : Kwargs) (h h' : Heap)
    (c : PypeTaskCollection) :
  PypeScatteredTasks md5_hexdigest repr_kwargv T taskFun URL_ kw h = (Returned c, h') ->
  exists (n : Z) (li lo : loc),
    kw_inputDataObjs kw = Some li /\ kw_outputDataObjs kw = Some lo /\
    (forall k o ch, dataAt h li !! k = Some o \/ dataAt h lo !! k = Some o ->
                    Data.chunks o = Some ch -> Data.nChunk ch = n) /\
    length (getTasks c) = Z.to_nat n /\
    tasks_URL c = default_tasks_URL taskFun URL_ /\
    (forall (i : nat) (t : TaskObject), getTasks c !! i = Some t ->
       URL t = str_replace "tasks" "task" (tasks_URL c) ++ "/" ++ fmt_0d 3 i /\
       chunk_id t = Some (Z.of_nat i) /\ getStatus t = TaskInitialized /\
       written t !! "chunk_id" = None) /\
    NoDup ((fun t : TaskObject => URL t) <$> getTasks c) /\
    (distinct_dicts kw h -> kw_mutables kw = None \/ kw_mutableDataObjs kw = None ->
     forall (i : nat) (t : TaskObject), getTasks c !! i = Some t ->
       written t = foldr delete (dictionary_entries h' t)
                     (assigned_last T (Some (Z.of_nat i))) /\
       forall name, name = "URL" \/ name = "_status" ->
                    written t !! name = dictionary_entries h' t !! name).
Proof.
  intros Eall. pose proof Eall as E. unfold PypeScatteredTasks in E.
  destruct (kw_inputDataObjs kw) as [li|] eqn:Hli; [|done].
  destruct (kw_outputDataObjs kw) as [lo|] eqn:Hlo; [|done].
  unfold bind, get_data, lift in E.
  destruct (collect_inputs _ _ _ _) as [[[n0 sc] tasks0]|e] eqn:E1; [|done].
  destruct (collect_outputs _ _ _) as [[n1 tasks1]|e] eqn:E2; [|done].
  destruct n1 as [n|]; [|done].
  apply chunk_tasks_fields in E as (Hurl & ts & Hts & Hall).
  rewrite (collect_outputs_tasks _ _ _ _ _ E2),
    (collect_inputs_tasks _ _ _ _ _ _ _ E1) in Hts. simpl in Hts.
  rewrite (collect_outputs_URL _ _ _ _ _ E2),
    (collect_inputs_URL _ _ _ _ _ _ _ E1) in Hurl. simpl in Hurl.
  destruct (collect_inputs_agree _ _ _ _ _ _ _ E1) as (_ & Hin & _).
  destruct (collect_outputs_agree _ _ _ _ _ E2) as (Hkeep & Hout & _).
  assert (forall (i : nat) (t : TaskObject), getTasks c !! i = Some t ->
            URL t = str_replace "tasks" "task" (tasks_URL c) ++ "/" ++ fmt_0d 3 i /\
            chunk_id t = Some (Z.of_nat i) /\ getStatus t = TaskInitialized /\
            written t !! "chunk_id" = None) as Hidx.
  { intros i t Hi. unfold getTasks in Hi. rewrite Hts in Hi.
    destruct (Forall2_lookup_r _ _ _ _ _ Hall Hi) as (j & Hj & Ht).
    apply lookup_seq in Hj as [-> _]. by rewrite Hurl. }
  exists n, li, lo. split; [done|]. split; [done|]. split.
  { intros k o ch [Hk|Hk] Hch.
    - assert (Some n = Some (Data.nChunk ch)) as [= ->]; [|done].
      apply Hkeep. apply (Hin k o ch); [by apply elem_of_map_to_list | done].
    - assert (Some n = Some (Data.nChunk ch)) as [= ->]; [|done].
      apply (Hout k o ch); [by apply elem_of_map_to_list | done]. }
  split.
  { unfold getTasks. rewrite Hts. apply Forall2_length in Hall.
    by rewrite <- Hall, length_seq. }
  split; [done|]. split; [exact Hidx|]. split.
  { apply NoDup_alt. intros i j u Hi Hj.
    apply list_lookup_fmap_Some in Hi as (ti & -> & Hi).
    apply list_lookup_fmap_Some in Hj as (tj & Heq & Hj).
    destruct (Hidx i ti Hi) as (Hui & _). destruct (Hidx j tj Hj) as (Huj & _).
    rewrite Hui, Huj in Heq.
    apply (inj (String.app _)) in Heq. apply (inj (String.app "/")) in Heq.
    by apply fmt_0d_inj in Heq. }
  intros Hdist Hmut i t Hi.
  destruct (PypeScatteredTasks_spec md5_hexdigest repr_kwargv T taskFun _ _ _ _ _ _ _
              Hdist Hmut Hli Hlo Eall) as (m & sc' & _ & _ & Hmade).
  destruct (Forall2_lookup_r _ _ _ _ _ Hmade Hi) as (j & Hj & Ht).
  apply lookup_seq in Hj as [-> _]. simpl in Ht.
  destruct Ht as (_ & _ & _ & _ & _ & _ & Hw & _). split; [done|].
  intros name Hname. rewrite Hw. apply lookup_foldr_delete.
  apply not_assigned_last; by destruct Hname as [->| ->].
Qed.

End ScatterTasks.

Lemma PypeScatteredTasks_tasks_witness :
  exists c h',
    test_scatter {["in" := split_in]} {["out" := split_out]} = (Returned c, h') /\
    exists (n : Z) (li lo : loc),
      kw_inputDataObjs scatter_kwargv = Some li /\
      kw_outputDataObjs scatter_kwargv = Some lo /\
      (forall k o ch,
         dataAt (scatter_heap {["in" := split_in]} {["out" := split_out]}) li !! k
         = Some o \/
         dataAt (scatter_heap {["in" := split_in]} {["out" := split_out]}) lo !! k
         = Some o ->
         Data.chunks o = Some ch -> Data.nChunk ch = n) /\
      length (getTasks c) = Z.to_nat n /\
      tasks_URL c = default_tasks_URL test_function None /\
      (forall (i : nat) (t : TaskObject), getTasks c !! i = Some t ->
         URL t = str_replace "tasks" "task" (tasks_URL c) ++ "/" ++ fmt_0d 3 i /\
         chunk_id t = Some (Z.of_nat i) /\ getStatus t = TaskInitialized /\
         written t !! "chunk_id" = None) /\
      NoDup ((fun t : TaskObject => URL t) <$> getTasks c) /\
      (distinct_dicts scatter_kwargv
         (scatter_heap {["in" := split_in]} {["out" := split_out]}) ->
       kw_mutables scatter_kwargv = None \/ kw_mutableDataObjs scatter_kwargv = None ->
       forall (i : nat) (t : TaskObject), getTasks c !! i = Some t ->
         written t = foldr delete (dictionary_entries h' t)
                       (assigned_last PypeTaskBaseT (Some (Z.of_nat i))) /\
         forall name, name = "URL" \/ name = "_status" ->
                      written t !! name = dictionary_entries h' t !! name).
Proof.
  assert (is_Returned (fst (test_scatter {["in" := split_in]} {["out" := split_out]}))
          = true) as Hret by (vm_compute; reflexivity).
  destruct (test_scatter {["in" := split_in]} {["out" := split_out]})
    as [[c|e] h'] eqn:E; [|discriminate Hret].
  exists c, h'. split; [reflexivity|].
  exact (PypeScatteredTasks_tasks _ _ _ _ _ _ _ _ _ E).
Defined.
